(** * StablePay off-ramp gateway: quote, KYC and transaction core

    A shallow embedding of the state-progression core of the StablePay
    API server, and the properties its specification states about it.

    Definitions:
    - [Js]          the JavaScript values the code computes with: IEEE-754
                    doubles ([number]), truthiness, exceptions.
    - [Value]       untyped values: request bodies, documents, answers.
    - [Rate]        [getUsdInrRate].
    - [Fee]         [calculateQuote] and [generateDepositAddress].
    - [NameMatch]   name cleaning, [levenshteinDistance],
                    [calculateNameSimilarity].
    - [Sha256]      SHA-256 and HMAC, as [crypto.createHmac] computes them.
    - [Session], [KycSession], [Quote], [Transaction], [WebhookEvent]
                    the records of the schema and their partial updates.
    - [MemStorage]  the in-memory storage class.
    - [Webhook]     [deliverWebhook] and [verifyWebhookSignature].
    - [Storage], [Routes]  the storage class [EnhancedDatabaseStorage]
                    and the quote and KYC handlers read on typed
                    requests over it.
    - [Method], [Scenario], ...  vocabulary and example data.
    - [NameNormalize]  [normalizeAndMatchName], [calculateSimilarity], and
                    the clean form of a name.
    - [WebhookTest] the webhook test endpoint.
    - [Cashfree]    [callCashfreeKycApi], [generateCashfreeSignature], and
                    the KYC handlers with the call they make.
    - [KycShape]    what a KYC request does to the storage.
    - [Partner], [Accounts]  partners and [authenticateApiKey].
    - [StorageApi], [MockStorage], [Spy]  the calls the enhanced routes
                    make on their storage object, the storage object
                    they import, and a storage that records its calls.
    - [EnhancedRoutes]  the handlers of the enhanced routes on untyped
                    requests, over whatever storage they are given.
    - [Wired]       the enhanced routes on the storage they import.
    - [KycAsks]     what a handler may ask of the storage about a KYC
                    session.
    - [FloatSpec]   the quote arithmetic on the specification of the
                    doubles.

    Properties: one module of facts per component, after the
    definitions. *)

From Stdlib Require Import ZArith String Ascii List.
From Stdlib Require Import Floats.
From stdpp Require Import base option list gmap strings pretty.

Set Warnings "-inexact-float,-register-all".


(* ===================================================================== *)
(** * JavaScript values *)
(* ===================================================================== *)

Module Js.

(** A JavaScript [number] is an IEEE-754 binary64 value; the kernel's
    primitive floats are exactly these, with round-to-nearest-even. *)
Abbreviation number := PrimFloat.float.

(** [!!x] for a number: every number except [0], [-0] and [NaN]. *)
Definition truthyNum (x : number) : bool :=
  negb (PrimFloat.eqb x 0%float) && negb (PrimFloat.is_nan x).

(** [!!s] for a string: every string except the empty one. *)
Definition truthyStr (s : string) : bool :=
  negb (String.eqb s EmptyString).

(** [!!x] for a value that is a string, [null] or [undefined]. *)
Definition truthy (x : option string) : bool :=
  match x with
  | Some s => truthyStr s
  | None => false
  end.

(** [a || b] on such values. *)
Definition or_else (a b : option string) : option string :=
  if truthy a then a else b.

(** The result of evaluating an [async] function body: it returns a
    value or it throws (the promise rejects). *)
Inductive Outcome (A : Type) : Type :=
| Returns (a : A)
| Throws (err : string).
Arguments Returns {A} a.
Arguments Throws {A} err.

Definition bind {A B} (o : Outcome A) (k : A -> Outcome B) : Outcome B :=
  match o with
  | Returns a => k a
  | Throws e => Throws e
  end.

(** [try { body } catch (error) { handler }]. *)
Definition try_catch {A} (body : Outcome A) (handler : string -> Outcome A) : Outcome A :=
  match body with
  | Returns a => Returns a
  | Throws e => handler e
  end.

(** A non-negative integer as a number (exact below 2^53). *)
Fixpoint ofPositive (p : positive) : number :=
  match p with
  | xH => 1%float
  | xO q => (2 * ofPositive q)%float
  | xI q => (2 * ofPositive q + 1)%float
  end.

Definition ofZ (z : Z) : number :=
  match z with
  | Zpos p => ofPositive p
  | _ => 0%float
  end.

Definition ofNat (n : nat) : number := ofZ (Z.of_nat n).

End Js.

#[global] Instance outcome_ret : MRet Js.Outcome := @Js.Returns.
#[global] Instance outcome_bind : MBind Js.Outcome := λ A B k o, Js.bind o k.


(* ===================================================================== *)
(** * Untyped values: request bodies, stored documents, answers *)
(* ===================================================================== *)

(** A request body is whatever JSON the client sent, and the storage
    object of the enhanced routes is declared [any] throughout: the
    handlers test and copy values without knowing their type. [Value.t]
    is the part of the JavaScript values they can meet: JSON data,
    [undefined], [Date] objects, and members inherited from a prototype
    ([Native], met when a table is indexed with a name such as
    'constructor'). Strings are byte strings: a string method that
    counts UTF-16 units is modelled on ASCII text. *)

Module Value.
Import Js.

Inductive t :=
| Undefined
| Null
| Bool (b : bool)
| Num (x : number)
| Str (s : string)
| Date (ms : Z)
| Arr (items : list t)
| Obj (fields : list (string * t))
| Native (name : string).

(** [!!v]. *)
Definition truthy (v : t) : bool :=
  match v with
  | Undefined | Null => false
  | Bool b => b
  | Num x => truthyNum x
  | Str s => truthyStr s
  | Date _ | Arr _ | Obj _ | Native _ => true
  end.

(** [a || b]. *)
Definition orElse (a b : t) : t := if truthy a then a else b.

(** [a && b]. *)
Definition andThen (a b : t) : t := if truthy a then b else a.

(** The string or the number a value is, when it is one: what a typed
    document keeps of it. *)
Definition asStr (v : t) : option string :=
  match v with
  | Str s => Some s
  | _ => None
  end.

Definition asNum (v : t) : option number :=
  match v with
  | Num x => Some x
  | _ => None
  end.

(** [v === 'text']. *)
Definition isStr (v : t) (text : string) : bool :=
  match v with
  | Str s => String.eqb s text
  | _ => false
  end.

(** The own property [name] of an object with these properties. *)
Definition own (name : string) (fields : list (string * t)) : option t :=
  snd <$> List.find (fun kv => String.eqb (fst kv) name) fields.


(** [v.name], for a [name] that no prototype defines (every property
    name the handlers write out is one): reading a property of
    [undefined] or [null] throws a [TypeError]. *)
Definition get (name : string) (v : t) : Outcome t :=
  match v with
  | Undefined => Throws ("Cannot read properties of undefined (reading '" +:+ name +:+ "')")
  | Null => Throws ("Cannot read properties of null (reading '" +:+ name +:+ "')")
  | Obj fields => Returns (default Undefined (own name fields))
  | _ => Returns Undefined
  end.

(** [v?.name]. *)
Definition getOpt (name : string) (v : t) : t :=
  match v with
  | Obj fields => default Undefined (own name fields)
  | _ => Undefined
  end.

(** [{ ...fields, name: v }]: a key that is there keeps its place. *)
Fixpoint set (name : string) (v : t) (fields : list (string * t)) : list (string * t) :=
  match fields with
  | [] => [(name, v)]
  | (k, x) :: rest =>
      if String.eqb k name then (k, v) :: rest else (k, x) :: set name v rest
  end.

Definition assign (fields updates : list (string * t)) : list (string * t) :=
  fold_left (fun acc kv => set (fst kv) (snd kv) acc) updates fields.

(** The own enumerable properties [{ ...v }] copies. *)
Definition props (v : t) : list (string * t) :=
  match v with
  | Obj fields => fields
  | Arr items => imap (fun i x => (pretty i, x)) items
  | Str s => imap (fun i ch => (pretty i, Str (String ch EmptyString))) (list_ascii_of_string s)
  | _ => []
  end.

(** [{ ...v, k1: v1, ... }]. *)
Definition spread (v : t) (updates : list (string * t)) : t :=
  Obj (assign (props v) updates).

(** The names every object inherits from [Object.prototype]. *)
Definition inherited : list string :=
  [ "constructor"; "toString"; "toLocaleString"; "valueOf"; "hasOwnProperty";
    "isPrototypeOf"; "propertyIsEnumerable"; "__proto__"; "__defineGetter__";
    "__defineSetter__"; "__lookupGetter__"; "__lookupSetter__" ].

(** [table[key]] for an object literal [table] and a string key. *)
Definition index (table : list (string * t)) (key : string) : t :=
  match own key table with
  | Some v => v
  | None => if bool_decide (key ∈ inherited) then Native key else Undefined
  end.

(** Whether [String(v)] returns: an object from JSON with a property
    [toString] of its own has no callable conversion, and converting it
    throws a [TypeError]; an array converts its elements. *)
Fixpoint convertible (v : t) : bool :=
  match v with
  | Obj fields => negb (bool_decide (is_Some (own "toString" fields)))
  | Arr items => forallb convertible items
  | _ => true
  end.

(** [v.slice(-4)]: strings and arrays have the method. *)
Definition lastFour (v : t) : Outcome t :=
  match v with
  | Str s =>
      Returns (Str (string_of_list_ascii
                      (drop (String.length s - 4) (list_ascii_of_string s))))
  | Arr items => Returns (Arr (drop (length items - 4) items))
  | _ => Throws "aadhaarNumber.slice is not a function"
  end.

(** The functions of the language whose results are only copied:
    [Number.prototype.toString], [Date.prototype.toString], the source
    text of a built-in, and the conversion of a string to a number. *)
Record Runtime := {
  numberToString : number -> string;
  dateToString : Z -> string;
  nativeToString : string -> string;
  stringToNumber : string -> number;
  parseFloat : string -> number
}.

Section Conversions.
Variable rt : Runtime.

(** [String(v)]. *)
Fixpoint toText (v : t) : Outcome string :=
  match v with
  | Undefined => Returns "undefined"
  | Null => Returns "null"
  | Bool true => Returns "true"
  | Bool false => Returns "false"
  | Num x => Returns (numberToString rt x)
  | Str s => Returns s
  | Date ms => Returns (dateToString rt ms)
  | Arr items =>
      (fix join (l : list t) : Outcome string :=
         match l with
         | [] => Returns EmptyString
         | x :: rest =>
             match (match x with
                    | Undefined | Null => Returns EmptyString
                    | _ => toText x
                    end) with
             | Throws e => Throws e
             | Returns a =>
                 match rest with
                 | [] => Returns a
                 | _ :: _ =>
                     match join rest with
                     | Throws e => Throws e
                     | Returns b => Returns (a +:+ "," +:+ b)
                     end
                 end
             end
         end) items
  | Obj fields =>
      if bool_decide (is_Some (own "toString" fields))
      then Throws "Cannot convert object to primitive value"
      else Returns "[object Object]"
  | Native name => Returns (nativeToString rt name)
  end.

(** [v.toString()]. *)
Definition callToString (v : t) : Outcome string :=
  match v with
  | Undefined => Throws "Cannot read properties of undefined (reading 'toString')"
  | Null => Throws "Cannot read properties of null (reading 'toString')"
  | Obj fields =>
      if bool_decide (is_Some (own "toString" fields))
      then Throws "quote.amount.toString is not a function"
      else Returns "[object Object]"
  | _ => toText v
  end.

(** A time stamp as a number; exact, a [Date] being at most 8.64e15
    milliseconds from the epoch. *)
Definition ofMs (ms : Z) : number :=
  match ms with
  | Z0 => 0%float
  | Zpos p => ofPositive p
  | Zneg p => (- ofPositive p)%float
  end.

(** [Number(v)], as a comparison converts its operand. *)
Definition toNumber (v : t) : Outcome number :=
  match v with
  | Undefined => Returns PrimFloat.nan
  | Null => Returns 0%float
  | Bool true => Returns 1%float
  | Bool false => Returns 0%float
  | Num x => Returns x
  | Str s => Returns (stringToNumber rt s)
  | Date ms => Returns (ofMs ms)
  | Arr _ | Obj _ | Native _ =>
      match toText v with
      | Returns s => Returns (stringToNumber rt s)
      | Throws e => Throws e
      end
  end.

(** [new Date() > v], the date being [now]. *)
Definition dateAfter (now : Z) (v : t) : Outcome bool :=
  match v with
  | Date ms => Returns (ms <? now)%Z
  | _ =>
      match toNumber v with
      | Returns x => Returns (PrimFloat.ltb x (ofMs now))
      | Throws e => Throws e
      end
  end.

(** ['text' + v]. *)
Definition append (text : string) (v : t) : Outcome t :=
  match toText v with
  | Returns s => Returns (Str (text +:+ s))
  | Throws e => Throws e
  end.

(** [parseFloat(v)]. *)
Definition parseFloatOf (v : t) : Outcome number :=
  match toText v with
  | Returns s => Returns (parseFloat rt s)
  | Throws e => Throws e
  end.
End Conversions.

(** [{ success: false, error }] and [{ success: true, data }]. *)
Definition failure (error : string) : t :=
  Obj [("success", Bool false); ("error", Str error)].

Definition success (data : t) : t :=
  Obj [("success", Bool true); ("data", data)].

End Value.

(* ===================================================================== *)
(** * Rate provider *)
(* ===================================================================== *)

Module Rate.
Import Js.

(** The body of the exchange-rate API answer, as far as the code reads
    it: [data.result] and [data.conversion_rates?.INR], a JSON number
    when it is there. *)
Record FxData := {
  result : option string;
  conversion_rates_INR : option number
}.

(** What [fetch(...)] followed by [response.json()] can do. *)
Inductive FxCall :=
| FetchRejects (err : string)      (* network error, timeout, abort *)
| JsonRejects (err : string)       (* the body is not JSON (an HTML error page) *)
| JsonNull                         (* the body is the JSON value null *)
| JsonData (data : FxData).

(** The part of the world [getUsdInrRate] depends on. *)
Record FxEnv := {
  EXCHANGE_RATE_API_KEY : option string;
  exchangeRateApi : FxCall
}.

Definition isSuccess (d : FxData) : bool :=
  match result d with
  | Some r => String.eqb r "success"
  | None => false
  end.

(** The [try] block of [getUsdInrRate]. *)
Definition getUsdInrRate_body (env : FxEnv) : Outcome number :=
  if truthy (EXCHANGE_RATE_API_KEY env) then
    match exchangeRateApi env with
    | FetchRejects e => Throws e
    | JsonRejects e => Throws e
    | JsonNull => Throws "TypeError: Cannot read properties of null"
    | JsonData data =>
        match conversion_rates_INR data with
        | Some rate =>
            if isSuccess data && truthyNum rate then Returns rate
            else Returns 83.40%float
        | None => Returns 83.40%float
        end
    end
  else Returns 83.40%float.

Definition getUsdInrRate (env : FxEnv) : Outcome number :=
  try_catch (getUsdInrRate_body env) (fun _ => Returns 83.40%float).

(** The external call delivered a usable live rate. *)
Definition liveRate (env : FxEnv) : option number :=
  if truthy (EXCHANGE_RATE_API_KEY env) then
    match exchangeRateApi env with
    | JsonData data =>
        match conversion_rates_INR data with
        | Some rate => if isSuccess data && truthyNum rate then Some rate else None
        | None => None
        end
    | _ => None
    end
  else None.

(** An environment in which the API answers with the rate [r]. *)
Definition answering (r : number) : FxEnv :=
  {| EXCHANGE_RATE_API_KEY := Some "key";
     exchangeRateApi := JsonData {| result := Some "success";
                                    conversion_rates_INR := Some r |} |}.

End Rate.

(* ===================================================================== *)
(** * Fee calculator *)
(* ===================================================================== *)

Module Fee.
Import Js.

Record DepositAddress := {
  address : Value.t;
  da_minConfirmations : Value.t
}.

(** [generateDepositAddress(network)]: two object literals indexed with
    the network, each with a default for a falsy entry. An object
    literal also answers the names it inherits. *)
Definition generateDepositAddress (network : string) : DepositAddress :=
  let addresses :=
    [ ("polygon", Value.Str "0x8e1234567890abcdef1234567890abcdef1234567");
      ("ethereum", Value.Str "0x1234567890abcdef1234567890abcdef12345678");
      ("bsc", Value.Str "0xabcdef1234567890abcdef1234567890abcdef12");
      ("solana", Value.Str "9WzDXwBbmkg8ZTbNMqUxvQRAyrZzDsGYdLVL9zYtAWWM") ] in
  let confirmations :=
    [ ("polygon", Value.Num 12); ("ethereum", Value.Num 12);
      ("bsc", Value.Num 15); ("solana", Value.Num 1) ] in
  {| address :=
       Value.orElse (Value.index addresses network) (Value.index addresses "polygon");
     da_minConfirmations :=
       Value.orElse (Value.index confirmations network) (Value.Num 12) |}.

Record QuoteData := {
  fxRate : number;
  grossInr : number;
  tds : number;
  platformFee : number;
  gst : number;
  netInr : number;
  depositAddress : Value.t;
  minConfirmations : Value.t
}.

(** The arithmetic of [calculateQuote], for a given rate. *)
Definition quoteAt (fxRate amountUsd : number) (network : string) : QuoteData :=
  let grossInr := (amountUsd * fxRate)%float in
  let tds := (grossInr * 0.01)%float in
  let platformFee := (grossInr * 0.007)%float in
  let gst := (platformFee * 0.18)%float in
  let netInr := (grossInr - tds - platformFee - gst)%float in
  let depositAddress := generateDepositAddress network in
  {| fxRate := fxRate;
     grossInr := grossInr;
     tds := tds;
     platformFee := platformFee;
     gst := gst;
     netInr := netInr;
     depositAddress := address depositAddress;
     minConfirmations := da_minConfirmations depositAddress |}.

(** [calculateQuote(amountUsd, asset, network)]. *)
Definition calculateQuote (env : Rate.FxEnv) (amountUsd : number) (asset network : string)
  : Outcome QuoteData :=
  fxRate ← Rate.getUsdInrRate env;
  Returns (quoteAt fxRate amountUsd network).

End Fee.

(* ===================================================================== *)
(** * Name matching *)
(* ===================================================================== *)

Module NameMatch.
Import Js.

(** Strings are sequences of 8-bit characters; the string functions of
    the language are modelled on them as they act on ASCII text. *)

(** [String.prototype.toLowerCase]. *)
Definition lowerChar (c : ascii) : ascii :=
  let n := nat_of_ascii c in
  if (65 <=? n)%nat && (n <=? 90)%nat then ascii_of_nat (n + 32) else c.

Definition toLowerCase (s : string) : string :=
  string_of_list_ascii (map lowerChar (list_ascii_of_string s)).

(** The class [\s]: tab, line feed, vertical tab, form feed, carriage
    return, space. *)
Definition isSpace (c : ascii) : bool :=
  let n := nat_of_ascii c in
  ((9 <=? n)%nat && (n <=? 13)%nat) || (n =? 32)%nat.

Fixpoint trimStartL (l : list ascii) : list ascii :=
  match l with
  | c :: l' => if isSpace c then trimStartL l' else l
  | [] => []
  end.

(** [String.prototype.trim]. *)
Definition trim (s : string) : string :=
  string_of_list_ascii
    (rev (trimStartL (rev (trimStartL (list_ascii_of_string s))))).

(** [s.replace(/\s+/g, ' ')]: every maximal run of white space becomes
    one space. [inRun] says that the previous character was white
    space. *)
Fixpoint collapseL (inRun : bool) (l : list ascii) : list ascii :=
  match l with
  | [] => []
  | c :: l' =>
      if isSpace c then
        if inRun then collapseL true l' else " "%char :: collapseL true l'
      else c :: collapseL false l'
  end.

Definition collapseSpaces (s : string) : string :=
  string_of_list_ascii (collapseL false (list_ascii_of_string s)).

(** [name.toLowerCase().trim().replace(/\s+/g, ' ')], the cleaning
    step of the name-match handler. *)
Definition cleanName (name : string) : string :=
  collapseSpaces (trim (toLowerCase name)).

(** One row of the matrix of [levenshteinDistance]: [c2] is
    [str2.charAt(i - 1)], [prev] is [matrix[i - 1]] from column
    [j - 1] on, and [left] is [matrix[i][j - 1]]. *)
Fixpoint fillRow (c2 : ascii) (str1 : list ascii) (prev : list nat) (left : nat) : list nat :=
  match str1, prev with
  | c1 :: str1', diag :: ((up :: _) as prev') =>
      let cell :=
        if Ascii.eqb c2 c1 then diag
        else Nat.min (diag + 1) (Nat.min (left + 1) (up + 1)) in
      cell :: fillRow c2 str1' prev' cell
  | _, _ => []
  end.

(** The rows [matrix[1]], ..., [matrix[str2.length]], given
    [matrix[i - 1]]; row [i] starts with [matrix[i][0] = i]. *)
Fixpoint fillRows (str1 str2 : list ascii) (i : nat) (prev : list nat) : list (list nat) :=
  match str2 with
  | [] => []
  | c2 :: str2' =>
      let row := i :: fillRow c2 str1 prev i in
      row :: fillRows str1 str2' (S i) row
  end.

Definition levenshteinMatrix (str1 str2 : string) : list (list nat) :=
  let s1 := list_ascii_of_string str1 in
  let s2 := list_ascii_of_string str2 in
  let row0 := seq 0 (S (length s1)) in
  row0 :: fillRows s1 s2 1 row0.

(** [levenshteinDistance(str1, str2)]: [matrix[str2.length][str1.length]]. *)
Definition levenshteinDistance (str1 str2 : string) : nat :=
  default 0%nat
    (row ← levenshteinMatrix str1 str2 !! String.length str2;
     row !! String.length str1).

(** [calculateNameSimilarity(name1, name2)]. *)
Definition calculateNameSimilarity (name1 name2 : string) : number :=
  let maxLength := Nat.max (String.length name1) (String.length name2) in
  if (maxLength =? 0)%nat then 1.0%float
  else
    let distance := levenshteinDistance name1 name2 in
    ((ofNat maxLength - ofNat distance) / ofNat maxLength)%float.

Record NameMatchResult := {
  similarity : number;
  isMatch : bool;
  confidence : string
}.

(** The body of the name-match endpoint, once [name1] and [name2] are
    known to be present. *)
Definition nameMatch (name1 name2 : string) : NameMatchResult :=
  let cleanName1 := cleanName name1 in
  let cleanName2 := cleanName name2 in
  let similarity := calculateNameSimilarity cleanName1 cleanName2 in
  {| similarity := similarity;
     isMatch := PrimFloat.ltb 0.8%float similarity;
     confidence :=
       if PrimFloat.ltb 0.9%float similarity then "HIGH"
       else if PrimFloat.ltb 0.7%float similarity then "MEDIUM"
       else "LOW" |}.

End NameMatch.

(* ===================================================================== *)
(** * SHA-256 and HMAC (node's [crypto.createHmac('sha256', key)]) *)
(* ===================================================================== *)

Module Sha256.
#[local] Open Scope Z_scope.

(** 32-bit words are integers in [0, 2^32); sums wrap around. *)
Definition add32 (a b : Z) : Z := Z.land (a + b) 0xFFFFFFFF.

Definition rotr (n x : Z) : Z :=
  Z.lor (Z.shiftr x n) (Z.land (Z.shiftl x (32 - n)) 0xFFFFFFFF).

Definition not32 (x : Z) : Z := Z.lxor x 0xFFFFFFFF.

Definition Ch (x y z : Z) : Z := Z.lxor (Z.land x y) (Z.land (not32 x) z).
Definition Maj (x y z : Z) : Z :=
  Z.lxor (Z.lxor (Z.land x y) (Z.land x z)) (Z.land y z).
Definition Sigma0 (x : Z) : Z := Z.lxor (Z.lxor (rotr 2 x) (rotr 13 x)) (rotr 22 x).
Definition Sigma1 (x : Z) : Z := Z.lxor (Z.lxor (rotr 6 x) (rotr 11 x)) (rotr 25 x).
Definition sigma0 (x : Z) : Z := Z.lxor (Z.lxor (rotr 7 x) (rotr 18 x)) (Z.shiftr x 3).
Definition sigma1 (x : Z) : Z := Z.lxor (Z.lxor (rotr 17 x) (rotr 19 x)) (Z.shiftr x 10).

(** The first primes, by trial division. *)
Definition isPrime (n : Z) : bool :=
  (1 <? n) && forallb (fun d => negb (n mod d =? 0)) (seqZ 2 (Z.sqrt n - 1)).

Definition firstPrimes (count : nat) : list Z :=
  take count (filter (fun n => isPrime n = true) (seqZ 2 400)).

(** The integer cube root, one bit at a time from bit 34 down. *)
Definition cubeRoot (n : Z) : Z :=
  fold_left
    (fun r bit => let r' := r + Z.shiftl 1 bit in if r' * r' * r' <=? n then r' else r)
    (map (fun i => 34 - i) (seqZ 0 35)) 0.

(** The first 32 bits of the fractional part of a cube root and of a
    square root. *)
Definition fracCubeRoot (p : Z) : Z := Z.land (cubeRoot (Z.shiftl p 96)) 0xFFFFFFFF.
Definition fracSquareRoot (p : Z) : Z := Z.land (Z.sqrt (Z.shiftl p 64)) 0xFFFFFFFF.

(** The round constants: fractional parts of the cube roots of the
    first 64 primes. *)
Definition K : list Z := Eval vm_compute in map fracCubeRoot (firstPrimes 64).

(** The hash state: the eight working words. *)
Record State := {
  ha : Z; hb : Z; hc : Z; hd : Z; he : Z; hf : Z; hg : Z; hh : Z
}.

(** The initial state: fractional parts of the square roots of the
    first 8 primes. *)
Definition initialWords : list Z := Eval vm_compute in map fracSquareRoot (firstPrimes 8).

Definition H0 : State :=
  let w (i : nat) := nth i initialWords 0 in
  {| ha := w 0%nat; hb := w 1%nat; hc := w 2%nat; hd := w 3%nat;
     he := w 4%nat; hf := w 5%nat; hg := w 6%nat; hh := w 7%nat |}.

(** Message padding: a 1 bit, zeros, and the bit length in 64 bits, up
    to a multiple of 64 bytes. *)
Definition be64 (n : Z) : list Z :=
  map (fun i => Z.land (Z.shiftr n (8 * i)) 0xFF) [7; 6; 5; 4; 3; 2; 1; 0].

Definition pad (msg : list Z) : list Z :=
  let len := Z.of_nat (length msg) in
  msg ++ [0x80] ++ replicate (Z.to_nat ((55 - len) mod 64)) 0 ++ be64 (8 * len).

(** Big-endian 32-bit words of a byte sequence. *)
Fixpoint words (n : nat) (bytes : list Z) : list Z :=
  match n, bytes with
  | S n', b0 :: b1 :: b2 :: b3 :: rest =>
      Z.lor (Z.shiftl b0 24) (Z.lor (Z.shiftl b1 16) (Z.lor (Z.shiftl b2 8) b3))
        :: words n' rest
  | _, _ => []
  end.

(** The message schedule: [n] more words after the ones in [w]. *)
Fixpoint schedule (n : nat) (w : list Z) : list Z :=
  match n with
  | O => w
  | S n' =>
      let t := length w in
      let at_ (k : nat) := nth (t - k) w 0 in
      schedule n' (w ++ [add32 (add32 (sigma1 (at_ 2%nat)) (at_ 7%nat))
                               (add32 (sigma0 (at_ 15%nat)) (at_ 16%nat))])
  end.

Definition round (s : State) (kw : Z * Z) : State :=
  let '(k, w) := kw in
  let t1 := add32 (add32 (add32 (hh s) (Sigma1 (he s))) (add32 (Ch (he s) (hf s) (hg s)) k)) w in
  let t2 := add32 (Sigma0 (ha s)) (Maj (ha s) (hb s) (hc s)) in
  {| ha := add32 t1 t2; hb := ha s; hc := hb s; hd := hc s;
     he := add32 (hd s) t1; hf := he s; hg := hf s; hh := hg s |}.

Definition compress (s : State) (block : list Z) : State :=
  let w := schedule 48 (words 16 block) in
  let s' := fold_left round (zip K w) s in
  {| ha := add32 (ha s) (ha s'); hb := add32 (hb s) (hb s');
     hc := add32 (hc s) (hc s'); hd := add32 (hd s) (hd s');
     he := add32 (he s) (he s'); hf := add32 (hf s) (hf s');
     hg := add32 (hg s) (hg s'); hh := add32 (hh s) (hh s') |}.

Fixpoint blocks (n : nat) (bytes : list Z) (s : State) : State :=
  match n with
  | O => s
  | S n' => blocks n' (drop 64 bytes) (compress s (take 64 bytes))
  end.

Definition state_words (s : State) : list Z :=
  [ha s; hb s; hc s; hd s; he s; hf s; hg s; hh s].

Definition word_bytes (w : Z) : list Z :=
  map (fun i => Z.land (Z.shiftr w (8 * i)) 0xFF) [3; 2; 1; 0].

(** The digest as eight words, and as 32 bytes. *)
Definition sha256_words (msg : list Z) : list Z :=
  let padded := pad msg in
  state_words (blocks (length padded / 64) padded H0).

Definition sha256 (msg : list Z) : list Z :=
  flat_map word_bytes (sha256_words msg).

(** HMAC (RFC 2104) with block size 64. *)
Definition hmac_words (key msg : list Z) : list Z :=
  let key0 := if (64 <? length key)%nat then sha256 key else key in
  let key1 := key0 ++ replicate (64 - length key0) 0 in
  let ipad := map (Z.lxor 0x36) key1 in
  let opad := map (Z.lxor 0x5c) key1 in
  sha256_words (opad ++ sha256 (ipad ++ msg)).

(** Lower-case hexadecimal, as [digest('hex')] prints it. *)
Definition hexDigit (n : Z) : ascii :=
  if n <? 10 then ascii_of_N (Z.to_N (48 + n)) else ascii_of_N (Z.to_N (87 + n)).

Definition hexWord (w : Z) : list ascii :=
  map (fun i => hexDigit (Z.land (Z.shiftr w (4 * i)) 0xF)) [7; 6; 5; 4; 3; 2; 1; 0].

Definition bytesOf (s : string) : list Z :=
  map (fun c => Z.of_N (N_of_ascii c)) (list_ascii_of_string s).

Definition sha256_hex (msg : string) : string :=
  string_of_list_ascii (flat_map hexWord (sha256_words (bytesOf msg))).

(** [createHmac('sha256', key).update(msg).digest('hex')]. *)
Definition hmac_sha256_hex (key msg : string) : string :=
  string_of_list_ascii (flat_map hexWord (hmac_words (bytesOf key) (bytesOf msg))).

End Sha256.

(* ===================================================================== *)
(** * Records of the schema *)
(* ===================================================================== *)

(** Time stamps ([Date]) are milliseconds since the epoch; a column that
    may be [null] is an [option]. A [decimal] column holds the decimal
    rendering ([toString]) of a number: the model keeps the number. The
    serial [id] is set by the in-memory storage only. *)

Module Session.
Record t := {
  sessionId : string;
  partnerId : string;
  token : string;
  callbackUrl : option string;
  status : string;
  expiresAt : Z
}.
End Session.

Module KycSession.
Record t := {
  id : option nat;
  sessionId : string;
  status : string;
  createdAt : Z;
  updatedAt : Z;
  kycProvider : string;
  aadhaarVerified : bool;
  panVerified : bool;
  faceVerified : bool;
  upiVerified : bool;
  bankVerified : bool;
  nameMatchVerified : bool;
  aadhaarName : option string;
  panName : option string;
  upiName : option string;
  bankName : option string;
  verifiedName : option string;
  verificationData : option (gmap string string);
  partnerId : string;
  userId : string;
  customerRef : string;
  documentType : string;
  documentNumber : string;
  holderName : option string
}.

(** [Partial<KycSession>], for the fields some caller sets: [None] is
    an absent key, [Some v] a key with the value [v]. *)
Record partial := {
  status_ : option string;
  aadhaarVerified_ : option bool;
  panVerified_ : option bool;
  faceVerified_ : option bool;
  upiVerified_ : option bool;
  bankVerified_ : option bool;
  nameMatchVerified_ : option bool;
  aadhaarName_ : option (option string);
  panName_ : option (option string);
  upiName_ : option (option string);
  bankName_ : option (option string);
  verifiedName_ : option (option string);
  verificationData_ : option (option (gmap string string));
  updatedAt_ : option Z
}.

(** [{}]. *)
Definition no_updates : partial :=
  {| status_ := None; aadhaarVerified_ := None; panVerified_ := None;
     faceVerified_ := None; upiVerified_ := None; bankVerified_ := None;
     nameMatchVerified_ := None; aadhaarName_ := None; panName_ := None;
     upiName_ := None; bankName_ := None; verifiedName_ := None;
     verificationData_ := None; updatedAt_ := None |}.

(** [{ ...session, ...updates }]. *)
Definition spread (session : t) (updates : partial) : t :=
  {| id := id session;
     sessionId := sessionId session;
     status := default (status session) (status_ updates);
     createdAt := createdAt session;
     updatedAt := default (updatedAt session) (updatedAt_ updates);
     kycProvider := kycProvider session;
     aadhaarVerified := default (aadhaarVerified session) (aadhaarVerified_ updates);
     panVerified := default (panVerified session) (panVerified_ updates);
     faceVerified := default (faceVerified session) (faceVerified_ updates);
     upiVerified := default (upiVerified session) (upiVerified_ updates);
     bankVerified := default (bankVerified session) (bankVerified_ updates);
     nameMatchVerified := default (nameMatchVerified session) (nameMatchVerified_ updates);
     aadhaarName := default (aadhaarName session) (aadhaarName_ updates);
     panName := default (panName session) (panName_ updates);
     upiName := default (upiName session) (upiName_ updates);
     bankName := default (bankName session) (bankName_ updates);
     verifiedName := default (verifiedName session) (verifiedName_ updates);
     verificationData := default (verificationData session) (verificationData_ updates);
     partnerId := partnerId session;
     userId := userId session;
     customerRef := customerRef session;
     documentType := documentType session;
     documentNumber := documentNumber session;
     holderName := holderName session |}.
End KycSession.

Module Quote.
Record t := {
  quoteReference : string;
  sessionId : string;
  network : string;
  amount : Js.number;
  targetChain : string;
  targetToken : string;
  token : string;
  fxRate : Js.number;
  markupPct : string;
  grossINR : Js.number;
  commission : Js.number;
  gstAmount : Js.number;
  tdsAmount : Js.number;
  estimatedINR : Js.number;
  depositAddress : option string;
  minConfirmations : option Js.number;
  status : string;
  expiresAt : option Z;
  createdAt : Z
}.
End Quote.

Module Transaction.
Record t := {
  id : option nat;
  transactionId : string;
  sessionId : string;
  quoteReference : string;
  userId : string;
  status : string;
  depositAddress : option string;
  destinationAddress : option string;
  expectedAmount : Js.number;
  depositedAmount : option Js.number;
  payoutAmount : option Js.number;
  network : string;
  depositTxHash : option string;
  payoutTxHash : option string;
  completedAt : option Z;
  expiresAt : option Z;
  createdAt : Z;
  updatedAt : option Z
}.

(** [Partial<Transaction>], for the fields some caller sets. *)
Record partial := {
  status_ : option string;
  depositedAmount_ : option (option Js.number);
  payoutAmount_ : option (option Js.number);
  depositTxHash_ : option (option string);
  payoutTxHash_ : option (option string);
  completedAt_ : option (option Z);
  updatedAt_ : option (option Z)
}.

Definition no_updates : partial :=
  {| status_ := None; depositedAmount_ := None; payoutAmount_ := None;
     depositTxHash_ := None; payoutTxHash_ := None; completedAt_ := None;
     updatedAt_ := None |}.

(** [{ ...transaction, ...updates }]. *)
Definition spread (transaction : t) (updates : partial) : t :=
  {| id := id transaction;
     transactionId := transactionId transaction;
     sessionId := sessionId transaction;
     quoteReference := quoteReference transaction;
     userId := userId transaction;
     status := default (status transaction) (status_ updates);
     depositAddress := depositAddress transaction;
     destinationAddress := destinationAddress transaction;
     expectedAmount := expectedAmount transaction;
     depositedAmount := default (depositedAmount transaction) (depositedAmount_ updates);
     payoutAmount := default (payoutAmount transaction) (payoutAmount_ updates);
     network := network transaction;
     depositTxHash := default (depositTxHash transaction) (depositTxHash_ updates);
     payoutTxHash := default (payoutTxHash transaction) (payoutTxHash_ updates);
     completedAt := default (completedAt transaction) (completedAt_ updates);
     expiresAt := expiresAt transaction;
     createdAt := createdAt transaction;
     updatedAt := default (updatedAt transaction) (updatedAt_ updates) |}.
End Transaction.

Module WebhookEvent.
Record t := {
  id : nat;
  eventId : string;
  eventType : string;
  webhookUrl : string;
  payload : string;
  status : string;
  attempts : nat;
  lastAttempt : option Z;
  createdAt : Z
}.

Record partial := {
  status_ : option string;
  attempts_ : option nat;
  lastAttempt_ : option (option Z)
}.

(** [{ ...event, ...updates }]. *)
Definition spread (event : t) (updates : partial) : t :=
  {| id := id event;
     eventId := eventId event;
     eventType := eventType event;
     webhookUrl := webhookUrl event;
     payload := payload event;
     status := default (status event) (status_ updates);
     attempts := default (attempts event) (attempts_ updates);
     lastAttempt := default (lastAttempt event) (lastAttempt_ updates);
     createdAt := createdAt event |}.
End WebhookEvent.

(* ===================================================================== *)
(** * The in-memory storage ([MemStorage]) *)
(* ===================================================================== *)

Module MemStorage.

(** [InsertKycSession]. *)
Record InsertKycSession := {
  ik_partnerId : string;
  ik_userId : string;
  ik_customerRef : option string;
  ik_documentType : string;
  ik_documentNumber : string;
  ik_holderName : option string
}.

(** [InsertTransaction & { depositAddress, expiresAt }]. *)
Record InsertTransaction := {
  it_sessionId : string;
  it_quoteReference : string;
  it_userId : string;
  it_expectedAmount : Js.number;
  it_network : string;
  it_depositAddress : option string;
  it_destinationAddress : option string;
  it_expiresAt : option Z
}.

(** [InsertWebhookEvent]. *)
Record InsertWebhookEvent := {
  iw_eventType : string;
  iw_webhookUrl : string;
  iw_payload : string
}.

(** The private fields of the class: one [Map] per entity and the
    counter the identifiers are made from. *)
Record t := {
  kycSessions : gmap string KycSession.t;
  quotes : gmap string Quote.t;
  transactions : gmap string Transaction.t;
  webhookEvents : gmap string WebhookEvent.t;
  currentId : nat
}.

Definition empty : t :=
  {| kycSessions := ∅; quotes := ∅; transactions := ∅; webhookEvents := ∅;
     currentId := 1 |}.

(** [id.toString().padStart(3, '0')]. *)
Definition padStart3 (id : nat) : string :=
  let s := pretty id in
  String.concat EmptyString (replicate (3 - String.length s) "0") +:+ s.

Definition set_kycSessions (st : t) (m : gmap string KycSession.t) : t :=
  {| kycSessions := m; quotes := quotes st; transactions := transactions st;
     webhookEvents := webhookEvents st; currentId := currentId st |}.

Definition set_transactions (st : t) (m : gmap string Transaction.t) : t :=
  {| kycSessions := kycSessions st; quotes := quotes st; transactions := m;
     webhookEvents := webhookEvents st; currentId := currentId st |}.

Definition set_webhookEvents (st : t) (m : gmap string WebhookEvent.t) : t :=
  {| kycSessions := kycSessions st; quotes := quotes st;
     transactions := transactions st; webhookEvents := m;
     currentId := currentId st |}.

(** [this.currentId++]. *)
Definition nextId (st : t) : nat * t :=
  (currentId st,
   {| kycSessions := kycSessions st; quotes := quotes st;
      transactions := transactions st; webhookEvents := webhookEvents st;
      currentId := S (currentId st) |}).

Definition createKycSession (now : Z) (insertSession : InsertKycSession) (st : t)
  : KycSession.t * t :=
  let '(id, st) := nextId st in
  let sessionId := "kyc_" +:+ padStart3 id in
  let session :=
    {| KycSession.id := Some id;
       KycSession.sessionId := sessionId;
       KycSession.status := "initiated";
       KycSession.createdAt := now;
       KycSession.updatedAt := now;
       KycSession.kycProvider := "cashfree";
       KycSession.aadhaarVerified := false;
       KycSession.panVerified := false;
       KycSession.faceVerified := false;
       KycSession.upiVerified := false;
       KycSession.bankVerified := false;
       KycSession.nameMatchVerified := false;
       KycSession.aadhaarName := None;
       KycSession.panName := None;
       KycSession.upiName := None;
       KycSession.bankName := None;
       KycSession.verifiedName := None;
       KycSession.verificationData := None;
       KycSession.partnerId := ik_partnerId insertSession;
       KycSession.userId := ik_userId insertSession;
       KycSession.customerRef :=
         default (ik_userId insertSession)
                 (Js.or_else (ik_customerRef insertSession) None);
       KycSession.documentType := ik_documentType insertSession;
       KycSession.documentNumber := ik_documentNumber insertSession;
       KycSession.holderName := Js.or_else (ik_holderName insertSession) None |} in
  (session, set_kycSessions st (<[sessionId := session]> (kycSessions st))).

Definition getKycSessionById (sessionId : string) (st : t) : option KycSession.t :=
  kycSessions st !! sessionId.

Definition updateKycSession (sessionId : string) (updates : KycSession.partial) (st : t)
  : option KycSession.t * t :=
  match kycSessions st !! sessionId with
  | None => (None, st)
  | Some session =>
      let updatedSession := KycSession.spread session updates in
      (Some updatedSession,
       set_kycSessions st (<[sessionId := updatedSession]> (kycSessions st)))
  end.

(** [if (name) updates.xName = name]: the key is set only for a
    non-empty name. *)
Definition nameUpdate (name : option string) : option (option string) :=
  if Js.truthy name then Some name else None.

(** The [switch (verificationType)] that fills [updates]. *)
Definition verificationUpdates (verificationType : string) (verified : bool)
    (name : option string) : KycSession.partial :=
  let u := KycSession.no_updates in
  if String.eqb verificationType "aadhaar" then
    {| KycSession.status_ := None;
       KycSession.aadhaarVerified_ := Some verified;
       KycSession.panVerified_ := None; KycSession.faceVerified_ := None;
       KycSession.upiVerified_ := None; KycSession.bankVerified_ := None;
       KycSession.nameMatchVerified_ := None;
       KycSession.aadhaarName_ := nameUpdate name;
       KycSession.panName_ := None; KycSession.upiName_ := None;
       KycSession.bankName_ := None; KycSession.verifiedName_ := None;
       KycSession.verificationData_ := None; KycSession.updatedAt_ := None |}
  else if String.eqb verificationType "pan" then
    {| KycSession.status_ := None; KycSession.aadhaarVerified_ := None;
       KycSession.panVerified_ := Some verified;
       KycSession.faceVerified_ := None; KycSession.upiVerified_ := None;
       KycSession.bankVerified_ := None; KycSession.nameMatchVerified_ := None;
       KycSession.aadhaarName_ := None;
       KycSession.panName_ := nameUpdate name;
       KycSession.upiName_ := None; KycSession.bankName_ := None;
       KycSession.verifiedName_ := None;
       KycSession.verificationData_ := None; KycSession.updatedAt_ := None |}
  else if String.eqb verificationType "face" then
    {| KycSession.status_ := None; KycSession.aadhaarVerified_ := None;
       KycSession.panVerified_ := None;
       KycSession.faceVerified_ := Some verified;
       KycSession.upiVerified_ := None; KycSession.bankVerified_ := None;
       KycSession.nameMatchVerified_ := None; KycSession.aadhaarName_ := None;
       KycSession.panName_ := None; KycSession.upiName_ := None;
       KycSession.bankName_ := None; KycSession.verifiedName_ := None;
       KycSession.verificationData_ := None; KycSession.updatedAt_ := None |}
  else if String.eqb verificationType "upi" then
    {| KycSession.status_ := None; KycSession.aadhaarVerified_ := None;
       KycSession.panVerified_ := None; KycSession.faceVerified_ := None;
       KycSession.upiVerified_ := Some verified;
       KycSession.bankVerified_ := None; KycSession.nameMatchVerified_ := None;
       KycSession.aadhaarName_ := None; KycSession.panName_ := None;
       KycSession.upiName_ := nameUpdate name;
       KycSession.bankName_ := None; KycSession.verifiedName_ := None;
       KycSession.verificationData_ := None; KycSession.updatedAt_ := None |}
  else if String.eqb verificationType "bank" then
    {| KycSession.status_ := None; KycSession.aadhaarVerified_ := None;
       KycSession.panVerified_ := None; KycSession.faceVerified_ := None;
       KycSession.upiVerified_ := None;
       KycSession.bankVerified_ := Some verified;
       KycSession.nameMatchVerified_ := None; KycSession.aadhaarName_ := None;
       KycSession.panName_ := None; KycSession.upiName_ := None;
       KycSession.bankName_ := nameUpdate name;
       KycSession.verifiedName_ := None;
       KycSession.verificationData_ := None; KycSession.updatedAt_ := None |}
  else if String.eqb verificationType "name_match" then
    {| KycSession.status_ := None; KycSession.aadhaarVerified_ := None;
       KycSession.panVerified_ := None; KycSession.faceVerified_ := None;
       KycSession.upiVerified_ := None; KycSession.bankVerified_ := None;
       KycSession.nameMatchVerified_ := Some verified;
       KycSession.aadhaarName_ := None; KycSession.panName_ := None;
       KycSession.upiName_ := None; KycSession.bankName_ := None;
       KycSession.verifiedName_ := nameUpdate name;
       KycSession.verificationData_ := None; KycSession.updatedAt_ := None |}
  else u.

Definition updateKycVerificationStatus (sessionId verificationType : string)
    (verified : bool) (name : option string) (st : t) : option KycSession.t * t :=
  match kycSessions st !! sessionId with
  | None => (None, st)
  | Some session =>
      let updates := verificationUpdates verificationType verified name in
      let updatedSession := KycSession.spread session updates in
      (Some updatedSession,
       set_kycSessions st (<[sessionId := updatedSession]> (kycSessions st)))
  end.

Definition createTransaction (now : Z) (transactionData : InsertTransaction) (st : t)
  : Transaction.t * t :=
  let '(id, st) := nextId st in
  let transactionId := "tx_" +:+ padStart3 id in
  let transaction :=
    {| Transaction.id := Some id;
       Transaction.transactionId := transactionId;
       Transaction.sessionId := it_sessionId transactionData;
       Transaction.quoteReference := it_quoteReference transactionData;
       Transaction.userId := it_userId transactionData;
       Transaction.status := "pending_deposit";
       Transaction.depositAddress := it_depositAddress transactionData;
       Transaction.destinationAddress :=
         Js.or_else (it_destinationAddress transactionData) None;
       Transaction.expectedAmount := it_expectedAmount transactionData;
       Transaction.depositedAmount := None;
       Transaction.payoutAmount := None;
       Transaction.network := it_network transactionData;
       Transaction.depositTxHash := None;
       Transaction.payoutTxHash := None;
       Transaction.completedAt := None;
       Transaction.expiresAt := it_expiresAt transactionData;
       Transaction.createdAt := now;
       Transaction.updatedAt := None |} in
  (transaction, set_transactions st (<[transactionId := transaction]> (transactions st))).

Definition getTransactionById (transactionId : string) (st : t) : option Transaction.t :=
  transactions st !! transactionId.

Definition updateTransaction (transactionId : string) (updates : Transaction.partial)
    (st : t) : option Transaction.t * t :=
  match transactions st !! transactionId with
  | None => (None, st)
  | Some transaction =>
      let updatedTransaction := Transaction.spread transaction updates in
      (Some updatedTransaction,
       set_transactions st (<[transactionId := updatedTransaction]> (transactions st)))
  end.

Definition createWebhookEvent (now : Z) (insertEvent : InsertWebhookEvent) (st : t)
  : WebhookEvent.t * t :=
  let '(id, st) := nextId st in
  let eventId := "event_" +:+ padStart3 id in
  let event :=
    {| WebhookEvent.id := id;
       WebhookEvent.eventId := eventId;
       WebhookEvent.eventType := iw_eventType insertEvent;
       WebhookEvent.webhookUrl := iw_webhookUrl insertEvent;
       WebhookEvent.payload := iw_payload insertEvent;
       WebhookEvent.status := "pending";
       WebhookEvent.attempts := 0;
       WebhookEvent.lastAttempt := None;
       WebhookEvent.createdAt := now |} in
  (event, set_webhookEvents st (<[eventId := event]> (webhookEvents st))).

Definition getWebhookEventById (eventId : string) (st : t) : option WebhookEvent.t :=
  webhookEvents st !! eventId.

Definition updateWebhookEvent (eventId : string) (updates : WebhookEvent.partial)
    (st : t) : option WebhookEvent.t * t :=
  match webhookEvents st !! eventId with
  | None => (None, st)
  | Some event =>
      let updatedEvent := WebhookEvent.spread event updates in
      (Some updatedEvent,
       set_webhookEvents st (<[eventId := updatedEvent]> (webhookEvents st)))
  end.

End MemStorage.

(* ===================================================================== *)
(** * Webhook signing, delivery and verification *)
(* ===================================================================== *)

Module Webhook.
Import Js.

(** The values that occur in a webhook payload. *)
Inductive Json :=
| JStr (s : string)
| JNum (x : number).

(** A payload object: its keys in insertion order. *)
Definition Payload := list (string * Json).

(** The [X-SPY-Signature] header [deliverWebhook] sends for a payload
    string: [`sha256=${signature}`], with [signature] the HMAC-SHA256
    hex digest of the payload string under the secret. *)
Definition signatureHeader (payloadString secret : string) : string :=
  let signature := Sha256.hmac_sha256_hex secret payloadString in
  "sha256=" +:+ signature.

(** [s.startsWith(p)], returning what follows the prefix. *)
Fixpoint stripPrefix (p s : string) : option string :=
  match p, s with
  | EmptyString, _ => Some s
  | String a p', String b s' => if Ascii.eqb a b then stripPrefix p' s' else None
  | String _ _, EmptyString => None
  end.

(** [s.replace(pattern, replacement)] with a string pattern: the first
    occurrence only. *)
Fixpoint replaceFirst (pattern replacement s : string) : string :=
  match stripPrefix pattern s with
  | Some rest => replacement +:+ rest
  | None =>
      match s with
      | EmptyString => EmptyString
      | String c s' => String c (replaceFirst pattern replacement s')
      end
  end.

(** [verifyWebhookSignature(payload, signature, secret)]; nothing in
    its [try] block throws on strings. *)
Definition verifyWebhookSignature (payload signature secret : string) : bool :=
  String.eqb (Sha256.hmac_sha256_hex secret payload)
             (replaceFirst "sha256=" EmptyString signature).

(** The request [deliverWebhook] posts. *)
Record Request := {
  url : string;
  X_SPY_Signature : string;
  X_SPY_Timestamp : string;
  X_SPY_Event : option Json;
  body : string
}.

(** How the partner's endpoint answers. *)
Inductive Answer :=
| Status (code : nat)
| NetworkError (err : string).

Definition payloadEvent (payload : Payload) : option Json :=
  snd <$> List.find (fun kv => String.eqb (fst kv) "event") payload.

Section Deliver.
(** [JSON.stringify], a function of the language. *)
Variable JSON_stringify : Payload -> string.

Definition webhookRequest (now : Z) (webhookUrl : string) (payload : Payload)
    (secret : string) : Request :=
  let payloadString := JSON_stringify payload in
  {| url := webhookUrl;
     X_SPY_Signature := signatureHeader payloadString secret;
     X_SPY_Timestamp := pretty (now / 1000)%Z;
     X_SPY_Event := payloadEvent payload;
     body := payloadString |}.

(** [deliverWebhook(webhookUrl, payload, secret)]: [true] when the
    endpoint answers the request with a 2xx status, [false] for any
    other status and when [fetch] throws. *)
Definition deliverWebhook (now : Z) (webhookUrl : string) (payload : Payload)
    (secret : string) (endpoint : Request -> Answer) : bool :=
  match endpoint (webhookRequest now webhookUrl payload secret) with
  | Status code => (200 <=? code)%nat && (code <=? 299)%nat
  | NetworkError _ => false
  end.
End Deliver.

End Webhook.

(* ===================================================================== *)
(** * The storage behind the enhanced routes *)
(* ===================================================================== *)

(** The handlers are written against the interface [IEnhancedStorage];
    its collections are modelled as maps from the entity's identifier to
    the stored document, with the operations of
    [EnhancedDatabaseStorage]. A database that fails is not modelled.
    This is the storage class of the repository; the object the routes
    file imports is another one, [MockStorage] below. *)

Module Storage.

Record t := {
  sessions : gmap string Session.t;
  quotes : gmap string Quote.t;
  kycSessions : gmap string KycSession.t;
  transactions : gmap string Transaction.t
}.

Definition empty : t :=
  {| sessions := ∅; quotes := ∅; kycSessions := ∅; transactions := ∅ |}.

Definition set_quotes (st : t) (m : gmap string Quote.t) : t :=
  {| sessions := sessions st; quotes := m; kycSessions := kycSessions st;
     transactions := transactions st |}.

Definition set_kycSessions (st : t) (m : gmap string KycSession.t) : t :=
  {| sessions := sessions st; quotes := quotes st; kycSessions := m;
     transactions := transactions st |}.

Definition set_transactions (st : t) (m : gmap string Transaction.t) : t :=
  {| sessions := sessions st; quotes := quotes st; kycSessions := kycSessions st;
     transactions := m |}.

(** The clock and the random source of one request: [Date.now()], its
    ISO rendering, [Math.random().toString(36).substring(2, 8)] and
    [Math.random().toString().substring(2, 8)]. *)
Record Clock := {
  now : Z;
  isoNow : string;
  random36 : string;
  randomDigits : string
}.

(** [`prefix_${Date.now()}_${Math.random().toString(36).substring(2, 8)}`]. *)
Definition freshId (prefix : string) (c : Clock) : string :=
  prefix +:+ pretty (now c) +:+ "_" +:+ random36 c.

Definition getSessionById (sessionId : string) (st : t) : option Session.t :=
  sessions st !! sessionId.

(** What the quote handler passes to [createQuote]. *)
Record QuoteInsert := {
  qi_sessionId : string;
  qi_network : string;
  qi_amount : Js.number;
  qi_targetChain : string;
  qi_targetToken : string;
  qi_token : string;
  qi_fxRate : Js.number;
  qi_markupPct : string;
  qi_grossINR : Js.number;
  qi_commission : Js.number;
  qi_gstAmount : Js.number;
  qi_tdsAmount : Js.number;
  qi_estimatedINR : Js.number;
  qi_depositAddress : Value.t;
  qi_minConfirmations : Value.t;
  qi_expiresAt : Z
}.

Definition createQuote (c : Clock) (quoteData : QuoteInsert) (st : t) : Quote.t * t :=
  let quoteReference := freshId "quote_" c in
  let quote :=
    {| Quote.quoteReference := quoteReference;
       Quote.sessionId := qi_sessionId quoteData;
       Quote.network := qi_network quoteData;
       Quote.amount := qi_amount quoteData;
       Quote.targetChain := qi_targetChain quoteData;
       Quote.targetToken := qi_targetToken quoteData;
       Quote.token := qi_token quoteData;
       Quote.fxRate := qi_fxRate quoteData;
       Quote.markupPct := qi_markupPct quoteData;
       Quote.grossINR := qi_grossINR quoteData;
       Quote.commission := qi_commission quoteData;
       Quote.gstAmount := qi_gstAmount quoteData;
       Quote.tdsAmount := qi_tdsAmount quoteData;
       Quote.estimatedINR := qi_estimatedINR quoteData;
       Quote.depositAddress := Value.asStr (qi_depositAddress quoteData);
       Quote.minConfirmations := Value.asNum (qi_minConfirmations quoteData);
       Quote.status := "active";
       Quote.expiresAt := Some (qi_expiresAt quoteData);
       Quote.createdAt := now c |} in
  (quote, set_quotes st (<[quoteReference := quote]> (quotes st))).

Definition getQuoteByReference (quoteReference : string) (st : t) : option Quote.t :=
  quotes st !! quoteReference.

Definition createKycSession (c : Clock) (insertSession : MemStorage.InsertKycSession)
    (st : t) : KycSession.t * t :=
  let sessionId := freshId "kyc_" c in
  let session :=
    {| KycSession.id := None;
       KycSession.sessionId := sessionId;
       KycSession.status := "initiated";
       KycSession.createdAt := now c;
       KycSession.updatedAt := now c;
       KycSession.kycProvider := "cashfree";
       KycSession.aadhaarVerified := false;
       KycSession.panVerified := false;
       KycSession.faceVerified := false;
       KycSession.upiVerified := false;
       KycSession.bankVerified := false;
       KycSession.nameMatchVerified := false;
       KycSession.aadhaarName := None;
       KycSession.panName := None;
       KycSession.upiName := None;
       KycSession.bankName := None;
       KycSession.verifiedName := None;
       KycSession.verificationData := None;
       KycSession.partnerId := MemStorage.ik_partnerId insertSession;
       KycSession.userId := MemStorage.ik_userId insertSession;
       KycSession.customerRef := default EmptyString (MemStorage.ik_customerRef insertSession);
       KycSession.documentType := MemStorage.ik_documentType insertSession;
       KycSession.documentNumber := MemStorage.ik_documentNumber insertSession;
       KycSession.holderName := MemStorage.ik_holderName insertSession |} in
  (session, set_kycSessions st (<[sessionId := session]> (kycSessions st))).

Definition getKycSessionById (sessionId : string) (st : t) : option KycSession.t :=
  kycSessions st !! sessionId.

(** [{ ...updates, updatedAt: new Date() }]. *)
Definition stampKyc (c : Clock) (u : KycSession.partial) : KycSession.partial :=
  {| KycSession.status_ := KycSession.status_ u;
     KycSession.aadhaarVerified_ := KycSession.aadhaarVerified_ u;
     KycSession.panVerified_ := KycSession.panVerified_ u;
     KycSession.faceVerified_ := KycSession.faceVerified_ u;
     KycSession.upiVerified_ := KycSession.upiVerified_ u;
     KycSession.bankVerified_ := KycSession.bankVerified_ u;
     KycSession.nameMatchVerified_ := KycSession.nameMatchVerified_ u;
     KycSession.aadhaarName_ := KycSession.aadhaarName_ u;
     KycSession.panName_ := KycSession.panName_ u;
     KycSession.upiName_ := KycSession.upiName_ u;
     KycSession.bankName_ := KycSession.bankName_ u;
     KycSession.verifiedName_ := KycSession.verifiedName_ u;
     KycSession.verificationData_ := KycSession.verificationData_ u;
     KycSession.updatedAt_ := Some (now c) |}.

(** [findOneAndUpdate({ sessionId }, { $set: ... })]. *)
Definition updateKycSession (c : Clock) (sessionId : string)
    (updates : KycSession.partial) (st : t) : option KycSession.t * t :=
  match kycSessions st !! sessionId with
  | None => (None, st)
  | Some session =>
      let updated := KycSession.spread session (stampKyc c updates) in
      (Some updated, set_kycSessions st (<[sessionId := updated]> (kycSessions st)))
  end.

Definition updateKycVerificationStatus (c : Clock) (sessionId verificationType : string)
    (verified : bool) (name : option string) (st : t) : option KycSession.t * t :=
  match getKycSessionById sessionId st with
  | None => (None, st)
  | Some _ =>
      updateKycSession c sessionId
        (MemStorage.verificationUpdates verificationType verified name) st
  end.

Definition createTransaction (c : Clock) (transactionData : MemStorage.InsertTransaction)
    (st : t) : Transaction.t * t :=
  let transactionId := freshId "txn_" c in
  let transaction :=
    {| Transaction.id := None;
       Transaction.transactionId := transactionId;
       Transaction.sessionId := MemStorage.it_sessionId transactionData;
       Transaction.quoteReference := MemStorage.it_quoteReference transactionData;
       Transaction.userId := MemStorage.it_userId transactionData;
       Transaction.status := "pending_deposit";
       Transaction.depositAddress := MemStorage.it_depositAddress transactionData;
       Transaction.destinationAddress := MemStorage.it_destinationAddress transactionData;
       Transaction.expectedAmount := MemStorage.it_expectedAmount transactionData;
       Transaction.depositedAmount := None;
       Transaction.payoutAmount := None;
       Transaction.network := MemStorage.it_network transactionData;
       Transaction.depositTxHash := None;
       Transaction.payoutTxHash := None;
       Transaction.completedAt := None;
       Transaction.expiresAt := MemStorage.it_expiresAt transactionData;
       Transaction.createdAt := now c;
       Transaction.updatedAt := Some (now c) |} in
  (transaction, set_transactions st (<[transactionId := transaction]> (transactions st))).

Definition getTransactionById (transactionId : string) (st : t) : option Transaction.t :=
  transactions st !! transactionId.

(** [{ ...updates, updatedAt: new Date() }]. *)
Definition stampTx (c : Clock) (u : Transaction.partial) : Transaction.partial :=
  {| Transaction.status_ := Transaction.status_ u;
     Transaction.depositedAmount_ := Transaction.depositedAmount_ u;
     Transaction.payoutAmount_ := Transaction.payoutAmount_ u;
     Transaction.depositTxHash_ := Transaction.depositTxHash_ u;
     Transaction.payoutTxHash_ := Transaction.payoutTxHash_ u;
     Transaction.completedAt_ := Transaction.completedAt_ u;
     Transaction.updatedAt_ := Some (Some (now c)) |}.

Definition updateTransaction (c : Clock) (transactionId : string)
    (updates : Transaction.partial) (st : t) : option Transaction.t * t :=
  match transactions st !! transactionId with
  | None => (None, st)
  | Some transaction =>
      let updated := Transaction.spread transaction (stampTx c updates) in
      (Some updated, set_transactions st (<[transactionId := updated]> (transactions st)))
  end.

End Storage.

(* ===================================================================== *)
(** * The quote and KYC handlers over the storage class *)
(* ===================================================================== *)

(** The quote handler and the KYC handlers read on typed requests,
    with [EnhancedDatabaseStorage] behind them. [EnhancedRoutes] below
    has every handler on the request as it arrives and on any storage. *)

Module Routes.
Import Js.

(** What a handler sends back: [res.json({ success: true, data })] or
    [res.status(code).json({ success: false, error })]. *)
Inductive Response (D : Type) : Type :=
| Success (data : D)
| Failure (code : nat) (error : string).
Arguments Success {D} data.
Arguments Failure {D} code error.

(** A call of [deliverWebhook(url, payload, secret)]. *)
Record Delivery := {
  d_url : string;
  d_payload : Webhook.Payload;
  d_secret : string
}.

(** The result of a handler: the response, the storage afterwards and
    the webhooks it delivered. *)
Record Result (D : Type) := {
  response : Response D;
  storage : Storage.t;
  webhooks : list Delivery
}.
Arguments response {D} _.
Arguments storage {D} _.
Arguments webhooks {D} _.

Definition reply {D} (r : Response D) (st : Storage.t) : Result D :=
  {| response := r; storage := st; webhooks := [] |}.

(** A request field that passed the [!field] test. *)
Definition present (x : option string) : option string :=
  if truthy x then x else None.

(** [process.env.WEBHOOK_SECRET || 'fallback-secret']. *)
Definition webhookSecret (WEBHOOK_SECRET : option string) : string :=
  default "fallback-secret" (present WEBHOOK_SECRET).

(** ** GET /api/v1/quotes *)

Record QuotesQuery := {
  qq_sessionId : option string;
  qq_asset : option string;
  qq_network : option string;
  qq_amountUsd : option string
}.

Section Quotes.
(** [parseFloat], a function of the language. *)
Variable parseFloat : string -> number.

Definition quotes (c : Storage.Clock) (fx : Rate.FxEnv) (query : QuotesQuery)
    (st : Storage.t) : Result Quote.t :=
  match present (qq_sessionId query), present (qq_asset query),
        present (qq_network query), present (qq_amountUsd query) with
  | Some sessionId, Some asset, Some network, Some amountUsd =>
      match Storage.getSessionById sessionId st with
      | Some session =>
          if negb (String.eqb (Session.status session) "active") then
            reply (Failure 400 "Invalid or inactive session") st
          else
            match Fee.calculateQuote fx (parseFloat amountUsd) asset network with
            | Throws _ => reply (Failure 500 "Quote generation failed") st
            | Returns quoteData =>
                let '(quote, st') :=
                  Storage.createQuote c
                    {| Storage.qi_sessionId := sessionId;
                       Storage.qi_network := network;
                       Storage.qi_amount := parseFloat amountUsd;
                       Storage.qi_targetChain := network;
                       Storage.qi_targetToken := asset;
                       Storage.qi_token := asset;
                       Storage.qi_fxRate := Fee.fxRate quoteData;
                       Storage.qi_markupPct := "0.7";
                       Storage.qi_grossINR := Fee.grossInr quoteData;
                       Storage.qi_commission := Fee.platformFee quoteData;
                       Storage.qi_gstAmount := Fee.gst quoteData;
                       Storage.qi_tdsAmount := Fee.tds quoteData;
                       Storage.qi_estimatedINR := Fee.netInr quoteData;
                       Storage.qi_depositAddress := Fee.depositAddress quoteData;
                       Storage.qi_minConfirmations := Fee.minConfirmations quoteData;
                       Storage.qi_expiresAt := (Storage.now c + 15 * 60 * 1000)%Z |}
                    st in
                reply (Success quote) st'
            end
      | None => reply (Failure 400 "Invalid or inactive session") st
      end
  | _, _, _, _ =>
      reply (Failure 400 "sessionId, asset, network, and amountUsd are required") st
  end.
End Quotes.

(** ** KYC handlers *)

(** What [callCashfreeKycApi] gives back when it does not throw. Its
    [data] is a JSON object, read here as a map of its string fields. *)
Record CashfreeResult := {
  cf_status : string;
  cf_data : gmap string string
}.

(** What the call to the second provider gives: [fetch] throws, the
    body is not JSON, or the body is JSON with [response.ok],
    [data.success] and [data.data.name]. *)
Inductive SurepassCall :=
| SurepassThrows (err : string)
| SurepassNotJson (rawText : string)
| SurepassJson (ok : bool) (success : bool) (name : option string).

Definition isSUCCESS (r : CashfreeResult) : bool :=
  String.eqb (cf_status r) "SUCCESS".

(** POST /api/v1/kyc/session/create, for the authenticated partner. *)
Record KycCreateBody := {
  kc_sessionId : option string;
  kc_userId : option string;
  kc_documentType : option string;
  kc_documentNumber : option string;
  kc_holderName : option string
}.

Definition kycSessionCreate (c : Storage.Clock) (partnerId : string)
    (body : KycCreateBody) (st : Storage.t) : Result KycSession.t :=
  match present (kc_sessionId body), present (kc_userId body),
        present (kc_documentType body), present (kc_documentNumber body) with
  | Some sessionId, Some userId, Some documentType, Some documentNumber =>
      match Storage.getSessionById sessionId st with
      | Some session =>
          if negb (String.eqb (Session.status session) "active") then
            reply (Failure 400 "Invalid or inactive session") st
          else
            let '(kycSession, st') :=
              Storage.createKycSession c
                {| MemStorage.ik_partnerId := partnerId;
                   MemStorage.ik_userId := userId;
                   MemStorage.ik_customerRef := None;
                   MemStorage.ik_documentType := documentType;
                   MemStorage.ik_documentNumber := documentNumber;
                   MemStorage.ik_holderName := kc_holderName body |}
                st in
            reply (Success kycSession) st'
      | None => reply (Failure 400 "Invalid or inactive session") st
      end
  | _, _, _, _ =>
      reply (Failure 400 "sessionId, userId, documentType, and documentNumber are required") st
  end.

(** [{ ...current, aadhaarRefId: ref_id, aadhaarNumber }]; a key set
    to [undefined] reads back as an absent key. *)
Definition withOtpReference (current : gmap string string) (ref_id : option string)
    (aadhaarNumber : string) : gmap string string :=
  <["aadhaarNumber" := aadhaarNumber]>
    (match ref_id with
     | Some r => <["aadhaarRefId" := r]> current
     | None => delete "aadhaarRefId" current
     end).

Definition onlyVerificationData (d : gmap string string) : KycSession.partial :=
  {| KycSession.status_ := None; KycSession.aadhaarVerified_ := None;
     KycSession.panVerified_ := None; KycSession.faceVerified_ := None;
     KycSession.upiVerified_ := None; KycSession.bankVerified_ := None;
     KycSession.nameMatchVerified_ := None; KycSession.aadhaarName_ := None;
     KycSession.panName_ := None; KycSession.upiName_ := None;
     KycSession.bankName_ := None; KycSession.verifiedName_ := None;
     KycSession.verificationData_ := Some (Some d);
     KycSession.updatedAt_ := None |}.

(** POST /api/v1/kyc/aadhaar/generate-otp. *)
Definition aadhaarGenerateOtp (c : Storage.Clock) (sessionId aadhaarNumber : option string)
    (cashfree : Outcome CashfreeResult) (st : Storage.t) : Result (gmap string string) :=
  match present sessionId, present aadhaarNumber with
  | Some sessionId, Some aadhaarNumber =>
      match Storage.getKycSessionById sessionId st with
      | None => reply (Failure 404 "KYC session not found") st
      | Some session =>
          match cashfree with
          | Throws _ => reply (Failure 500 "OTP generation failed") st
          | Returns otpResult =>
              if isSUCCESS otpResult then
                let currentVerificationData :=
                  default ∅ (KycSession.verificationData session) in
                let '(_, st') :=
                  Storage.updateKycSession c sessionId
                    (onlyVerificationData
                       (withOtpReference currentVerificationData
                          (cf_data otpResult !! "ref_id") aadhaarNumber))
                    st in
                reply (Success (cf_data otpResult)) st'
              else reply (Failure 400 "Failed to generate OTP") st
          end
      end
  | _, _ => reply (Failure 400 "sessionId and aadhaarNumber are required") st
  end.

(** The update of the Aadhaar verification handler:
    [{ status: 'completed', aadhaarVerified: true, aadhaarName,
       verifiedName, verificationData }]. *)
Definition aadhaarCompleted (name : option string) (data : gmap string string)
    : KycSession.partial :=
  {| KycSession.status_ := Some "completed";
     KycSession.aadhaarVerified_ := Some true;
     KycSession.panVerified_ := None; KycSession.faceVerified_ := None;
     KycSession.upiVerified_ := None; KycSession.bankVerified_ := None;
     KycSession.nameMatchVerified_ := None;
     KycSession.aadhaarName_ := Some name;
     KycSession.panName_ := None; KycSession.upiName_ := None;
     KycSession.bankName_ := None;
     KycSession.verifiedName_ := Some name;
     KycSession.verificationData_ := Some (Some data);
     KycSession.updatedAt_ := None |}.

Record AadhaarBody := {
  ab_sessionId : option string;
  ab_aadhaarNumber : option string;
  ab_name : option string;
  ab_otp : option string
}.

(** POST /api/v1/kyc/aadhaar-okyc. *)
Definition aadhaarOkyc (c : Storage.Clock) (body : AadhaarBody)
    (cashfree : Outcome CashfreeResult) (st : Storage.t) : Result (option string) :=
  match present (ab_sessionId body), present (ab_aadhaarNumber body),
        present (ab_otp body) with
  | Some sessionId, Some aadhaarNumber, Some otp =>
      match Storage.getKycSessionById sessionId st with
      | None => reply (Failure 404 "KYC session not found") st
      | Some session =>
          let verificationData := default ∅ (KycSession.verificationData session) in
          match present (verificationData !! "aadhaarRefId") with
          | None =>
              reply (Failure 400 "No Aadhaar reference ID found. Please generate OTP first.") st
          | Some refId =>
              match cashfree with
              | Throws _ => reply (Failure 500 "Aadhaar verification failed") st
              | Returns verificationResult =>
                  if isSUCCESS verificationResult then
                    let name :=
                      or_else (cf_data verificationResult !! "name") (ab_name body) in
                    let '(_, st') :=
                      Storage.updateKycSession c sessionId
                        (aadhaarCompleted name (cf_data verificationResult)) st in
                    reply (Success name) st'
                  else reply (Failure 400 "Aadhaar verification failed") st
              end
          end
      end
  | _, _, _ => reply (Failure 400 "sessionId, aadhaarNumber, and otp are required") st
  end.

(** POST /api/v1/kyc/pan/verify. *)
Definition panVerify (c : Storage.Clock) (sessionId panNumber : option string)
    (cashfree : Outcome CashfreeResult) (st : Storage.t) : Result (gmap string string) :=
  match present sessionId, present panNumber with
  | Some sessionId, Some panNumber =>
      match Storage.getKycSessionById sessionId st with
      | None => reply (Failure 404 "KYC session not found") st
      | Some session =>
          match cashfree with
          | Throws _ => reply (Failure 500 "PAN verification failed") st
          | Returns result =>
              if isSUCCESS result then
                let '(_, st') :=
                  Storage.updateKycVerificationStatus c sessionId "pan" true
                    (cf_data result !! "name") st in
                reply (Success (cf_data result)) st'
              else reply (Failure 400 "PAN verification failed") st
          end
      end
  | _, _ => reply (Failure 400 "sessionId and panNumber are required") st
  end.

(** The part the UPI and the bank-account handlers share: the token
    check, the call, and the update for [verificationType]. *)
Definition surepassVerify (c : Storage.Clock) (verificationType label : string)
    (sessionId : string) (SUREPASS_API_TOKEN : option string)
    (call : SurepassCall) (st : Storage.t) : Result (option string) :=
  match Storage.getKycSessionById sessionId st with
  | None => reply (Failure 404 "KYC session not found") st
  | Some session =>
      match present SUREPASS_API_TOKEN with
      | None => reply (Failure 500 "Surepass API token not configured") st
      | Some surepassToken =>
          match call with
          | SurepassThrows _ => reply (Failure 500 (label +:+ " verification failed")) st
          | SurepassNotJson _ =>
              reply (Failure 500 (label +:+ " verification service error")) st
          | SurepassJson ok success name =>
              if ok && success then
                let '(_, st') :=
                  Storage.updateKycVerificationStatus c sessionId verificationType true
                    name st in
                reply (Success name) st'
              else reply (Failure 400 (label +:+ " verification failed")) st
          end
      end
  end.

(** POST /api/v1/kyc/upi/verify. *)
Definition upiVerify (c : Storage.Clock) (sessionId vpa : option string)
    (SUREPASS_API_TOKEN : option string) (call : SurepassCall) (st : Storage.t)
    : Result (option string) :=
  match present sessionId, present vpa with
  | Some sessionId, Some vpa =>
      surepassVerify c "upi" "UPI" sessionId SUREPASS_API_TOKEN call st
  | _, _ => reply (Failure 400 "sessionId and vpa are required") st
  end.

(** POST /api/v1/kyc/bank/verify. *)
Definition bankVerify (c : Storage.Clock) (sessionId account_number ifsc : option string)
    (SUREPASS_API_TOKEN : option string) (call : SurepassCall) (st : Storage.t)
    : Result (option string) :=
  match present sessionId, present account_number, present ifsc with
  | Some sessionId, Some account_number, Some ifsc =>
      surepassVerify c "bank" "Bank" sessionId SUREPASS_API_TOKEN call st
  | _, _, _ => reply (Failure 400 "sessionId, account_number, and ifsc are required") st
  end.

(** POST /api/v1/kyc/face-liveness/verify. *)
Definition faceLivenessVerify (c : Storage.Clock) (sessionId image : option string)
    (cashfree : Outcome CashfreeResult) (st : Storage.t) : Result (gmap string string) :=
  match present sessionId, present image with
  | Some sessionId, Some image =>
      match Storage.getKycSessionById sessionId st with
      | None => reply (Failure 404 "KYC session not found") st
      | Some session =>
          match cashfree with
          | Throws _ => reply (Failure 500 "Face liveness verification failed") st
          | Returns result =>
              if isSUCCESS result then
                let '(_, st') :=
                  Storage.updateKycVerificationStatus c sessionId "face_liveness" true
                    None st in
                reply (Success (cf_data result)) st'
              else reply (Failure 400 "Face liveness verification failed") st
          end
      end
  | _, _ => reply (Failure 400 "sessionId and image are required") st
  end.

(** POST /api/v1/kyc/name-match/verify. *)
Definition nameMatchVerify (c : Storage.Clock) (sessionId name1 name2 : option string)
    (cashfree : Outcome CashfreeResult) (st : Storage.t) : Result (gmap string string) :=
  match present sessionId, present name1, present name2 with
  | Some sessionId, Some name1, Some name2 =>
      match Storage.getKycSessionById sessionId st with
      | None => reply (Failure 404 "KYC session not found") st
      | Some session =>
          match cashfree with
          | Throws _ => reply (Failure 500 "Name match verification failed") st
          | Returns result =>
              if isSUCCESS result then
                let '(_, st') :=
                  Storage.updateKycVerificationStatus c sessionId "name_match" true
                    (Some name1) st in
                reply (Success (cf_data result)) st'
              else reply (Failure 400 "Name match verification failed") st
          end
      end
  | _, _, _ => reply (Failure 400 "sessionId, name1, and name2 are required") st
  end.

(** The requests that write a KYC session, each with what the outside
    world answered. *)
Inductive KycRequest :=
| KycSessionCreate (partnerId : string) (body : KycCreateBody)
| AadhaarGenerateOtp (sessionId aadhaarNumber : option string)
    (cashfree : Outcome CashfreeResult)
| AadhaarOkyc (body : AadhaarBody) (cashfree : Outcome CashfreeResult)
| PanVerify (sessionId panNumber : option string) (cashfree : Outcome CashfreeResult)
| UpiVerify (sessionId vpa : option string) (token : option string) (call : SurepassCall)
| BankVerify (sessionId account_number ifsc : option string) (token : option string)
    (call : SurepassCall)
| FaceLivenessVerify (sessionId image : option string) (cashfree : Outcome CashfreeResult)
| NameMatchVerify (sessionId name1 name2 : option string)
    (cashfree : Outcome CashfreeResult).

(** The storage after a KYC request. *)
Definition kycStep (c : Storage.Clock) (req : KycRequest) (st : Storage.t) : Storage.t :=
  match req with
  | KycSessionCreate partnerId body => storage (kycSessionCreate c partnerId body st)
  | AadhaarGenerateOtp sessionId aadhaarNumber cashfree =>
      storage (aadhaarGenerateOtp c sessionId aadhaarNumber cashfree st)
  | AadhaarOkyc body cashfree => storage (aadhaarOkyc c body cashfree st)
  | PanVerify sessionId panNumber cashfree =>
      storage (panVerify c sessionId panNumber cashfree st)
  | UpiVerify sessionId vpa token call => storage (upiVerify c sessionId vpa token call st)
  | BankVerify sessionId account_number ifsc token call =>
      storage (bankVerify c sessionId account_number ifsc token call st)
  | FaceLivenessVerify sessionId image cashfree =>
      storage (faceLivenessVerify c sessionId image cashfree st)
  | NameMatchVerify sessionId name1 name2 cashfree =>
      storage (nameMatchVerify c sessionId name1 name2 cashfree st)
  end.

End Routes.

(* ===================================================================== *)
(** * Vocabulary of the properties *)
(* ===================================================================== *)

(** The six verification methods of a KYC session, with the
    [verificationType] tag, the flag and the name column that
    [updateKycVerificationStatus] uses for each. *)
Module Method.

Inductive t := Aadhaar | Pan | Face | Upi | Bank | NameMatch.

Definition tag (m : t) : string :=
  match m with
  | Aadhaar => "aadhaar"
  | Pan => "pan"
  | Face => "face"
  | Upi => "upi"
  | Bank => "bank"
  | NameMatch => "name_match"
  end.

Definition verified (m : t) (s : KycSession.t) : bool :=
  match m with
  | Aadhaar => KycSession.aadhaarVerified s
  | Pan => KycSession.panVerified s
  | Face => KycSession.faceVerified s
  | Upi => KycSession.upiVerified s
  | Bank => KycSession.bankVerified s
  | NameMatch => KycSession.nameMatchVerified s
  end.

Definition recordedName (m : t) (s : KycSession.t) : option string :=
  match m with
  | Aadhaar => KycSession.aadhaarName s
  | Pan => KycSession.panName s
  | Face => None
  | Upi => KycSession.upiName s
  | Bank => KycSession.bankName s
  | NameMatch => KycSession.verifiedName s
  end.

End Method.

(** The ways the external FX call fails. *)
Inductive FxFailure : Rate.FxEnv -> Prop :=
| MissingApiKey env :
    Js.truthy (Rate.EXCHANGE_RATE_API_KEY env) = false -> FxFailure env
| NetworkErrorOrTimeout env err :
    Rate.exchangeRateApi env = Rate.FetchRejects err -> FxFailure env
| BodyNotJson env err :
    Rate.exchangeRateApi env = Rate.JsonRejects err -> FxFailure env
| BodyNull env :
    Rate.exchangeRateApi env = Rate.JsonNull -> FxFailure env
| NonSuccessPayload env data :
    Rate.exchangeRateApi env = Rate.JsonData data ->
    Rate.isSuccess data = false -> FxFailure env
| NoRateInPayload env data :
    Rate.exchangeRateApi env = Rate.JsonData data ->
    Rate.conversion_rates_INR data = None -> FxFailure env.

(** A parser of unsigned decimal integers, for the examples: the value
    of [parseFloat] on a string of digits ([NaN] on any other). *)
Module Digits.
Import Js.

Definition digit (c : ascii) : option nat :=
  let n := nat_of_ascii c in
  if (48 <=? n)%nat && (n <=? 57)%nat then Some (n - 48)%nat else None.

Fixpoint value (acc : nat) (s : string) : option nat :=
  match s with
  | EmptyString => Some acc
  | String c s' =>
      match digit c with
      | Some d => value (10 * acc + d) s'
      | None => None
      end
  end.

Definition parse (s : string) : number :=
  match s with
  | EmptyString => PrimFloat.nan
  | _ => match value 0 s with
         | Some n => ofNat n
         | None => PrimFloat.nan
         end
  end.
End Digits.

(* ===================================================================== *)
(** * Example stores and requests *)
(* ===================================================================== *)

Module Scenario.
Import Js Routes.

(** One partner session with a callback URL, and nothing else. *)
Definition sess_1 : Session.t :=
  {| Session.sessionId := "sess_1"; Session.partnerId := "partner_001";
     Session.token := "jwt"; Session.callbackUrl := Some "https://partner.example/hook";
     Session.status := "active"; Session.expiresAt := 1800000 |}.

Definition st_0 : Storage.t :=
  {| Storage.sessions := {[ "sess_1" := sess_1 ]}; Storage.quotes := ∅;
     Storage.kycSessions := ∅; Storage.transactions := ∅ |}.

Definition at_ (t : Z) (r36 digits : string) : Storage.Clock :=
  {| Storage.now := t; Storage.isoNow := "T+" +:+ pretty t;
     Storage.random36 := r36; Storage.randomDigits := digits |}.

Definition cashfree_ok (fields : list (string * string)) : Outcome CashfreeResult :=
  Returns {| cf_status := "SUCCESS"; cf_data := list_to_map fields |}.

(** A store whose session has expired and whose quote was used, with a
    completed KYC session; the quote's [expiresAt] is still ahead. *)
Definition sess_expired : Session.t :=
  {| Session.sessionId := "sess_9"; Session.partnerId := "partner_001";
     Session.token := "jwt"; Session.callbackUrl := Some "https://partner.example/hook";
     Session.status := "expired"; Session.expiresAt := 1800000 |}.

Definition quote_used : Quote.t :=
  {| Quote.quoteReference := "quote_9"; Quote.sessionId := "sess_9";
     Quote.network := "polygon"; Quote.amount := 100%float;
     Quote.targetChain := "polygon"; Quote.targetToken := "USDT";
     Quote.token := "USDT"; Quote.fxRate := 83.65%float; Quote.markupPct := "0.7";
     Quote.grossINR := 8365%float; Quote.commission := 58.555%float;
     Quote.gstAmount := 10.5399%float; Quote.tdsAmount := 83.65%float;
     Quote.estimatedINR := 8212.2551%float;
     Quote.depositAddress := Some "0x8e1234567890abcdef1234567890abcdef1234567";
     Quote.minConfirmations := Some 12%float; Quote.status := "used";
     Quote.expiresAt := Some 901000%Z; Quote.createdAt := 1000 |}.

Definition kyc_done : KycSession.t :=
  {| KycSession.id := None; KycSession.sessionId := "kyc_9";
     KycSession.status := "completed"; KycSession.createdAt := 2000;
     KycSession.updatedAt := 4000; KycSession.kycProvider := "cashfree";
     KycSession.aadhaarVerified := true; KycSession.panVerified := false;
     KycSession.faceVerified := false; KycSession.upiVerified := false;
     KycSession.bankVerified := false; KycSession.nameMatchVerified := false;
     KycSession.aadhaarName := Some "JOHN DOE"; KycSession.panName := None;
     KycSession.upiName := None; KycSession.bankName := None;
     KycSession.verifiedName := Some "JOHN DOE"; KycSession.verificationData := None;
     KycSession.partnerId := "partner_001"; KycSession.userId := "user_1";
     KycSession.customerRef := "user_1"; KycSession.documentType := "aadhaar";
     KycSession.documentNumber := "123412341234";
     KycSession.holderName := Some "John Doe" |}.

Definition st_stale : Storage.t :=
  {| Storage.sessions := {[ "sess_9" := sess_expired ]};
     Storage.quotes := {[ "quote_9" := quote_used ]};
     Storage.kycSessions := {[ "kyc_9" := kyc_done ]};
     Storage.transactions := ∅ |}.

(** A provider that times out, and a quote request. *)
Definition clock_1 : Storage.Clock := at_ 1000 "a1b2c3" "123456".

Definition fx_timeout : Rate.FxEnv :=
  {| Rate.EXCHANGE_RATE_API_KEY := Some "key";
     Rate.exchangeRateApi := Rate.FetchRejects "fetch failed: timeout" |}.

Definition query_1 : QuotesQuery :=
  {| qq_sessionId := Some "sess_1"; qq_asset := Some "USDT";
     qq_network := Some "polygon"; qq_amountUsd := Some "100" |}.

End Scenario.

(** Stores of the in-memory storage. *)
Module MemScenario.
Import MemStorage.

(** A store with one KYC session ("kyc_001") and one transaction
    ("tx_002"). *)
Definition insert_1 : InsertKycSession :=
  {| ik_partnerId := "partner_001"; ik_userId := "user_1"; ik_customerRef := None;
     ik_documentType := "aadhaar"; ik_documentNumber := "123412341234";
     ik_holderName := Some "John Doe" |}.

Definition insertTx_1 : InsertTransaction :=
  {| it_sessionId := "sess_1"; it_quoteReference := "quote_1"; it_userId := "user_1";
     it_expectedAmount := 100%float; it_network := "polygon";
     it_depositAddress := Some "0x8e1234567890abcdef1234567890abcdef1234567";
     it_destinationAddress := None; it_expiresAt := Some 900000%Z |}.

Definition st_2 : t :=
  snd (createTransaction 0 insertTx_1 (snd (createKycSession 0 insert_1 empty))).

Definition bump : WebhookEvent.partial :=
  {| WebhookEvent.status_ := Some "retrying"; WebhookEvent.attempts_ := Some 1%nat;
     WebhookEvent.lastAttempt_ := Some (Some 5%Z) |}.

(** "kyc_001" with a verified Aadhaar, then a failed PAN check. *)
Definition st_3 : t :=
  snd (updateKycVerificationStatus "kyc_001" "aadhaar" true (Some "John Doe") st_2).

End MemScenario.


(* ===================================================================== *)
(** * Name normalisation and the similarity threshold *)
(* ===================================================================== *)

Module NameNormalize.
Import Js NameMatch.

(** [matrix[i][j]] of [levenshteinDistance(str1, str2)], [None]
    outside the matrix. *)
Definition matrixAt (str1 str2 : string) (i j : nat) : option nat :=
  row ← levenshteinMatrix str1 str2 !! i; row !! j.

(** The class [[a-z]]. *)
Definition isLowerLetter (c : ascii) : bool :=
  let n := nat_of_ascii c in
  (97 <=? n)%nat && (n <=? 122)%nat.

(** [s.replace(/[^a-z\s]/g, '')]. *)
Definition keepLettersL (l : list ascii) : list ascii :=
  List.filter (λ c, isLowerLetter c || isSpace c) l.

Definition keepLetters (s : string) : string :=
  string_of_list_ascii (keepLettersL (list_ascii_of_string s)).

(** The local function [normalize] of [normalizeAndMatchName]. *)
Definition normalize (name : string) : string :=
  trim (collapseSpaces (keepLetters (toLowerCase name))).

(** [calculateSimilarity(str1, str2)]. *)
Definition calculateSimilarity (str1 str2 : string) : number :=
  let longer :=
    if (String.length str2 <? String.length str1)%nat then str1 else str2 in
  let shorter :=
    if (String.length str2 <? String.length str1)%nat then str2 else str1 in
  if (String.length longer =? 0)%nat then 1.0%float
  else
    let distance := levenshteinDistance longer shorter in
    ((ofNat (String.length longer) - ofNat distance)
     / ofNat (String.length longer))%float.

(** [normalizeAndMatchName(name1, name2)]. *)
Definition normalizeAndMatchName (name1 name2 : string) : bool :=
  if negb (truthyStr name1) || negb (truthyStr name2) then false
  else
    let normalized1 := normalize name1 in
    let normalized2 := normalize name2 in
    if String.eqb normalized1 normalized2 then true
    else
      let similarity := calculateSimilarity normalized1 normalized2 in
      PrimFloat.leb 0.7%float similarity.

(** A character of the ASCII range: on these the byte strings of the
    model and the strings of the code have the same characters, letter
    case and white space. *)
Definition isAscii (c : ascii) : bool :=
  (nat_of_ascii c <? 128)%nat.

(** A character that [normalize] drops: neither a letter of either
    case nor white space. *)
Definition isDropped (c : ascii) : bool :=
  negb (isLowerLetter (lowerChar c) || isSpace (lowerChar c)).

(** No white space at the start, respectively at the end. *)
Definition noLead (l : list ascii) : bool :=
  match l with
  | [] => true
  | c :: _ => negb (isSpace c)
  end.

Definition noTrail (l : list ascii) : bool :=
  match last l with
  | None => true
  | Some c => negb (isSpace c)
  end.

(** A string in the form [cleanName] returns: no upper-case letter,
    no white space other than single spaces between other
    characters. *)
Fixpoint singleSpaced (l : list ascii) : bool :=
  match l with
  | [] => true
  | c :: l' =>
      (if isSpace c then
         Ascii.eqb c " "%char &&
         match l' with
         | [] => false
         | c' :: _ => negb (isSpace c')
         end
       else true) && singleSpaced l'
  end.

Definition isClean (s : string) : bool :=
  let l := list_ascii_of_string s in
  forallb (λ c, Ascii.eqb (lowerChar c) c) l && noLead l && singleSpaced l.

End NameNormalize.

(* ===================================================================== *)
(** * The webhook test endpoint *)
(* ===================================================================== *)

Module WebhookTest.
Import Js Webhook Routes.

(** The three headers POST /api/v1/webhook-test reads. *)
Record Headers := {
  x_spy_signature : option string;
  x_spy_timestamp : option string;
  x_spy_event : option string
}.

Record Data := {
  received : bool;
  signatureValid : bool;
  timestamp : number;
  event : string;
  payload : Payload
}.

(** The headers as they arrive when the request of [deliverWebhook] is
    posted to this endpoint; a string event is sent as it is. *)
Definition headersOf (request : Request) : Headers :=
  {| x_spy_signature := Some (X_SPY_Signature request);
     x_spy_timestamp := Some (X_SPY_Timestamp request);
     x_spy_event :=
       match X_SPY_Event request with
       | Some (JStr s) => Some s
       | _ => None
       end |}.

Section Handler.
(** [JSON.stringify] and [parseInt], functions of the language. *)
Variable JSON_stringify : Payload -> string.
Variable parseInt : string -> number.

(** POST /api/v1/webhook-test, with the parsed request body. *)
Definition webhookTest (WEBHOOK_SECRET : option string) (headers : Headers)
    (body : Payload) : Response Data :=
  match present (x_spy_signature headers), present (x_spy_timestamp headers),
        present (x_spy_event headers) with
  | Some signature, Some timestamp, Some event =>
      let payload := JSON_stringify body in
      let secret := webhookSecret WEBHOOK_SECRET in
      let isValid := verifyWebhookSignature payload signature secret in
      Success {| received := true;
                 signatureValid := isValid;
                 timestamp := parseInt timestamp;
                 event := event;
                 payload := body |}
  | _, _, _ => Failure 400 "Missing webhook headers"
  end.
End Handler.

End WebhookTest.

(* ===================================================================== *)
(** * The call to the KYC provider *)
(* ===================================================================== *)

Module Cashfree.
Import Js Routes.

(** The part of [process.env] the call reads. *)
Record Env := {
  CASHFREE_CLIENT_ID : option string;
  CASHFREE_CLIENT_SECRET : option string;
  CASHFREE_PUBLIC_KEY : option string;
  CASHFREE_KYC_BASE_URL : option string
}.

(** The object a handler passes as [formData]: its keys in insertion
    order, a value being [undefined] when the request left it out. *)
Definition FormData := list (string * option string).

(** The request [callCashfreeKycApi] posts: URL, headers, body. *)
Record Request := {
  rq_url : string;
  rq_X_Client_Id : string;
  rq_X_Client_Secret : string;
  rq_X_Cf_Signature : option string;
  rq_x_api_version : option string;
  rq_body : string
}.

(** How the provider answers: [fetch] (or reading the body) rejects,
    or there is a response with its [ok] flag and its text. *)
Inductive Answer :=
| FetchRejects (err : string)
| Responds (ok : bool) (responseText : string).

(** [s.includes(needle)]. *)
Fixpoint includes (needle s : string) : bool :=
  match Webhook.stripPrefix needle s with
  | Some _ => true
  | None =>
      match s with
      | EmptyString => false
      | String _ s' => includes needle s'
      end
  end.

Definition newline : string := String (ascii_of_nat 10) EmptyString.

(** The key [generateCashfreeSignature] imports. *)
Definition formatKey (publicKeyPem : string) : string :=
  let formattedKey := NameMatch.trim publicKeyPem in
  if negb (includes "-----BEGIN" formattedKey) then
    "-----BEGIN PUBLIC KEY-----" +:+ newline +:+ formattedKey +:+ newline
      +:+ "-----END PUBLIC KEY-----"
  else formattedKey.

(** The table [endpointMap], for the verification types the handlers
    pass and any other string that names no property of an object. *)
Definition endpointMap (verificationType : string) : option string :=
  if String.eqb verificationType "aadhaar-generate-otp" then Some "/offline-aadhaar/otp"
  else if String.eqb verificationType "aadhaar-submit-otp" then Some "/offline-aadhaar/verify"
  else if String.eqb verificationType "pan" then Some "/pan"
  else if String.eqb verificationType "face-liveness" then Some "/face-liveness"
  else if String.eqb verificationType "upi" then Some "/upi"
  else if String.eqb verificationType "bank" then Some "/bank"
  else if String.eqb verificationType "name-match" then Some "/name-match"
  else None.

Section Call.
(** RSA-OAEP encryption under an imported public key, base64 encoded
    ([NodeRSA]); it throws on a key it cannot import. *)
Variable rsaEncrypt : string -> string -> Outcome string.
(** [JSON.stringify] on form data, and [JSON.parse] on a response
    text: the string fields of the object it denotes, or [None] when
    it throws. *)
Variable JSON_stringify : FormData -> string.
Variable JSON_parse : string -> option (gmap string string).

(** [generateCashfreeSignature(clientId, publicKeyPem)]. *)
Definition generateCashfreeSignature (now : Z) (clientId publicKeyPem : string) : string :=
  let timestamp := (now / 1000)%Z in
  let dataToEncrypt := clientId +:+ "." +:+ pretty timestamp in
  match rsaEncrypt (formatKey publicKeyPem) dataToEncrypt with
  | Returns encrypted => encrypted
  | Throws _ => EmptyString
  end.

Definition mockData (verificationType : string) : gmap string string :=
  <["message" := "Mock response due to missing credentials"]>
    (<["verificationType" := verificationType]> ∅).

(** [callCashfreeKycApi(verificationType, formData)]; its [catch]
    block logs and throws the error again. *)
Definition callCashfreeKycApi (env : Env) (now : Z) (provider : Request -> Answer)
    (verificationType : string) (formData : FormData) : Outcome CashfreeResult :=
  match present (CASHFREE_CLIENT_ID env), present (CASHFREE_CLIENT_SECRET env) with
  | Some clientId, Some clientSecret =>
      let signature :=
        match present (CASHFREE_PUBLIC_KEY env) with
        | Some publicKeyPem => generateCashfreeSignature now clientId publicKeyPem
        | None => EmptyString
        end in
      let baseUrl :=
        default "https://api.cashfree.com/verification"
          (present (CASHFREE_KYC_BASE_URL env)) in
      match endpointMap verificationType with
      | None => Throws ("Unknown verification type: " +:+ verificationType)
      | Some endpoint =>
          let request :=
            {| rq_url := baseUrl +:+ endpoint;
               rq_X_Client_Id := clientId;
               rq_X_Client_Secret := clientSecret;
               rq_X_Cf_Signature := present (Some signature);
               rq_x_api_version :=
                 if String.eqb verificationType "face-liveness"
                 then Some "2022-01-01" else None;
               rq_body := JSON_stringify formData |} in
          match provider request with
          | FetchRejects err => Throws err
          | Responds ok responseText =>
              match JSON_parse responseText with
              | None =>
                  Throws ("Invalid JSON response from Cashfree: "
                          +:+ String.substring 0 200 responseText)
              | Some result =>
                  if negb ok then
                    Throws ("Cashfree API error: "
                            +:+ default "Unknown error"
                                  (present (or_else (result !! "message")
                                                    (result !! "error_msg"))))
                  else Returns {| cf_status := "SUCCESS"; cf_data := result |}
              end
          end
      end
  | _, _ =>
      Returns {| cf_status := "SUCCESS"; cf_data := mockData verificationType |}
  end.

(** The KYC handlers with the call they make. *)
Definition aadhaarGenerateOtpCall (env : Env) (provider : Request -> Answer)
    (c : Storage.Clock) (sessionId aadhaarNumber : option string) (st : Storage.t)
    : Result (gmap string string) :=
  aadhaarGenerateOtp c sessionId aadhaarNumber
    (callCashfreeKycApi env (Storage.now c) provider "aadhaar-generate-otp"
       [("ref_id", Some (Storage.freshId "cashfree_" c));
        ("aadhaar_number", aadhaarNumber)])
    st.

Definition aadhaarOkycCall (env : Env) (provider : Request -> Answer)
    (c : Storage.Clock) (body : AadhaarBody) (st : Storage.t) : Result (option string) :=
  let refId :=
    session ← Storage.getKycSessionById (default EmptyString (ab_sessionId body)) st;
    default ∅ (KycSession.verificationData session) !! "aadhaarRefId" in
  aadhaarOkyc c body
    (callCashfreeKycApi env (Storage.now c) provider "aadhaar-submit-otp"
       [("ref_id", refId); ("otp", ab_otp body);
        ("aadhaar_number", ab_aadhaarNumber body)])
    st.

Definition panVerifyCall (env : Env) (provider : Request -> Answer)
    (c : Storage.Clock) (sessionId panNumber name : option string) (st : Storage.t)
    : Result (gmap string string) :=
  panVerify c sessionId panNumber
    (callCashfreeKycApi env (Storage.now c) provider "pan"
       [("pan", panNumber); ("name", name)])
    st.

Definition faceLivenessVerifyCall (env : Env) (provider : Request -> Answer)
    (c : Storage.Clock) (sessionId image action : option string) (st : Storage.t)
    : Result (gmap string string) :=
  faceLivenessVerify c sessionId image
    (callCashfreeKycApi env (Storage.now c) provider "face-liveness"
       [("image", image); ("action", action)])
    st.

Definition nameMatchVerifyCall (env : Env) (provider : Request -> Answer)
    (c : Storage.Clock) (sessionId name1 name2 : option string)
    (st : Storage.t) : Result (gmap string string) :=
  nameMatchVerify c sessionId name1 name2
    (callCashfreeKycApi env (Storage.now c) provider "name-match"
       [("name1", name1); ("name2", name2);
        ("verification_id", Some (Storage.freshId "verif_" c))])
    st.

(** The requests that write a KYC session, as they arrive; the second
    provider's answer is an input as before. *)
Inductive KycCall :=
| CallSessionCreate (partnerId : string) (body : KycCreateBody)
| CallGenerateOtp (sessionId aadhaarNumber : option string)
| CallOkyc (body : AadhaarBody)
| CallPan (sessionId panNumber name : option string)
| CallUpi (sessionId vpa : option string) (token : option string) (call : SurepassCall)
| CallBank (sessionId account_number ifsc : option string) (token : option string)
    (call : SurepassCall)
| CallFace (sessionId image action : option string)
| CallNameMatch (sessionId name1 name2 : option string).

(** The storage after such a request. *)
Definition kycCallStep (env : Env) (provider : Request -> Answer)
    (c : Storage.Clock) (req : KycCall) (st : Storage.t) : Storage.t :=
  match req with
  | CallSessionCreate partnerId body => storage (kycSessionCreate c partnerId body st)
  | CallGenerateOtp sessionId aadhaarNumber =>
      storage (aadhaarGenerateOtpCall env provider c sessionId aadhaarNumber st)
  | CallOkyc body => storage (aadhaarOkycCall env provider c body st)
  | CallPan sessionId panNumber name =>
      storage (panVerifyCall env provider c sessionId panNumber name st)
  | CallUpi sessionId vpa token call => storage (upiVerify c sessionId vpa token call st)
  | CallBank sessionId account_number ifsc token call =>
      storage (bankVerify c sessionId account_number ifsc token call st)
  | CallFace sessionId image action =>
      storage (faceLivenessVerifyCall env provider c sessionId image action st)
  | CallNameMatch sessionId name1 name2 =>
      storage (nameMatchVerifyCall env provider c sessionId name1 name2 st)
  end.

End Call.

(** The credentials are not configured. *)
Definition bypassed (env : Env) : Prop :=
  present (CASHFREE_CLIENT_ID env) = None ∨
  present (CASHFREE_CLIENT_SECRET env) = None.

End Cashfree.

(* ===================================================================== *)
(** * The shape of a KYC step *)
(* ===================================================================== *)

Module KycShape.
Import Js Routes.

(** The verification types the handlers pass to
    [updateKycVerificationStatus]. *)
Definition handlerTags : list string :=
  ["pan"; "upi"; "bank"; "face_liveness"; "name_match"].

(** The updates the KYC handlers apply to a session. *)
Inductive HandlerUpdate : KycSession.partial -> Prop :=
| OtpReference (d : gmap string string) :
    HandlerUpdate (onlyVerificationData d)
| AadhaarDone (name : option string) (data : gmap string string) :
    HandlerUpdate (aadhaarCompleted name data)
| Verification (verificationType : string) (name : option string) :
    In verificationType handlerTags ->
    HandlerUpdate (MemStorage.verificationUpdates verificationType true name).

(** What a KYC request does to the storage: nothing, one insertion, or
    one such update of a session that exists. *)
Inductive StepShape (c : Storage.Clock) (st : Storage.t) : Storage.t -> Prop :=
| Unchanged : StepShape c st st
| Created (insertSession : MemStorage.InsertKycSession) :
    StepShape c st (Storage.createKycSession c insertSession st).2
| Updated (sessionId : string) (updates : KycSession.partial) :
    HandlerUpdate updates ->
    is_Some (Storage.getKycSessionById sessionId st) ->
    StepShape c st (Storage.updateKycSession c sessionId updates st).2.

(** A run of KYC requests, each with its own clock. *)
Fixpoint kycRun (reqs : list (Storage.Clock * KycRequest)) (st : Storage.t) : Storage.t :=
  match reqs with
  | [] => st
  | (c, req) :: reqs' => kycRun reqs' (kycStep c req st)
  end.

(** The requests that set a flag or a name when they succeed. *)
Definition usesCashfree (req : Cashfree.KycCall) : bool :=
  match req with
  | Cashfree.CallGenerateOtp _ _ | Cashfree.CallOkyc _ | Cashfree.CallPan _ _ _
  | Cashfree.CallFace _ _ _ | Cashfree.CallNameMatch _ _ _ => true
  | _ => false
  end.

End KycShape.

(** Example data for the provider call: an environment without
    credentials and one with them, a provider that is down, and
    stand-ins for the functions of the language. *)
Module CashfreeScenario.
Import Js Routes Cashfree.

Definition env_live : Env :=
  {| CASHFREE_CLIENT_ID := Some "CF_ID"; CASHFREE_CLIENT_SECRET := Some "CF_SECRET";
     CASHFREE_PUBLIC_KEY := None; CASHFREE_KYC_BASE_URL := None |}.

Definition provider_down : Request -> Answer :=
  fun _ => FetchRejects "connect ECONNREFUSED".

Definition encrypt : string -> string -> Outcome string :=
  fun _ _ => Throws "no key".

Definition stringify : FormData -> string := fun _ => "{}".

Definition parse : string -> option (gmap string string) := fun _ => None.

Definition clock_5 : Storage.Clock := Scenario.at_ 5000 "c5c5c5" "555555".

End CashfreeScenario.

(* ===================================================================== *)
(** * Partners, API keys and partner sessions *)
(* ===================================================================== *)

Module Partner.
Record t := {
  partnerId : string;
  name : string;
  email : string;
  webhookUrl : string;
  apiKey : string;
  webhookSecret : string;
  status : string;
  createdAt : Z;
  updatedAt : Z
}.
End Partner.

Module Accounts.
Import Js Routes.

(** The partners collection: its documents in insertion order. *)
Definition Partners := list Partner.t.

(** Two draws of [Math.random().toString(36)], cut by the caller. *)
Record Draws := {
  keyDraw : string;
  secretDraw : string
}.

(** [getPartnerByApiKey(apiKey)]: [findOne({ apiKey })]. *)
Definition getPartnerByApiKey (apiKey : string) (partners : Partners) : option Partner.t :=
  List.find (fun p => String.eqb (Partner.apiKey p) apiKey) partners.

(** What the middleware does with a request: it answers it, or it
    attaches the partner and calls [next()]. *)
Inductive AuthResult :=
| Next (partner : Partner.t)
| Reject (code : nat) (error : string).

(** [authenticateApiKey], given [req.headers.authorization]. *)
Definition authenticateApiKey (authorization : option string) (partners : Partners)
    : AuthResult :=
  match present authorization with
  | None => Reject 401 "Missing or invalid authorization header"
  | Some authHeader =>
      match Webhook.stripPrefix "Bearer " authHeader with
      | None => Reject 401 "Missing or invalid authorization header"
      | Some apiKey =>
          match getPartnerByApiKey apiKey partners with
          | None => Reject 401 "Invalid or inactive API key"
          | Some partner =>
              if negb (String.eqb (Partner.status partner) "active") then
                Reject 401 "Invalid or inactive API key"
              else Next partner
          end
      end
  end.

End Accounts.

(* ===================================================================== *)
(** * The storage object of the enhanced routes *)
(* ===================================================================== *)

(** The enhanced routes hold one module-level [storage] object and call
    its methods; which object it is, the import at the head of the file
    decides. [StorageApi.Op] lists the calls the handlers make, with the
    arguments as the handlers pass them; a storage says for each call
    what it answers (or that the promise rejects) and what it is
    afterwards. *)

Module StorageApi.
Import Js.

Inductive Op :=
| GetPartnerByApiKey (apiKey : string)
| CreatePartner (partnerData : Value.t) (apiKey webhookSecret : string)
| CreateSession (sessionData : Value.t)
| GetSessionById (sessionId : Value.t)
| CreateQuote (quoteData : Value.t)
| GetQuoteByReference (quoteReference : Value.t)
| CreateKycSession (kycData : Value.t)
| GetKycSessionById (sessionId : Value.t)
| UpdateKycSession (sessionId kycData : Value.t)
| UpdateKycVerificationStatus (sessionId : Value.t) (verificationType : string)
    (status : bool) (name : Value.t)
| CreateTransaction (transactionData : Value.t)
| GetTransactionById (transactionId : Value.t)
| UpdateTransaction (transactionId transactionData : Value.t)
| CreateComplianceLog (logData : Value.t).

Definition t (S : Type) : Type := Storage.Clock -> Op -> S -> Outcome Value.t * S.

(** The calls that ask the storage to change something. *)
Definition writes (op : Op) : bool :=
  match op with
  | GetPartnerByApiKey _ | GetSessionById _ | GetQuoteByReference _
  | GetKycSessionById _ | GetTransactionById _ => false
  | _ => true
  end.

End StorageApi.

(* ===================================================================== *)
(** * The storage the enhanced routes import *)
(* ===================================================================== *)

(** [mockEnhancedStoragePromise], which the enhanced routes import as
    [enhancedStoragePromise]: an object without state. Every look-up
    answers a document made up on the spot around the identifier it was
    given, every creation answers its argument with an identifier and a
    status added, and nothing is kept. Each method first logs a template
    string with the identifier in it, which throws for a value that has
    no conversion to a string. *)

Module MockStorage.
Import Js StorageApi.

Definition logged (id : Value.t) (answer : Value.t) : Outcome Value.t :=
  if Value.convertible id then Returns answer
  else Throws "Cannot convert object to primitive value".

Definition stamp (c : Storage.Clock) : list (string * Value.t) :=
  [("createdAt", Value.Date (Storage.now c)); ("updatedAt", Value.Date (Storage.now c))].

Definition partner (c : Storage.Clock) : Value.t :=
  Value.Obj ([ ("partnerId", Value.Str "partner_12345");
               ("apiKey", Value.Str "pk_live_12345");
               ("name", Value.Str "Mock Partner");
               ("email", Value.Str "mock@partner.com");
               ("status", Value.Str "active");
               ("webhookUrl", Value.Str "https://mockpartner.com/webhook");
               ("callbackUrl", Value.Str "https://mockpartner.com/callback") ]
             ++ stamp c).

Definition session (c : Storage.Clock) (sessionId : Value.t) : Value.t :=
  Value.Obj ([ ("sessionId", sessionId);
               ("partnerId", Value.Str "partner_12345");
               ("status", Value.Str "active");
               ("callbackUrl", Value.Str "https://mockpartner.com/callback") ]
             ++ stamp c).

Definition quote (c : Storage.Clock) (quoteReference : Value.t) : Value.t :=
  Value.Obj ([ ("quoteReference", quoteReference);
               ("sessionId", Value.Str "sess_12345");
               ("status", Value.Str "active");
               ("amount", Value.Str "100");
               ("network", Value.Str "polygon");
               ("depositAddress", Value.Str "0x1234567890abcdef1234567890abcdef12345678");
               ("expiresAt", Value.Date (Storage.now c + 15 * 60 * 1000)) ]
             ++ stamp c).

Definition kycSession (c : Storage.Clock) (sessionId : Value.t) : Value.t :=
  Value.Obj ([ ("sessionId", sessionId);
               ("partnerId", Value.Str "partner_12345");
               ("userId", Value.Str "user_12345");
               ("status", Value.Str "completed") ]
             ++ stamp c).

Definition transaction (c : Storage.Clock) (transactionId : Value.t) : Value.t :=
  Value.Obj ([ ("transactionId", transactionId);
               ("quoteReference", Value.Str "quote_12345");
               ("status", Value.Str "pending_deposit");
               ("network", Value.Str "polygon");
               ("depositAddress", Value.Str "0x1234567890abcdef1234567890abcdef12345678") ]
             ++ stamp c).

(** [`prefix${Date.now()}`]. *)
Definition stamped (prefix : string) (c : Storage.Clock) : Value.t :=
  Value.Str (prefix +:+ pretty (Storage.now c)).

Definition answer (c : Storage.Clock) (op : Op) : Outcome Value.t :=
  match op with
  | GetPartnerByApiKey apiKey =>
      Returns (if String.eqb apiKey "pk_live_12345" then partner c else Value.Null)
  | CreatePartner partnerData apiKey webhookSecret =>
      Returns (Value.spread partnerData
                 ([ ("partnerId", stamped "partner_" c);
                    ("apiKey", Value.Str apiKey);
                    ("webhookSecret", Value.Str webhookSecret) ] ++ stamp c))
  | CreateSession sessionData =>
      Returns (Value.spread sessionData
                 ([ ("sessionId", stamped "sess_" c);
                    ("status", Value.Str "active") ] ++ stamp c))
  | GetSessionById sessionId => logged sessionId (session c sessionId)
  | CreateQuote quoteData =>
      Returns (Value.spread quoteData
                 ([ ("quoteReference", stamped "quote_" c);
                    ("status", Value.Str "active") ] ++ stamp c))
  | GetQuoteByReference quoteReference =>
      logged quoteReference (quote c quoteReference)
  | CreateKycSession kycData =>
      Returns (Value.spread kycData
                 ([ ("sessionId", stamped "kycsess_" c);
                    ("status", Value.Str "pending") ] ++ stamp c))
  | GetKycSessionById sessionId => logged sessionId (kycSession c sessionId)
  | UpdateKycSession sessionId kycData =>
      logged sessionId
        (Value.Obj (Value.assign [("sessionId", sessionId)] (Value.props kycData)))
  | UpdateKycVerificationStatus sessionId verificationType status name =>
      logged sessionId
        (Value.Obj [ ("sessionId", sessionId);
                     ("verificationType", Value.Str verificationType);
                     ("status", Value.Bool status);
                     ("name", name) ])
  | CreateTransaction transactionData =>
      Returns (Value.spread transactionData
                 ([ ("transactionId", stamped "txn_" c);
                    ("status", Value.Str "pending_deposit") ] ++ stamp c))
  | GetTransactionById transactionId =>
      logged transactionId (transaction c transactionId)
  | UpdateTransaction transactionId transactionData =>
      logged transactionId
        (Value.Obj (Value.assign [("transactionId", transactionId)]
                      (Value.props transactionData)))
  | CreateComplianceLog _ => Returns Value.Undefined
  end.

(** The storage has no state. *)
Definition call : StorageApi.t unit := fun c op st => (answer c op, st).

End MockStorage.

(* ===================================================================== *)
(** * A storage that only records what it is asked *)
(* ===================================================================== *)

(** To state what the handlers ask of their storage, whichever it is:
    a storage whose state is the list of calls made so far, and whose
    answers are arbitrary (they may depend on the calls before). *)

Module Spy.
Import Js StorageApi.

Definition Oracle := list Op -> Op -> Outcome Value.t.

Definition call (oracle : Oracle) : StorageApi.t (list Op) :=
  fun c op log => (oracle log op, log ++ [op]).

End Spy.

(* ===================================================================== *)
(** * The enhanced routes, on whatever storage they are given *)
(* ===================================================================== *)

(** The handlers of the enhanced routes as they are written: against
    the [storage] object, with the request as the JSON the client sent,
    behind the [authenticateApiKey] middleware, and inside the [try]
    block whose [catch] answers 500. A handler is a computation that may
    throw, calls the storage, and delivers webhooks; what it wrote
    before it threw stays written. One request reads one clock. *)

Module EnhancedRoutes.
Import Js StorageApi.

(** What the handler sends: [res.status(code).json(json)]. *)
Record Reply := {
  code : nat;
  json : Value.t
}.

Definition ok (data : Value.t) : Reply :=
  {| code := 200; json := Value.success data |}.

Definition refuse (code : nat) (error : string) : Reply :=
  {| code := code; json := Value.failure error |}.

(** A call of [deliverWebhook(webhookUrl, payload, secret)]. *)
Record Delivery := {
  w_url : Value.t;
  w_payload : Value.t;
  w_secret : string
}.

(** The part of [process.env] the handlers read. *)
Record Env := {
  WEBHOOK_SECRET : option string;
  JWT_SECRET : option string;
  SUREPASS_API_TOKEN : option string
}.

(** How a [fetch] of the Surepass service ends: the promise rejects, or
    there is a response with its [ok] flag and its text. *)
Inductive Fetched :=
| Rejected (err : string)
| Response (ok : bool) (text : string).

(** The services a handler calls: [callCashfreeKycApi] and the Surepass
    endpoints, each given what the handler passes; the rate provider;
    [jwt.sign] and [JSON.parse]. *)
Record Services := {
  cashfree : string -> Value.t -> Outcome Value.t;
  surepass : string -> Value.t -> Fetched;
  fx : Rate.FxEnv;
  jwtSign : Value.t -> string -> string;
  JSON_parse : string -> option Value.t
}.

(** [process.env.NAME || 'fallback-secret']. *)
Definition orFallback (x : option string) : string :=
  default "fallback-secret" (Routes.present x).

(** The storage and the webhooks delivered so far. *)
Record World (S : Type) := {
  store : S;
  posted : list Delivery
}.
Arguments store {S} _.
Arguments posted {S} _.

Section Handlers.
Context {S : Type}.
Variable storage : StorageApi.t S.
Variable rt : Value.Runtime.
Variable env : Env.
Variable services : Services.

#[local] Abbreviation World := (World S).

Definition M (A : Type) : Type := World -> Outcome A * World.

Definition ret {A} (a : A) : M A := fun w => (Returns a, w).

Definition bind {A B} (m : M A) (k : A -> M B) : M B :=
  fun w =>
    match m w with
    | (Returns a, w') => k a w'
    | (Throws e, w') => (Throws e, w')
    end.

Definition lift {A} (o : Outcome A) : M A := fun w => (o, w).

#[local] Notation "'let*' x ':=' m 'in' k" := (bind m (fun x => k))
  (at level 10, x name, m at level 100, k at level 200).

(** [await storage.method(...)]. *)
Definition call (c : Storage.Clock) (op : Op) : M Value.t :=
  fun w =>
    let '(answer, store') := storage c op (store w) in
    (answer, {| store := store'; posted := posted w |}).

(** [deliverWebhook] catches whatever goes wrong inside it. *)
Definition deliverWebhook (webhookUrl payload : Value.t) (secret : string) : M unit :=
  fun w =>
    (Returns tt,
     {| store := store w;
        posted := posted w ++ [ {| w_url := webhookUrl; w_payload := payload;
                                   w_secret := secret |} ] |}).

(** [logComplianceEvent(eventType, data)]: the log is written to the
    storage; a failure is caught and logged. *)
Definition logComplianceEvent (c : Storage.Clock) (eventType : string) (data : Value.t)
    : M unit :=
  fun w =>
    let complianceLog :=
      Value.Obj [ ("logId", Value.Str (Storage.freshId "log_" c));
                  ("eventType", Value.Str eventType);
                  ("data", data) ] in
    let '(_, w') := call c (CreateComplianceLog complianceLog) w in
    (Returns tt, w').

(** [try { handler } catch (error) { res.status(500).json(...) }]. *)
Definition guarded (failed : string) (handler : M Reply) (w : World) : Reply * World :=
  match handler w with
  | (Returns r, w') => (r, w')
  | (Throws _, w') => (refuse 500 failed, w')
  end.

(** ** The middleware *)

(** [authenticateApiKey]: it answers the request itself, or attaches the
    partner and lets the handler run. *)
Definition authenticateApiKey (c : Storage.Clock) (authorization : option string)
    : M (Reply + Value.t) :=
  match Routes.present authorization with
  | None => ret (inl (refuse 401 "Missing or invalid authorization header"))
  | Some authHeader =>
      match Webhook.stripPrefix "Bearer " authHeader with
      | None => ret (inl (refuse 401 "Missing or invalid authorization header"))
      | Some apiKey =>
          let* partner := call c (GetPartnerByApiKey apiKey) in
          if negb (Value.truthy partner) then
            ret (inl (refuse 401 "Invalid or inactive API key"))
          else
            let* status := lift (Value.get "status" partner) in
            if negb (Value.isStr status "active") then
              ret (inl (refuse 401 "Invalid or inactive API key"))
            else ret (inr partner)
      end
  end.

(** A route behind the middleware. *)
Definition authenticated (c : Storage.Clock) (authorization : option string)
    (handler : Value.t -> World -> Reply * World) (w : World) : Reply * World :=
  match authenticateApiKey c authorization w with
  | (Returns (inl r), w') => (r, w')
  | (Returns (inr partner), w') => handler partner w'
  | (Throws _, w') => (refuse 500 "Authentication failed", w')
  end.

(** ** POST /api/v1/partner/create *)

(** The handler answers 500 with the message of what was thrown. *)
Definition partnerCreate (c : Storage.Clock) (draws : Accounts.Draws) (body : Value.t)
    (w : World) : Reply * World :=
  let handler : M Reply :=
    let* name := lift (Value.get "name" body) in
    let* email := lift (Value.get "email" body) in
    let* webhookUrl := lift (Value.get "webhookUrl" body) in
    if negb (Value.truthy name) || negb (Value.truthy email) then
      ret (refuse 400 "name and email are required")
    else
      let apiKey := "pk_live_" +:+ Accounts.keyDraw draws in
      let webhookSecret := "whsec_" +:+ Accounts.secretDraw draws in
      let* partner :=
        call c (CreatePartner
                  (Value.Obj [ ("name", name); ("email", email);
                               ("webhookUrl", Value.orElse webhookUrl (Value.Str EmptyString));
                               ("metadata", Value.Obj []) ])
                  apiKey webhookSecret) in
      let* partnerId := lift (Value.get "partnerId" partner) in
      let* apiKey' := lift (Value.get "apiKey" partner) in
      let* webhookSecret' := lift (Value.get "webhookSecret" partner) in
      let* name' := lift (Value.get "name" partner) in
      let* email' := lift (Value.get "email" partner) in
      let* status := lift (Value.get "status" partner) in
      let* createdAt := lift (Value.get "createdAt" partner) in
      ret (ok (Value.Obj [ ("partnerId", partnerId); ("apiKey", apiKey');
                           ("webhookSecret", webhookSecret'); ("name", name');
                           ("email", email'); ("status", status);
                           ("createdAt", createdAt) ])) in
  match handler w with
  | (Returns r, w') => (r, w')
  | (Throws message, w') => (refuse 500 message, w')
  end.

(** ** POST /api/v1/session/create *)

Definition sessionCreate (c : Storage.Clock) (body partner : Value.t)
    : World -> Reply * World :=
  guarded "Session creation failed" (
    let* callbackUrl := lift (Value.get "callbackUrl" body) in
    let* metadata := lift (Value.get "metadata" body) in
    if negb (Value.truthy callbackUrl) then
      ret (refuse 400 "callbackUrl is required")
    else
      let sessionId := Value.Str (Storage.freshId "sess_" c) in
      let* partnerId := lift (Value.get "partnerId" partner) in
      let token :=
        Value.Str (jwtSign services
                     (Value.Obj [("sessionId", sessionId); ("partnerId", partnerId)])
                     (orFallback (JWT_SECRET env))) in
      let* session :=
        call c (CreateSession
                  (Value.Obj [ ("sessionId", sessionId); ("partnerId", partnerId);
                               ("token", token); ("callbackUrl", callbackUrl);
                               ("metadata", metadata);
                               ("expiresAt",
                                Value.Date (Storage.now c + 30 * 60 * 1000)) ])) in
      let* sessionId' := lift (Value.get "sessionId" session) in
      let* token' := lift (Value.get "token" session) in
      let* expiresAt := lift (Value.get "expiresAt" session) in
      let* status := lift (Value.get "status" session) in
      ret (ok (Value.Obj [ ("sessionId", sessionId'); ("token", token');
                           ("expiresAt", expiresAt); ("status", status) ]))).

(** ** GET /api/v1/quotes *)

Definition quotes (c : Storage.Clock) (query partner : Value.t)
    : World -> Reply * World :=
  guarded "Quote generation failed" (
    let* sessionId := lift (Value.get "sessionId" query) in
    let* asset := lift (Value.get "asset" query) in
    let* network := lift (Value.get "network" query) in
    let* amountUsd := lift (Value.get "amountUsd" query) in
    if negb (Value.truthy sessionId) || negb (Value.truthy asset)
       || negb (Value.truthy network) || negb (Value.truthy amountUsd) then
      ret (refuse 400 "sessionId, asset, network, and amountUsd are required")
    else
      let* session := call c (GetSessionById sessionId) in
      if negb (Value.truthy session) then
        ret (refuse 400 "Invalid or inactive session")
      else
        let* status := lift (Value.get "status" session) in
        if negb (Value.isStr status "active") then
          ret (refuse 400 "Invalid or inactive session")
        else
          let* amount := lift (Value.parseFloatOf rt amountUsd) in
          let* fxRate := lift (Rate.getUsdInrRate (fx services)) in
          let* networkKey := lift (Value.toText rt network) in
          let quoteData := Fee.quoteAt fxRate amount networkKey in
          let minConfirmations := Fee.minConfirmations quoteData in
          let* amount' := lift (Value.parseFloatOf rt amountUsd) in
          let text (x : number) := Value.Str (Value.numberToString rt x) in
          let* quote :=
            call c (CreateQuote
                      (Value.Obj [ ("sessionId", sessionId); ("network", network);
                                   ("amount", text amount');
                                   ("targetChain", network); ("targetToken", asset);
                                   ("token", asset);
                                   ("fxRate", text (Fee.fxRate quoteData));
                                   ("markupPct", Value.Str "0.7");
                                   ("grossINR", text (Fee.grossInr quoteData));
                                   ("commission", text (Fee.platformFee quoteData));
                                   ("gstAmount", text (Fee.gst quoteData));
                                   ("tdsAmount", text (Fee.tds quoteData));
                                   ("estimatedINR", text (Fee.netInr quoteData));
                                   ("depositAddress", Fee.depositAddress quoteData);
                                   ("minConfirmations", minConfirmations);
                                   ("expiresAt",
                                    Value.Date (Storage.now c + 15 * 60 * 1000)) ])) in
          let* qSessionId := lift (Value.get "sessionId" quote) in
          let* quoteReference := lift (Value.get "quoteReference" quote) in
          let* token := lift (Value.get "token" quote) in
          let* qNetwork := lift (Value.get "network" quote) in
          let* qAmount := lift (Value.get "amount" quote) in
          let* qFxRate := lift (Value.get "fxRate" quote) in
          let* grossINR := lift (Value.get "grossINR" quote) in
          let* tdsAmount := lift (Value.get "tdsAmount" quote) in
          let* commission := lift (Value.get "commission" quote) in
          let* gstAmount := lift (Value.get "gstAmount" quote) in
          let* estimatedINR := lift (Value.get "estimatedINR" quote) in
          let* depositAddress := lift (Value.get "depositAddress" quote) in
          let* expiresAt := lift (Value.get "expiresAt" quote) in
          ret (ok (Value.Obj
                     [ ("sessionId", qSessionId); ("quoteId", quoteReference);
                       ("asset", token); ("network", qNetwork);
                       ("amountUsd", qAmount); ("fxRate", qFxRate);
                       ("grossInr", grossINR);
                       ("breakdown",
                        Value.Obj [ ("tds", tdsAmount); ("platformFee", commission);
                                    ("gst", gstAmount); ("netInr", estimatedINR) ]);
                       ("depositAddress",
                        Value.Obj [ ("network", qNetwork); ("address", depositAddress);
                                    ("minConfirmations", minConfirmations) ]);
                       ("expiresAt", expiresAt);
                       ("status", Value.Str "active") ]))).

(** ** POST /api/v1/kyc/session/create *)

Definition verificationMethods : Value.t :=
  let method (type endpoint : string) :=
    Value.Obj [ ("type", Value.Str type); ("status", Value.Str "pending");
                ("endpoint", Value.Str endpoint) ] in
  Value.Arr [ method "aadhaar_okyc" "/api/v1/kyc/aadhaar/generate-otp";
              method "pan" "/api/v1/kyc/pan/verify";
              method "face_liveness" "/api/v1/kyc/face-liveness/verify";
              method "upi" "/api/v1/kyc/upi/verify";
              method "bank_account" "/api/v1/kyc/bank/verify";
              method "name_match" "/api/v1/kyc/name-match/verify" ].

Definition kycSessionCreate (c : Storage.Clock) (body partner : Value.t)
    : World -> Reply * World :=
  guarded "KYC session creation failed" (
    let* sessionId := lift (Value.get "sessionId" body) in
    let* userId := lift (Value.get "userId" body) in
    let* documentType := lift (Value.get "documentType" body) in
    let* documentNumber := lift (Value.get "documentNumber" body) in
    let* holderName := lift (Value.get "holderName" body) in
    if negb (Value.truthy sessionId) || negb (Value.truthy userId)
       || negb (Value.truthy documentType) || negb (Value.truthy documentNumber) then
      ret (refuse 400 "sessionId, userId, documentType, and documentNumber are required")
    else
      let* session := call c (GetSessionById sessionId) in
      if negb (Value.truthy session) then
        ret (refuse 400 "Invalid or inactive session")
      else
        let* status := lift (Value.get "status" session) in
        if negb (Value.isStr status "active") then
          ret (refuse 400 "Invalid or inactive session")
        else
          let* partnerId := lift (Value.get "partnerId" partner) in
          let* kycSession :=
            call c (CreateKycSession
                      (Value.Obj [ ("partnerId", partnerId); ("userId", userId);
                                   ("documentType", documentType);
                                   ("documentNumber", documentNumber);
                                   ("holderName", holderName) ])) in
          let* kycSessionId := lift (Value.get "sessionId" kycSession) in
          let* kycStatus := lift (Value.get "status" kycSession) in
          let* createdAt := lift (Value.get "createdAt" kycSession) in
          ret (ok (Value.Obj [ ("kycSessionId", kycSessionId); ("status", kycStatus);
                               ("verificationMethods", verificationMethods);
                               ("createdAt", createdAt) ]))).

(** ** POST /api/v1/kyc/aadhaar/generate-otp *)

Definition failed (error : string) (details : Value.t) : Reply :=
  {| code := 400;
     json := Value.Obj [ ("success", Value.Bool false); ("error", Value.Str error);
                         ("details", details) ] |}.

Definition aadhaarGenerateOtp (c : Storage.Clock) (body : Value.t)
    : World -> Reply * World :=
  guarded "OTP generation failed" (
    let* sessionId := lift (Value.get "sessionId" body) in
    let* aadhaarNumber := lift (Value.get "aadhaarNumber" body) in
    if negb (Value.truthy sessionId) || negb (Value.truthy aadhaarNumber) then
      ret (refuse 400 "sessionId and aadhaarNumber are required")
    else
      let* session := call c (GetKycSessionById sessionId) in
      if negb (Value.truthy session) then
        ret (refuse 404 "KYC session not found")
      else
        let* otpResult :=
          lift (cashfree services "aadhaar-generate-otp"
                  (Value.Obj [ ("ref_id", Value.Str (Storage.freshId "cashfree_" c));
                               ("aadhaar_number", aadhaarNumber) ])) in
        let* status := lift (Value.get "status" otpResult) in
        let* data := lift (Value.get "data" otpResult) in
        if Value.isStr status "SUCCESS" then
          let* verificationData := lift (Value.get "verificationData" session) in
          let currentVerificationData := Value.orElse verificationData (Value.Obj []) in
          let* ref_id := lift (Value.get "ref_id" data) in
          let* _ :=
            call c (UpdateKycSession sessionId
                      (Value.Obj
                         [ ("verificationData",
                            Value.spread currentVerificationData
                              [ ("aadhaarRefId", ref_id);
                                ("aadhaarNumber", aadhaarNumber) ]) ])) in
          let* mobile := lift (Value.get "mobile" data) in
          ret (ok (Value.Obj
                     [ ("sessionId", sessionId);
                       ("message",
                        Value.Str "OTP sent successfully to registered mobile number");
                       ("refId", ref_id);
                       ("maskedMobile",
                        Value.orElse mobile (Value.Str "XXXX-XXX-XXX")) ]))
        else ret (failed "Failed to generate OTP" data)).

(** ** POST /api/v1/kyc/aadhaar-okyc *)

Definition aadhaarOkyc (c : Storage.Clock) (body : Value.t)
    : World -> Reply * World :=
  guarded "Aadhaar verification failed" (
    let* sessionId := lift (Value.get "sessionId" body) in
    let* aadhaarNumber := lift (Value.get "aadhaarNumber" body) in
    let* name := lift (Value.get "name" body) in
    let* otp := lift (Value.get "otp" body) in
    if negb (Value.truthy sessionId) || negb (Value.truthy aadhaarNumber)
       || negb (Value.truthy otp) then
      ret (refuse 400 "sessionId, aadhaarNumber, and otp are required")
    else
      let* session := call c (GetKycSessionById sessionId) in
      if negb (Value.truthy session) then
        ret (refuse 404 "KYC session not found")
      else
        let* stored := lift (Value.get "verificationData" session) in
        let verificationData := Value.orElse stored (Value.Obj []) in
        let* refId := lift (Value.get "aadhaarRefId" verificationData) in
        if negb (Value.truthy refId) then
          ret (refuse 400 "No Aadhaar reference ID found. Please generate OTP first.")
        else
          let* verificationResult :=
            lift (cashfree services "aadhaar-submit-otp"
                    (Value.Obj [ ("ref_id", refId); ("otp", otp);
                                 ("aadhaar_number", aadhaarNumber) ])) in
          let* status := lift (Value.get "status" verificationResult) in
          let* data := lift (Value.get "data" verificationResult) in
          if Value.isStr status "SUCCESS" then
            let* verified := lift (Value.get "name" data) in
            let verifiedName := Value.orElse verified name in
            let* _ :=
              call c (UpdateKycSession sessionId
                        (Value.Obj [ ("status", Value.Str "completed");
                                     ("aadhaarVerified", Value.Bool true);
                                     ("aadhaarName", verifiedName);
                                     ("verifiedName", verifiedName);
                                     ("verificationData", data) ])) in
            let* tail := lift (Value.lastFour aadhaarNumber) in
            let* masked := lift (Value.append rt "XXXX-XXXX-" tail) in
            let* _ :=
              logComplianceEvent c "aadhaar_verification"
                (Value.Obj [ ("sessionId", sessionId); ("aadhaarNumber", masked);
                             ("verifiedName", verifiedName);
                             ("status", Value.Str "success") ]) in
            let* tail' := lift (Value.lastFour aadhaarNumber) in
            let* masked' := lift (Value.append rt "XXXX-XXXX-" tail') in
            ret (ok (Value.Obj
                       [ ("sessionId", sessionId);
                         ("verified", Value.Bool true);
                         ("aadhaar",
                          Value.Obj [ ("verified", Value.Bool true);
                                      ("name", verifiedName);
                                      ("number", masked') ]);
                         ("completedAt", Value.Str (Storage.isoNow c)) ]))
          else ret (failed "Aadhaar verification failed" data)).

(** ** POST /api/v1/transaction/create *)

Definition transactionCreate (c : Storage.Clock) (body : Value.t)
    : World -> Reply * World :=
  guarded "Transaction creation failed" (
    let* sessionId := lift (Value.get "sessionId" body) in
    let* quoteId := lift (Value.get "quoteId" body) in
    let* kycSessionId := lift (Value.get "kycSessionId" body) in
    let* asset := lift (Value.get "asset" body) in
    let* network := lift (Value.get "network" body) in
    if negb (Value.truthy sessionId) || negb (Value.truthy quoteId)
       || negb (Value.truthy kycSessionId) || negb (Value.truthy asset)
       || negb (Value.truthy network) then
      ret (refuse 400 "sessionId, quoteId, kycSessionId, asset, and network are required")
    else
      let* session := call c (GetSessionById sessionId) in
      let* quote := call c (GetQuoteByReference quoteId) in
      let* kycSession := call c (GetKycSessionById kycSessionId) in
      if negb (Value.truthy session) || negb (Value.truthy quote)
         || negb (Value.truthy kycSession) then
        ret (refuse 400 "Invalid session, quote, or KYC session")
      else
        let* kycStatus := lift (Value.get "status" kycSession) in
        if negb (Value.isStr kycStatus "completed") then
          ret (refuse 400 "KYC not completed")
        else
          let* expiresAt := lift (Value.get "expiresAt" quote) in
          let* expired := lift (Value.dateAfter rt (Storage.now c) expiresAt) in
          if expired then ret (refuse 400 "Quote has expired")
          else
            let* sessionId' := lift (Value.get "sessionId" session) in
            let* userId := lift (Value.get "userId" kycSession) in
            let* amount := lift (Value.get "amount" quote) in
            let* expectedAmount := lift (Value.callToString rt amount) in
            let* depositAddress := lift (Value.get "depositAddress" quote) in
            let* transaction :=
              call c (CreateTransaction
                        (Value.Obj [ ("sessionId", sessionId');
                                     ("quoteReference", quoteId);
                                     ("userId", userId);
                                     ("expectedAmount", Value.Str expectedAmount);
                                     ("network", network);
                                     ("depositAddress", depositAddress);
                                     ("expiresAt", expiresAt) ])) in
            let* transactionId := lift (Value.get "transactionId" transaction) in
            let* quoteReference := lift (Value.get "quoteReference" transaction) in
            let* status := lift (Value.get "status" transaction) in
            let* tNetwork := lift (Value.get "network" transaction) in
            let* tAddress := lift (Value.get "depositAddress" transaction) in
            let* tExpected := lift (Value.get "expectedAmount" transaction) in
            let* tExpiresAt := lift (Value.get "expiresAt" transaction) in
            let* createdAt := lift (Value.get "createdAt" transaction) in
            ret (ok (Value.Obj
                       [ ("transactionId", transactionId);
                         ("sessionId", quoteReference);
                         ("status", status);
                         ("depositAddress",
                          Value.Obj [ ("network", tNetwork); ("address", tAddress);
                                      ("minConfirmations", Value.Num 12) ]);
                         ("expectedAmount", tExpected);
                         ("expiresAt", tExpiresAt);
                         ("createdAt", createdAt) ]))).

(** ** GET /api/v1/transaction/:transactionId *)

Definition transactionStatus (c : Storage.Clock) (transactionId : string)
    : World -> Reply * World :=
  guarded "Transaction status fetch failed" (
    let* transaction := call c (GetTransactionById (Value.Str transactionId)) in
    if negb (Value.truthy transaction) then
      ret (refuse 404 "Transaction not found")
    else
      let* quoteReference := lift (Value.get "quoteReference" transaction) in
      let* kycSession := call c (GetKycSessionById quoteReference) in
      let* quote := call c (GetQuoteByReference quoteReference) in
      let* transactionId' := lift (Value.get "transactionId" transaction) in
      let* status := lift (Value.get "status" transaction) in
      let* depositTxHash := lift (Value.get "depositTxHash" transaction) in
      let* depositedAmount := lift (Value.get "depositedAmount" transaction) in
      let* updatedAt := lift (Value.get "updatedAt" transaction) in
      let* payoutTxHash := lift (Value.get "payoutTxHash" transaction) in
      let* completedAt := lift (Value.get "completedAt" transaction) in
      let deposited := Value.truthy depositTxHash in
      ret (ok (Value.Obj
                 [ ("transactionId", transactionId');
                   ("sessionId", quoteReference);
                   ("status", status);
                   ("kyc",
                    Value.Obj [ ("status",
                                 Value.orElse (Value.getOpt "status" kycSession)
                                   (Value.Str "unknown"));
                                ("kycId", Value.getOpt "sessionId" kycSession) ]);
                   ("deposit",
                    Value.Obj [ ("status",
                                 Value.Str (if Value.isStr status "pending_deposit"
                                            then "pending" else "confirmed"));
                                ("txHash", depositTxHash);
                                ("confirmations",
                                 Value.Num (if deposited then 15 else 0));
                                ("amount", depositedAmount);
                                ("confirmedAt",
                                 if deposited then updatedAt else Value.Null) ]);
                   ("payout",
                    Value.Obj [ ("status",
                                 Value.Str (if Value.isStr status "completed"
                                            then "settled" else "processing"));
                                ("utr", payoutTxHash);
                                ("estimatedSettlement", completedAt) ]);
                   ("financials",
                    Value.Obj [ ("grossInr", Value.getOpt "grossINR" quote);
                                ("netInr", Value.getOpt "estimatedINR" quote);
                                ("fees",
                                 Value.Obj [ ("tds", Value.getOpt "tdsAmount" quote);
                                             ("platformFee",
                                              Value.getOpt "commission" quote);
                                             ("gst", Value.getOpt "gstAmount" quote) ]) ])
                 ]))).

(** ** POST /api/v1/simulate/deposit *)

(** [if (session?.callbackUrl) await deliverWebhook(...)]. *)
Definition notify (session payload : Value.t) : M unit :=
  let callbackUrl := Value.getOpt "callbackUrl" session in
  if Value.truthy callbackUrl then
    deliverWebhook callbackUrl payload (orFallback (WEBHOOK_SECRET env))
  else ret tt.

Definition simulateDeposit (c : Storage.Clock) (body : Value.t)
    : World -> Reply * World :=
  guarded "Deposit simulation failed" (
    let* transactionId := lift (Value.get "transactionId" body) in
    let* amount := lift (Value.get "amount" body) in
    let* txHash := lift (Value.get "txHash" body) in
    if negb (Value.truthy transactionId) || negb (Value.truthy amount)
       || negb (Value.truthy txHash) then
      ret (refuse 400 "transactionId, amount, and txHash are required")
    else
      let* transaction := call c (GetTransactionById transactionId) in
      if negb (Value.truthy transaction) then
        ret (refuse 404 "Transaction not found")
      else
        let* _ :=
          call c (UpdateTransaction transactionId
                    (Value.Obj [ ("status", Value.Str "deposit_confirmed");
                                 ("depositedAmount", amount);
                                 ("depositTxHash", txHash);
                                 ("completedAt", Value.Date (Storage.now c)) ])) in
        let* quoteReference := lift (Value.get "quoteReference" transaction) in
        let* session := call c (GetSessionById quoteReference) in
        let* transactionId' := lift (Value.get "transactionId" transaction) in
        let* network := lift (Value.get "network" transaction) in
        let* _ :=
          notify session
            (Value.Obj [ ("event", Value.Str "deposit.detected");
                         ("sessionId", quoteReference);
                         ("transactionId", transactionId');
                         ("txHash", txHash);
                         ("amount", amount);
                         ("confirmations", Value.Num 15);
                         ("network", network);
                         ("detectedAt", Value.Str (Storage.isoNow c)) ]) in
        ret (ok (Value.Obj [ ("event", Value.Str "deposit.detected");
                             ("sessionId", quoteReference);
                             ("transactionId", transactionId');
                             ("txHash", txHash);
                             ("confirmations", Value.Num 15) ]))).

(** ** POST /api/v1/payout/initiate *)

Definition payoutInitiate (c : Storage.Clock) (body : Value.t)
    : World -> Reply * World :=
  guarded "Payout initiation failed" (
    let* transactionId := lift (Value.get "transactionId" body) in
    let* channel := lift (Value.get "channel" body) in
    let* destination := lift (Value.get "destination" body) in
    let* amount := lift (Value.get "amount" body) in
    if negb (Value.truthy transactionId) || negb (Value.truthy channel)
       || negb (Value.truthy destination) || negb (Value.truthy amount) then
      ret (refuse 400 "transactionId, channel, destination, and amount are required")
    else
      let* transaction := call c (GetTransactionById transactionId) in
      if negb (Value.truthy transaction) then
        ret (refuse 404 "Transaction not found")
      else
        let* status := lift (Value.get "status" transaction) in
        if negb (Value.isStr status "deposit_confirmed") then
          ret (refuse 400 "Transaction not ready for payout")
        else
          let payoutId := Value.Str (Storage.freshId "payout_" c) in
          let utr :=
            Value.Str ("N" +:+ pretty (Storage.now c) +:+ Storage.randomDigits c) in
          let* _ :=
            call c (UpdateTransaction transactionId
                      (Value.Obj [ ("status", Value.Str "completed");
                                   ("payoutAmount", amount);
                                   ("payoutTxHash", utr);
                                   ("completedAt", Value.Date (Storage.now c)) ])) in
          let* quoteReference := lift (Value.get "quoteReference" transaction) in
          let* session := call c (GetSessionById quoteReference) in
          let* transactionId' := lift (Value.get "transactionId" transaction) in
          let* _ :=
            notify session
              (Value.Obj [ ("event", Value.Str "payout.settled");
                           ("sessionId", quoteReference);
                           ("transactionId", transactionId');
                           ("payoutId", payoutId);
                           ("utr", utr);
                           ("settledAt", Value.Str (Storage.isoNow c));
                           ("status", Value.Str "completed") ]) in
          ret (ok (Value.Obj [ ("payoutId", payoutId);
                               ("transactionId", transactionId');
                               ("status", Value.Str "initiated");
                               ("channel", channel);
                               ("destination", destination);
                               ("amount", amount);
                               ("utr", utr);
                               ("settledAt", Value.Str (Storage.isoNow c)) ]))).

(** ** POST /api/v1/kyc/pan/verify *)

Definition panVerify (c : Storage.Clock) (body : Value.t) : World -> Reply * World :=
  guarded "PAN verification failed" (
    let* sessionId := lift (Value.get "sessionId" body) in
    let* panNumber := lift (Value.get "panNumber" body) in
    let* name := lift (Value.get "name" body) in
    if negb (Value.truthy sessionId) || negb (Value.truthy panNumber) then
      ret (refuse 400 "sessionId and panNumber are required")
    else
      let* session := call c (GetKycSessionById sessionId) in
      if negb (Value.truthy session) then
        ret (refuse 404 "KYC session not found")
      else
        let* result :=
          lift (cashfree services "pan"
                  (Value.Obj [("pan", panNumber); ("name", name)])) in
        let* status := lift (Value.get "status" result) in
        let* data := lift (Value.get "data" result) in
        if Value.isStr status "SUCCESS" then
          let* verifiedName := lift (Value.get "name" data) in
          let* _ :=
            call c (UpdateKycVerificationStatus sessionId "pan" true verifiedName) in
          let* _ :=
            logComplianceEvent c "pan_verification"
              (Value.Obj [ ("sessionId", sessionId); ("panNumber", panNumber);
                           ("verifiedName", verifiedName);
                           ("status", Value.Str "success") ]) in
          ret (ok data)
        else ret (failed "PAN verification failed" data)).

(** ** POST /api/v1/kyc/upi/verify and POST /api/v1/kyc/bank/verify *)

Definition verified (data : Value.t) : Reply :=
  {| code := 200;
     json := Value.Obj [ ("success", Value.Bool true); ("status", Value.Str "verified");
                         ("data", data) ] |}.

Definition serviceError (error raw : string) : Reply :=
  {| code := 500;
     json := Value.Obj [ ("success", Value.Bool false); ("error", Value.Str error);
                         ("message", Value.Str "Surepass API did not return valid JSON");
                         ("surepassRaw", Value.Str raw) ] |}.

(** [surepassData.data && surepassData.data.name]. *)
Definition dataField (name : string) (surepassData : Value.t) : Outcome Value.t :=
  match Value.get "data" surepassData with
  | Throws e => Throws e
  | Returns data =>
      if Value.truthy data then Value.get name data else Returns data
  end.

Definition upiVerify (c : Storage.Clock) (body : Value.t) : World -> Reply * World :=
  guarded "UPI verification failed" (
    let* sessionId := lift (Value.get "sessionId" body) in
    let* vpa := lift (Value.get "vpa" body) in
    let* name := lift (Value.get "name" body) in
    if negb (Value.truthy sessionId) || negb (Value.truthy vpa) then
      ret (refuse 400 "sessionId and vpa are required")
    else
      let* session := call c (GetKycSessionById sessionId) in
      if negb (Value.truthy session) then
        ret (refuse 404 "KYC session not found")
      else
        match Routes.present (SUREPASS_API_TOKEN env) with
        | None => ret (refuse 500 "Surepass API token not configured")
        | Some surepassToken =>
            match surepass services
                    "https://kyc-api.surepass.app/api/v1/bank-verification/upi-verification"
                    (Value.Obj [("vpa", vpa); ("name", name)]) with
            | Rejected e => lift (Throws e)
            | Response responseOk rawText =>
                match JSON_parse services rawText with
                | None => ret (serviceError "UPI verification service error" rawText)
                | Some surepassData =>
                    let* accepted :=
                      if responseOk then lift (Value.get "success" surepassData)
                      else ret (Value.Bool false) in
                    if Value.truthy accepted then
                      let* verifiedName := lift (dataField "name" surepassData) in
                      let* _ :=
                        call c (UpdateKycVerificationStatus sessionId "upi" true
                                  verifiedName) in
                      let* _ :=
                        logComplianceEvent c "upi_verification"
                          (Value.Obj [ ("sessionId", sessionId); ("vpa", vpa);
                                       ("verifiedName", verifiedName);
                                       ("status", Value.Str "success") ]) in
                      let* dVpa := lift (dataField "vpa" surepassData) in
                      let* dName := lift (dataField "name" surepassData) in
                      let* psp := lift (dataField "psp_name" surepassData) in
                      let* account := lift (dataField "account_status" surepassData) in
                      let* verification := lift (dataField "verification_id" surepassData) in
                      ret (verified
                             (Value.Obj [ ("vpa", Value.orElse dVpa vpa);
                                          ("name", Value.orElse dName name);
                                          ("psp_name", psp);
                                          ("account_status", account);
                                          ("verification_id", verification) ]))
                    else ret (failed "UPI verification failed" surepassData)
                end
            end
        end).

Definition bankVerify (c : Storage.Clock) (body : Value.t) : World -> Reply * World :=
  guarded "Bank verification failed" (
    let* sessionId := lift (Value.get "sessionId" body) in
    let* account_number := lift (Value.get "account_number" body) in
    let* ifsc := lift (Value.get "ifsc" body) in
    let* name := lift (Value.get "name" body) in
    if negb (Value.truthy sessionId) || negb (Value.truthy account_number)
       || negb (Value.truthy ifsc) then
      ret (refuse 400 "sessionId, account_number, and ifsc are required")
    else
      let* session := call c (GetKycSessionById sessionId) in
      if negb (Value.truthy session) then
        ret (refuse 404 "KYC session not found")
      else
        match Routes.present (SUREPASS_API_TOKEN env) with
        | None => ret (refuse 500 "Surepass API token not configured")
        | Some surepassToken =>
            match surepass services
                    "https://kyc-api.surepass.app/api/v1/bank-verification/bank-account-verification"
                    (Value.Obj [ ("account_number", account_number); ("ifsc", ifsc);
                                 ("name", name) ]) with
            | Rejected e => lift (Throws e)
            | Response responseOk rawText =>
                match JSON_parse services rawText with
                | None => ret (serviceError "Bank verification service error" rawText)
                | Some surepassData =>
                    let* accepted :=
                      if responseOk then lift (Value.get "success" surepassData)
                      else ret (Value.Bool false) in
                    if Value.truthy accepted then
                      let* verifiedName := lift (dataField "name" surepassData) in
                      let* _ :=
                        call c (UpdateKycVerificationStatus sessionId "bank" true
                                  verifiedName) in
                      let* _ :=
                        logComplianceEvent c "bank_verification"
                          (Value.Obj [ ("sessionId", sessionId);
                                       ("account_number", account_number);
                                       ("ifsc", ifsc);
                                       ("verifiedName", verifiedName);
                                       ("status", Value.Str "success") ]) in
                      let* dAccount := lift (dataField "account_number" surepassData) in
                      let* dIfsc := lift (dataField "ifsc" surepassData) in
                      let* dName := lift (dataField "name" surepassData) in
                      let* bank := lift (dataField "bank" surepassData) in
                      let* status := lift (dataField "status" surepassData) in
                      let* verification := lift (dataField "verification_id" surepassData) in
                      ret (verified
                             (Value.Obj [ ("account_number",
                                           Value.orElse dAccount account_number);
                                          ("ifsc", Value.orElse dIfsc ifsc);
                                          ("name", Value.orElse dName name);
                                          ("bank_name", bank);
                                          ("account_status", status);
                                          ("verification_id", verification) ]))
                    else ret (failed "Bank verification failed" surepassData)
                end
            end
        end).

(** ** POST /api/v1/kyc/face-liveness/verify *)

Definition faceLivenessVerify (c : Storage.Clock) (body : Value.t)
    : World -> Reply * World :=
  guarded "Face liveness verification failed" (
    let* sessionId := lift (Value.get "sessionId" body) in
    let* image := lift (Value.get "image" body) in
    let* action := lift (Value.get "action" body) in
    if negb (Value.truthy sessionId) || negb (Value.truthy image) then
      ret (refuse 400 "sessionId and image are required")
    else
      let* session := call c (GetKycSessionById sessionId) in
      if negb (Value.truthy session) then
        ret (refuse 404 "KYC session not found")
      else
        let* result :=
          lift (cashfree services "face-liveness"
                  (Value.Obj [("image", image); ("action", action)])) in
        let* status := lift (Value.get "status" result) in
        if Value.isStr status "SUCCESS" then
          let* _ :=
            call c (UpdateKycVerificationStatus sessionId "face_liveness" true
                      Value.Undefined) in
          let* _ :=
            logComplianceEvent c "face_liveness_verification"
              (Value.Obj [("sessionId", sessionId); ("status", Value.Str "success")]) in
          let* data := lift (Value.get "data" result) in
          let* livenessScore := lift (Value.get "liveness_score" data) in
          let* qualityScore := lift (Value.get "quality_score" data) in
          let* faceMatch := lift (Value.get "face_match" data) in
          let* actionVerified := lift (Value.get "action_verified" data) in
          let* verification := lift (Value.get "verification_id" data) in
          ret (verified
                 (Value.Obj [ ("livenessScore", livenessScore);
                              ("qualityScore", qualityScore);
                              ("faceMatch", faceMatch);
                              ("actionVerified", actionVerified);
                              ("verification_id", verification) ]))
        else
          let* data := lift (Value.get "data" result) in
          ret (failed "Face liveness verification failed" data)).

(** ** POST /api/v1/kyc/name-match/verify *)

Definition nameMatchVerify (c : Storage.Clock) (body : Value.t)
    : World -> Reply * World :=
  guarded "Name match verification failed" (
    let* sessionId := lift (Value.get "sessionId" body) in
    let* name1 := lift (Value.get "name1" body) in
    let* name2 := lift (Value.get "name2" body) in
    if negb (Value.truthy sessionId) || negb (Value.truthy name1)
       || negb (Value.truthy name2) then
      ret (refuse 400 "sessionId, name1, and name2 are required")
    else
      let* session := call c (GetKycSessionById sessionId) in
      if negb (Value.truthy session) then
        ret (refuse 404 "KYC session not found")
      else
        let verification_id := Value.Str (Storage.freshId "verif_" c) in
        let* result :=
          lift (cashfree services "name-match"
                  (Value.Obj [ ("name1", name1); ("name2", name2);
                               ("verification_id", verification_id) ])) in
        let* status := lift (Value.get "status" result) in
        let* data := lift (Value.get "data" result) in
        if Value.isStr status "SUCCESS" then
          let* _ :=
            call c (UpdateKycVerificationStatus sessionId "name_match" true name1) in
          let* _ :=
            logComplianceEvent c "name_match_verification"
              (Value.Obj [ ("sessionId", sessionId); ("name1", name1);
                           ("name2", name2); ("status", Value.Str "success") ]) in
          ret (ok data)
        else ret (failed "Name match verification failed" data)).

(** ** The routes *)

(** A request to one of the routes: its authorization header and what
    the handler reads (the body, the query, or the path parameter). *)
Inductive Request :=
| PartnerCreate (draws : Accounts.Draws) (body : Value.t)
| SessionCreate (authorization : option string) (body : Value.t)
| Quotes (authorization : option string) (query : Value.t)
| KycSessionCreate (authorization : option string) (body : Value.t)
| AadhaarGenerateOtp (authorization : option string) (body : Value.t)
| AadhaarOkyc (authorization : option string) (body : Value.t)
| TransactionCreate (authorization : option string) (body : Value.t)
| TransactionStatus (authorization : option string) (transactionId : string)
| SimulateDeposit (authorization : option string) (body : Value.t)
| PayoutInitiate (authorization : option string) (body : Value.t)
| PanVerify (authorization : option string) (body : Value.t)
| UpiVerify (authorization : option string) (body : Value.t)
| BankVerify (authorization : option string) (body : Value.t)
| FaceLivenessVerify (authorization : option string) (body : Value.t)
| NameMatchVerify (authorization : option string) (body : Value.t).

Definition serve (c : Storage.Clock) (req : Request) : World -> Reply * World :=
  match req with
  | PartnerCreate draws body => partnerCreate c draws body
  | SessionCreate a body => authenticated c a (sessionCreate c body)
  | Quotes a query => authenticated c a (quotes c query)
  | KycSessionCreate a body => authenticated c a (kycSessionCreate c body)
  | AadhaarGenerateOtp a body => authenticated c a (fun _ => aadhaarGenerateOtp c body)
  | AadhaarOkyc a body => authenticated c a (fun _ => aadhaarOkyc c body)
  | TransactionCreate a body => authenticated c a (fun _ => transactionCreate c body)
  | TransactionStatus a transactionId =>
      authenticated c a (fun _ => transactionStatus c transactionId)
  | SimulateDeposit a body => authenticated c a (fun _ => simulateDeposit c body)
  | PayoutInitiate a body => authenticated c a (fun _ => payoutInitiate c body)
  | PanVerify a body => authenticated c a (fun _ => panVerify c body)
  | UpiVerify a body => authenticated c a (fun _ => upiVerify c body)
  | BankVerify a body => authenticated c a (fun _ => bankVerify c body)
  | FaceLivenessVerify a body => authenticated c a (fun _ => faceLivenessVerify c body)
  | NameMatchVerify a body => authenticated c a (fun _ => nameMatchVerify c body)
  end.

(** A run of requests, each with its clock: the replies, in order, and
    the world afterwards. *)
Fixpoint run (reqs : list (Storage.Clock * Request)) (w : World)
    : list Reply * World :=
  match reqs with
  | [] => ([], w)
  | (c, req) :: reqs' =>
      let '(r, w') := serve c req w in
      let '(rs, w'') := run reqs' w' in
      (r :: rs, w'')
  end.

End Handlers.

End EnhancedRoutes.

(* ===================================================================== *)
(** * The server as it is wired *)
(* ===================================================================== *)

(** The enhanced routes on the storage they import. *)

Module Wired.
Import Js StorageApi EnhancedRoutes.

Definition serve : Value.Runtime -> Env -> Services -> Storage.Clock -> Request ->
    World unit -> Reply * World unit :=
  EnhancedRoutes.serve MockStorage.call.

Definition run : Value.Runtime -> Env -> Services ->
    list (Storage.Clock * Request) -> World unit -> list Reply * World unit :=
  EnhancedRoutes.run MockStorage.call.

(** The server before its first request. *)
Definition start : World unit := {| store := tt; posted := [] |}.

(** The one API key the storage knows. *)
Definition partnerKey : option string := Some "Bearer pk_live_12345".

(** What the creation handler answers on this storage: an identifier of
    its own, the quote identifier under [sessionId], and the amount,
    the address and a fresh expiry of the quote the storage made up. *)
Definition created (c : Storage.Clock) (quoteId network : Value.t) : Value.t :=
  Value.Obj
    [ ("transactionId", MockStorage.stamped "txn_" c);
      ("sessionId", quoteId);
      ("status", Value.Str "pending_deposit");
      ("depositAddress",
       Value.Obj [ ("network", network);
                   ("address", Value.Str "0x1234567890abcdef1234567890abcdef12345678");
                   ("minConfirmations", Value.Num 12) ]);
      ("expectedAmount", Value.Str "100");
      ("expiresAt", Value.Date (Storage.now c + 15 * 60 * 1000));
      ("createdAt", Value.Date (Storage.now c)) ].

(** What the deposit handler answers on this storage, and the webhook
    it delivers. *)
Definition deposited (transactionId txHash : Value.t) : Value.t :=
  Value.Obj [ ("event", Value.Str "deposit.detected");
              ("sessionId", Value.Str "quote_12345");
              ("transactionId", transactionId);
              ("txHash", txHash);
              ("confirmations", Value.Num 15) ].

Definition depositWebhook (env : Env) (c : Storage.Clock)
    (transactionId amount txHash : Value.t) : Delivery :=
  {| w_url := Value.Str "https://mockpartner.com/callback";
     w_payload :=
       Value.Obj [ ("event", Value.Str "deposit.detected");
                   ("sessionId", Value.Str "quote_12345");
                   ("transactionId", transactionId);
                   ("txHash", txHash);
                   ("amount", amount);
                   ("confirmations", Value.Num 15);
                   ("network", Value.Str "polygon");
                   ("detectedAt", Value.Str (Storage.isoNow c)) ];
     w_secret := orFallback (WEBHOOK_SECRET env) |}.

(** [w] with one more webhook delivered. *)
Definition delivering (w : World unit) (d : Delivery) : World unit :=
  {| store := store w; posted := posted w ++ [d] |}.

(** [reply.data.name] of an answer. *)
Definition data (name : string) (r : Reply) : Value.t :=
  Value.getOpt name (Value.getOpt "data" (json r)).

(** [reply.error]. *)
Definition error (r : Reply) : Value.t := Value.getOpt "error" (json r).

End Wired.

(** Example data for the wired server: stand-ins for the functions of
    the language and for the services, and the requests of one
    off-ramp. *)
Module WiredScenario.
Import Js StorageApi EnhancedRoutes.

Definition runtime : Value.Runtime :=
  {| Value.numberToString := fun _ => "number";
     Value.dateToString := fun _ => "date";
     Value.nativeToString := fun _ => "function";
     Value.stringToNumber := fun _ => PrimFloat.nan;
     Value.parseFloat := Digits.parse |}.

Definition env : Env :=
  {| WEBHOOK_SECRET := None; JWT_SECRET := None; SUREPASS_API_TOKEN := None |}.

(** The KYC provider accepts every call and echoes a reference. *)
Definition services : Services :=
  {| cashfree := fun _ _ =>
       Returns (Value.Obj [ ("status", Value.Str "SUCCESS");
                            ("data", Value.Obj [ ("ref_id", Value.Str "ref_77");
                                                 ("name", Value.Str "JOHN DOE") ]) ]);
     surepass := fun _ _ => Rejected "connect ECONNREFUSED";
     fx := Rate.answering 83.65;
     jwtSign := fun _ _ => "jwt";
     JSON_parse := fun _ => None |}.

Definition at_ (t : Z) : Storage.Clock := Scenario.at_ t "r1r1r1" "123456".

Definition quoteQuery : Value.t :=
  Value.Obj [ ("sessionId", Value.Str "sess_1000"); ("asset", Value.Str "USDT");
              ("network", Value.Str "polygon"); ("amountUsd", Value.Str "100") ].

Definition kycBody : Value.t :=
  Value.Obj [ ("sessionId", Value.Str "sess_1000"); ("userId", Value.Str "user_1");
              ("documentType", Value.Str "aadhaar");
              ("documentNumber", Value.Str "123412341234");
              ("holderName", Value.Str "John Doe") ].

Definition createBody : Value.t :=
  Value.Obj [ ("sessionId", Value.Str "sess_1000"); ("quoteId", Value.Str "quote_2000");
              ("kycSessionId", Value.Str "kycsess_3000"); ("asset", Value.Str "USDT");
              ("network", Value.Str "polygon") ].

Definition depositBody (amount : number) (txHash : string) : Value.t :=
  Value.Obj [ ("transactionId", Value.Str "txn_2000000"); ("amount", Value.Num amount);
              ("txHash", Value.Str txHash) ].


Definition otpBody : Value.t :=
  Value.Obj [ ("sessionId", Value.Str "kycsess_3000");
              ("aadhaarNumber", Value.Str "123412341234") ].




End WiredScenario.

(* ===================================================================== *)
(** * What the handlers ask of the storage about KYC sessions *)
(* ===================================================================== *)

Module KycAsks.
Import Js StorageApi EnhancedRoutes.






End KycAsks.

(* ===================================================================== *)
(** * The doubles of a quote, on their specification *)
(* ===================================================================== *)

(** The amounts of a quote are doubles, and the operations on them round
    to nearest, ties to even. [SpecFloat] specifies the operations on
    sign, mantissa and exponent; the definitions here name what the
    proofs about the quote arithmetic compare: the value of a mantissa
    at an exponent as an integer multiple of a small unit, and the
    deductions of a quote read on the specification. *)

Module FloatSpec.
#[local] Open Scope Z_scope.

Abbreviation fexp := (SpecFloat.fexp prec emax).

(** The result of rounding the mantissa [M] at the exponent [E], when
    no left shift is needed: the quotient [q] of the shift or its
    successor, and [q] itself when the shift loses nothing. *)
Definition packed (s : bool) (m1 e1 : Z) : spec_float :=
  if m1 =? 0 then S754_zero s
  else if m1 =? 2 ^ 53 then
    if e1 + 1 <=? 971 then S754_finite s (2 ^ 52)%positive (e1 + 1) else S754_infinity s
  else if e1 <=? 971 then S754_finite s (Z.to_pos m1) e1 else S754_infinity s.

(** The value of the mantissa [m] at the exponent [e], in units of
    [2^-o]. *)
Definition scaled (o m e : Z) : Z := m * 2 ^ (e + o).

(** A value that a double can hold: fewer than 54 bits at an exponent
    that is not below the least one. *)
Definition representable (m e : Z) : Prop :=
  0 < m < 2 ^ 53 /\ -1074 <= e <= 971.

(** A double that is [+0] or positive and at most [W]; a positive
    double between [L] and [W]. *)
Definition atMost (o : Z) (x : spec_float) (W : Z) : Prop :=
  x = S754_zero false \/
  exists m e, x = S754_finite false m e /\ bounded prec emax m e = true /\
    scaled o (Zpos m) e <= W.

Definition between (o : Z) (x : spec_float) (L W : Z) : Prop :=
  exists m e, x = S754_finite false m e /\ bounded prec emax m e = true /\
    L <= scaled o (Zpos m) e <= W.

(** The three rates as doubles. *)
Definition onePercent : spec_float := S754_finite false 5764607523034235 (-59).
Definition sevenPerMille : spec_float := S754_finite false 8070450532247929 (-60).
Definition eighteenPercent : spec_float := S754_finite false 6485183463413514 (-55).

(** The deductions of a quote, on the specification of the doubles. *)
Definition netOf (gross : spec_float) : spec_float :=
  let tds := SFmul prec emax gross onePercent in
  let platformFee := SFmul prec emax gross sevenPerMille in
  let gst := SFmul prec emax platformFee eighteenPercent in
  SFsub prec emax (SFsub prec emax (SFsub prec emax gross tds) platformFee) gst.

(** The least gross value whose net value is below it: 50 units of the
    last place of the subnormal doubles. *)
Definition leastTaxed : spec_float := S754_finite false 50 (-1074).

(** A value that is [+0], a positive double or [+Infinity]. *)
Definition nonNegative (x : spec_float) : Prop :=
  x = S754_zero false \/ x = S754_infinity false \/
  exists m e, x = S754_finite false m e /\ bounded prec emax m e = true.

Definition netBelowGross (gross : spec_float) : bool :=
  Bool.eqb (SFltb (netOf gross) gross)
    (SFleb leastTaxed gross && SFltb gross (S754_infinity false)).

End FloatSpec.

(* ===================================================================== *)
(** * Rate provider and fee calculator *)
(* ===================================================================== *)

Module RateFacts.
Import Js Rate.

Lemma getUsdInrRate_total env : ∃ r, getUsdInrRate env = Returns r.
Proof.
  unfold getUsdInrRate, getUsdInrRate_body, try_catch.
  destruct (truthy _); [|eauto].
  destruct (exchangeRateApi env) as [e|e| |d]; eauto.
  destruct (conversion_rates_INR d); [|eauto].
  destruct (_ && _); eauto.
Qed.

Lemma getUsdInrRate_cases env :
  getUsdInrRate env = Returns (default 83.40%float (liveRate env)).
Proof.
  unfold getUsdInrRate, getUsdInrRate_body, liveRate, try_catch.
  destruct (truthy _); [|done].
  destruct (exchangeRateApi env) as [e|e| |d]; try done.
  destruct (conversion_rates_INR d); [|done].
  by destruct (_ && _).
Qed.

Lemma getUsdInrRate_answering r :
  truthyNum r = true → getUsdInrRate (answering r) = Returns r.
Proof. intros Hr. rewrite getUsdInrRate_cases. cbn. by rewrite Hr. Qed.

Lemma failure_no_live_rate env : FxFailure env → liveRate env = None.
Proof.
  unfold liveRate.
  intros [e Hk|e err Hc|e err Hc|e Hc|e d Hc Hs|e d Hc Hn].
  - by rewrite Hk.
  - rewrite Hc. by destruct (truthy _).
  - rewrite Hc. by destruct (truthy _).
  - rewrite Hc. by destruct (truthy _).
  - rewrite Hc, Hs. destruct (truthy _); [|done]. by destruct (conversion_rates_INR d).
  - rewrite Hc, Hn. by destruct (truthy _).
Qed.

Lemma getUsdInrRate_fallback env :
  FxFailure env → getUsdInrRate env = Returns 83.40%float.
Proof.
  intros Hf. by rewrite getUsdInrRate_cases, (failure_no_live_rate env Hf).
Qed.

End RateFacts.

(* ===================================================================== *)
(** * Rounding to the nearest double *)
(* ===================================================================== *)

Module FloatRounding.
Import FloatSpec.
#[local] Open Scope Z_scope.

Lemma digits_bounds (p : positive) :
  2 ^ (Zpos (digits2_pos p) - 1) <= Zpos p < 2 ^ Zpos (digits2_pos p).
Proof.
  induction p as [p IH|p IH|]; cbn [digits2_pos].
  - rewrite Pos2Z.inj_succ. replace (Z.succ (Zpos (digits2_pos p)) - 1)
      with (Z.succ (Zpos (digits2_pos p) - 1)) by lia.
    rewrite !Z.pow_succ_r by lia. lia.
  - rewrite Pos2Z.inj_succ. replace (Z.succ (Zpos (digits2_pos p)) - 1)
      with (Z.succ (Zpos (digits2_pos p) - 1)) by lia.
    rewrite !Z.pow_succ_r by lia. lia.
  - cbn. lia.
Qed.

Lemma iter_pos_nat {A} (f : A -> A) (p : positive) (x : A) :
  SpecFloat.iter_pos f p x = Nat.iter (Pos.to_nat p) f x.
Proof.
  revert x. induction p as [p IH|p IH|]; intros x; cbn [SpecFloat.iter_pos].
  - rewrite !IH, Pos2Nat.inj_xI, Nat.iter_succ_r.
    replace (2 * Pos.to_nat p)%nat with (Pos.to_nat p + Pos.to_nat p)%nat by lia.
    rewrite Nat.iter_add. reflexivity.
  - rewrite !IH, Pos2Nat.inj_xO.
    replace (2 * Pos.to_nat p)%nat with (Pos.to_nat p + Pos.to_nat p)%nat by lia.
    rewrite Nat.iter_add. reflexivity.
  - reflexivity.
Qed.

Lemma shr_1_nonneg (m : Z) (r s : bool) :
  0 <= m ->
  shr_1 {| shr_m := m; shr_r := r; shr_s := s |}
  = {| shr_m := m / 2; shr_r := Z.odd m; shr_s := r || s |}.
Proof.
  intros Hm. rewrite <- Z.div2_div.
  destruct m as [|[p|p|]|p]; try reflexivity. lia.
Qed.

(** Shifting [M] right by [n] bits: the quotient, and an exact location
    when nothing is lost. *)
Lemma shr_iter (M : Z) (n : nat) :
  0 <= M ->
  let mrs := Nat.iter n shr_1 {| shr_m := M; shr_r := false; shr_s := false |} in
  shr_m mrs = M / 2 ^ Z.of_nat n /\
  (M mod 2 ^ Z.of_nat n = 0 -> loc_of_shr_record mrs = loc_Exact).
Proof.
  intros HM. induction n as [|n IH].
  - cbn. rewrite Z.div_1_r. auto.
  - cbn zeta in *. rewrite Nat.iter_succ. destruct IH as [IHm IHl].
    destruct (Nat.iter n shr_1 _) as [m r s]. cbn [shr_m] in IHm.
    assert (Hm : 0 <= m) by (subst m; apply Z.div_pos; lia).
    rewrite shr_1_nonneg by exact Hm. cbn [shr_m].
    rewrite Nat2Z.inj_succ, Z.pow_succ_r by lia.
    split.
    + subst m. rewrite Z.div_div by lia. f_equal. lia.
    + intros Hexact.
      assert (Hprev : M mod 2 ^ Z.of_nat n = 0).
      { apply Z.mod_divide in Hexact; [|lia]. apply Z.mod_divide; [lia|].
        destruct Hexact as [t Ht]. exists (2 * t). lia. }
      specialize (IHl Hprev). destruct r, s; try discriminate IHl.
      cbn [orb]. replace (Z.odd m) with false; [reflexivity|].
      symmetry. apply Z.mod_divide in Hexact; [|lia]. destruct Hexact as [t Ht].
      subst m. replace M with ((2 * t) * 2 ^ Z.of_nat n) by lia.
      rewrite Z.div_mul by lia. rewrite Z.odd_mul. reflexivity.
Qed.

Lemma round_nearest_even_cases (q : Z) (l : location) :
  (round_nearest_even q l = q \/ round_nearest_even q l = q + 1) /\
  (l = loc_Exact -> round_nearest_even q l = q).
Proof.
  split.
  - destruct l as [|[| |]]; cbn; try destruct (Z.even q); auto.
  - intros ->. reflexivity.
Qed.

Lemma fexp_eq (e : Z) : fexp e = Z.max (e - 53) (-1074).
Proof. reflexivity. Qed.

(** [shr_fexp] on a non-negative mantissa, from an exact location. *)
Lemma shr_fexp_spec (M E : Z) :
  0 <= M ->
  let k := Z.max (fexp (Zdigits2 M + E) - E) 0 in
  let '(mrs, E') := shr_fexp prec emax M E loc_Exact in
  shr_m mrs = M / 2 ^ k /\ E' = E + k /\
  (M mod 2 ^ k = 0 -> loc_of_shr_record mrs = loc_Exact).
Proof.
  intros HM k. unfold shr_fexp, shr. fold (fexp (Zdigits2 M + E)).
  subst k. destruct (fexp (Zdigits2 M + E) - E) as [|p|p] eqn:Hk; cbn [shr_record_of_loc].
  - cbn. rewrite Z.div_1_r. repeat split; lia.
  - rewrite iter_pos_nat. rewrite Z.max_l by lia.
    destruct (shr_iter M (Pos.to_nat p) HM) as [Hm Hl].
    rewrite positive_nat_Z in Hm, Hl. repeat split; assumption.
  - rewrite Z.max_r by lia. cbn. rewrite Z.div_1_r. repeat split; lia.
Qed.

Lemma pow2_pos (n : Z) : 0 <= n -> 0 < 2 ^ n.
Proof. intros. apply Z.pow_pos_nonneg; lia. Qed.

Lemma digits_le (m : positive) (n : Z) :
  0 <= n -> Zpos m < 2 ^ n -> Zpos (digits2_pos m) <= n.
Proof.
  intros Hn Hm. destruct (digits_bounds m) as [Hlo _].
  destruct (Z_le_gt_dec (Zpos (digits2_pos m)) n) as [|Hgt]; [assumption|exfalso].
  assert (2 ^ n <= 2 ^ (Zpos (digits2_pos m) - 1)) by (apply Z.pow_le_mono_r; lia).
  lia.
Qed.

Lemma digits_ge (m : positive) (n : Z) :
  0 <= n -> 2 ^ n <= Zpos m -> n + 1 <= Zpos (digits2_pos m).
Proof.
  intros Hn Hm. destruct (digits_bounds m) as [_ Hhi].
  destruct (Z_le_gt_dec (n + 1) (Zpos (digits2_pos m))) as [|Hgt]; [assumption|exfalso].
  assert (2 ^ Zpos (digits2_pos m) <= 2 ^ n) by (apply Z.pow_le_mono_r; lia).
  lia.
Qed.

Lemma round_aux_spec (s : bool) (M : positive) (E : Z) :
  E <= fexp (Zpos (digits2_pos M) + E) ->
  let e1 := fexp (Zpos (digits2_pos M) + E) in
  let k := e1 - E in
  let q := Zpos M / 2 ^ k in
  0 <= q < 2 ^ 53 /\ (-1074 < e1 -> 2 ^ 52 <= q) /\
  exists m1, (m1 = q \/ m1 = q + 1) /\ (Zpos M mod 2 ^ k = 0 -> m1 = q) /\
    binary_round_aux prec emax s (Zpos M) E loc_Exact = packed s m1 e1.
Proof.
  intros Hk e1 k q.
  assert (Hk0 : 0 <= k) by (subst k e1; lia).
  assert (He1 : -1074 <= e1) by (subst e1; rewrite fexp_eq; lia).
  destruct (digits_bounds M) as [Hlo Hhi]. set (d := Zpos (digits2_pos M)) in *.
  assert (Hd : 0 < d) by (subst d; lia).
  assert (Hkd : d - 53 <= k) by (subst k e1; rewrite fexp_eq; lia).
  assert (Hq : 0 <= q < 2 ^ 53).
  { subst q. split; [apply Z.div_pos; [lia|apply pow2_pos; lia]|].
    apply Z.div_lt_upper_bound; [apply pow2_pos; lia|].
    rewrite <- Z.pow_add_r by lia.
    assert (2 ^ d <= 2 ^ (k + 53)) by (apply Z.pow_le_mono_r; lia). lia. }
  assert (Hnorm : -1074 < e1 -> 2 ^ 52 <= q).
  { intros Hgt. assert (Hkeq : k = d - 53) by (subst k e1; rewrite fexp_eq in *; lia).
    subst q. apply Z.div_le_lower_bound; [apply pow2_pos; lia|].
    rewrite <- Z.pow_add_r by lia. replace (k + 52) with (d - 1) by lia. exact Hlo. }
  split; [exact Hq|]. split; [exact Hnorm|].
  unfold binary_round_aux.
  pose proof (shr_fexp_spec (Zpos M) E ltac:(lia)) as H1. cbn zeta in H1.
  change (Zdigits2 (Zpos M)) with d in H1. fold e1 in H1. fold k in H1.
  rewrite Z.max_l in H1 by lia.
  destruct (shr_fexp prec emax (Zpos M) E loc_Exact) as [mrs' e'].
  destruct H1 as (Hm' & He' & Hl').
  fold q in Hm'. rewrite Hm'. replace e' with e1 by (subst k; lia).
  destruct (round_nearest_even_cases q (loc_of_shr_record mrs')) as [Hcases Hexact].
  set (m1 := round_nearest_even q (loc_of_shr_record mrs')) in *.
  exists m1. split; [exact Hcases|]. split; [intros Hmod; apply Hexact, Hl', Hmod|].
  assert (Hm1 : 0 <= m1 <= 2 ^ 53) by lia.
  pose proof (shr_fexp_spec m1 e1 ltac:(lia)) as H2. cbn zeta in H2.
  destruct (shr_fexp prec emax m1 e1 loc_Exact) as [mrs'' e''].
  destruct H2 as (Hm'' & He'' & _).
  unfold packed.
  destruct (Z.eqb_spec m1 0) as [Hz|Hnz].
  - rewrite Hz in Hm''. rewrite Z.div_0_l in Hm'' by (apply Z.pow_nonzero; lia).
    rewrite Hm''. reflexivity.
  - destruct (Z.eqb_spec m1 (2 ^ 53)) as [Hfull|Hnfull].
    + assert (Hdig : Zdigits2 m1 = 54) by (rewrite Hfull; reflexivity).
      rewrite Hdig, fexp_eq in Hm'', He''.
      replace (Z.max (Z.max (54 + e1 - 53) (-1074) - e1) 0) with 1 in Hm'', He'' by lia.
      rewrite Hm'', He'', Hfull. reflexivity.
    + destruct m1 as [|p1|p1]; [lia| |lia].
      assert (Hdig : Zpos (digits2_pos p1) <= 53) by (apply digits_le; lia).
      change (Zdigits2 (Zpos p1)) with (Zpos (digits2_pos p1)) in Hm'', He''.
      rewrite fexp_eq in Hm'', He''.
      replace (Z.max (Z.max (Zpos (digits2_pos p1) + e1 - 53) (-1074) - e1) 0) with 0
        in Hm'', He'' by lia.
      rewrite Z.div_1_r in Hm''. rewrite Hm'', He'', Z.add_0_r. reflexivity.
Qed.

Lemma bounded_representable (m : positive) (e : Z) :
  bounded prec emax m e = true -> representable (Zpos m) e.
Proof.
  unfold bounded, canonical_mantissa. fold (fexp (Zpos (digits2_pos m) + e)).
  intros H. apply andb_prop in H as [Hc He].
  apply Z.eqb_eq in Hc. apply Z.leb_le in He. rewrite fexp_eq in Hc.
  change (emax - prec) with 971 in He.
  destruct (digits_bounds m) as [_ Hhi].
  assert (Zpos (digits2_pos m) <= 53) by lia.
  assert (2 ^ Zpos (digits2_pos m) <= 2 ^ 53) by (apply Z.pow_le_mono_r; lia).
  unfold representable. lia.
Qed.

(** The packed result is a valid double. *)
Lemma packed_bounded (s : bool) (m1 e1 : Z) (m : positive) (e : Z) :
  0 <= m1 <= 2 ^ 53 -> -1074 <= e1 -> (-1074 < e1 -> 2 ^ 52 <= m1) ->
  packed s m1 e1 = S754_finite s m e ->
  bounded prec emax m e = true /\ forall o, 0 <= e1 + o -> scaled o (Zpos m) e = scaled o m1 e1.
Proof.
  intros Hm1 He1 Hnorm. unfold packed.
  destruct (Z.eqb_spec m1 0) as [Hz|Hnz]; [discriminate|].
  destruct (Z.eqb_spec m1 (2 ^ 53)) as [Hfull|Hnfull].
  - destruct (Z.leb_spec (e1 + 1) 971) as [Hle|Hgt]; [|discriminate].
    intros [= <- <-]. split.
    + unfold bounded, canonical_mantissa. fold (fexp (Zpos (digits2_pos (2 ^ 52)) + (e1 + 1))).
      rewrite fexp_eq. change (Zpos (digits2_pos (2 ^ 52))) with 53.
      change (emax - prec) with 971.
      apply andb_true_intro. split; [apply Z.eqb_eq; lia|apply Z.leb_le; lia].
    + intros o Ho. unfold scaled. rewrite Hfull.
      replace (e1 + 1 + o) with (1 + (e1 + o)) by lia. rewrite Z.pow_add_r by lia.
      change (Zpos (2 ^ 52)) with (2 ^ 52). change (2 ^ 1) with 2. lia.
  - destruct (Z.leb_spec e1 971) as [Hle|Hgt]; [|discriminate].
    intros [= <- <-]. destruct m1 as [|p1|p1]; [lia| |lia].
    cbn [Z.to_pos]. split; [|reflexivity].
    unfold bounded, canonical_mantissa. fold (fexp (Zpos (digits2_pos p1) + e1)).
    rewrite fexp_eq. change (emax - prec) with 971.
    assert (Hdig : Zpos (digits2_pos p1) <= 53) by (apply digits_le; lia).
    apply andb_true_intro. split; [apply Z.eqb_eq|apply Z.leb_le; lia].
    destruct (Z.eq_dec e1 (-1074)) as [->|Hne]; [lia|].
    assert (53 <= Zpos (digits2_pos p1)) by (apply (digits_ge p1 52); lia). lia.
Qed.

Section Order.
Variables (s : bool) (M : positive) (E o : Z).
Hypothesis Hshift : E <= fexp (Zpos (digits2_pos M) + E).
Hypothesis Ho : 0 <= E + o.
Hypothesis Ho' : 1074 <= o.

Let r := binary_round_aux prec emax s (Zpos M) E loc_Exact.

(** Rounding does not cross a representable value from below... *)
Lemma round_le (mw ew : Z) :
  representable mw ew ->
  scaled o (Zpos M) E <= scaled o mw ew ->
  r = S754_zero s \/
  exists m e, r = S754_finite s m e /\ bounded prec emax m e = true /\
    scaled o (Zpos m) e <= scaled o mw ew.
Proof.
  intros [Hmw Hew] HX.
  destruct (round_aux_spec s M E Hshift) as (Hq & Hnorm & m1 & Hcases & Hexact & Hr).
  fold r in Hr. cbn zeta in *.
  set (e1 := fexp (Zpos (digits2_pos M) + E)) in *.
  set (k := e1 - E) in *. set (q := Zpos M / 2 ^ k) in *.
  assert (Hk0 : 0 <= k) by (subst k; lia).
  assert (He1 : -1074 <= e1) by (subst e1; rewrite fexp_eq; lia).
  assert (H2k : 0 < 2 ^ k) by (apply pow2_pos; lia).
  assert (Hdiv : q * 2 ^ k <= Zpos M < (q + 1) * 2 ^ k).
  { subst q. pose proof (Z.mul_div_le (Zpos M) (2 ^ k) H2k).
    pose proof (Z.mul_succ_div_gt (Zpos M) (2 ^ k) H2k). lia. }
  assert (Hinexact : m1 = q + 1 -> q * 2 ^ k < Zpos M).
  { intros Hm1. destruct (Z.eq_dec (Zpos M mod 2 ^ k) 0) as [Hz|Hnz].
    - specialize (Hexact Hz). lia.
    - pose proof (Z.div_mod (Zpos M) (2 ^ k) ltac:(lia)) as Hdm. fold q in Hdm.
      pose proof (Z.mod_pos_bound (Zpos M) (2 ^ k) H2k). lia. }
  set (a := E + o) in *.
  assert (H2a : 0 < 2 ^ a) by (apply pow2_pos; lia).
  assert (HG : 2 ^ (e1 + o) = 2 ^ k * 2 ^ a).
  { rewrite <- Z.pow_add_r by lia. f_equal. subst k a. lia. }
  unfold scaled in HX. fold a in HX.
  (* the value of the result is at most the bound *)
  assert (Hle : m1 * 2 ^ (e1 + o) <= mw * 2 ^ (ew + o) /\ e1 <= ew).
  { destruct (Z_le_gt_dec e1 ew) as [Hge|Hlt].
    - split; [|exact Hge].
      assert (HW : 2 ^ (ew + o) = 2 ^ (ew - e1) * 2 ^ (e1 + o)).
      { rewrite <- Z.pow_add_r by lia. f_equal. lia. }
      rewrite HW, HG in *. set (t := mw * 2 ^ (ew - e1)) in *.
      assert (Ht : Zpos M * 2 ^ a <= t * (2 ^ k * 2 ^ a)) by (subst t; lia).
      assert (Zpos M <= t * 2 ^ k) by nia.
      replace (mw * (2 ^ (ew - e1) * (2 ^ k * 2 ^ a))) with (t * (2 ^ k * 2 ^ a))
        by (subst t; ring).
      destruct Hcases as [->| ->].
      + assert (q * 2 ^ k <= t * 2 ^ k) by lia. nia.
      + specialize (Hinexact eq_refl).
        assert (q * 2 ^ k < t * 2 ^ k) by lia. assert (q < t) by nia. nia.
    - exfalso. specialize (Hnorm ltac:(lia)).
      assert (2 ^ (ew + o) * 2 <= 2 ^ (e1 + o)).
      { replace (e1 + o) with ((ew + o) + (e1 - ew)) by lia.
        rewrite (Z.pow_add_r 2 (ew + o) (e1 - ew)) by lia.
        assert (2 ^ 1 <= 2 ^ (e1 - ew)) by (apply Z.pow_le_mono_r; lia).
        assert (0 < 2 ^ (ew + o)) by (apply pow2_pos; lia).
        change (2 ^ 1) with 2 in *. nia. }
      assert (0 < 2 ^ (ew + o)) by (apply pow2_pos; lia).
      rewrite HG in *.
      assert (mw * 2 ^ (ew + o) < 2 ^ 53 * 2 ^ (ew + o)) by nia.
      assert (2 ^ 52 * (2 ^ k * 2 ^ a) <= q * (2 ^ k * 2 ^ a)) by nia.
      change (2 ^ 53) with (2 * 2 ^ 52) in *.
      assert (q * 2 ^ k * 2 ^ a <= Zpos M * 2 ^ a) by nia.
      nia. }
  destruct Hle as [Hle Hexp].
  destruct r as [s'|s'| |s' m e] eqn:Er.
  - left. revert Hr. unfold packed.
    repeat match goal with |- context [if ?b then _ else _] => destruct b end;
      intros [=]; subst; reflexivity.
  - exfalso. revert Hr. unfold packed.
    destruct (Z.eqb_spec m1 0); [discriminate|].
    destruct (Z.eqb_spec m1 (2 ^ 53)) as [Hfull|Hnfull].
    + destruct (Z.leb_spec (e1 + 1) 971) as [|Hgt]; [discriminate|]. intros _.
      assert (e1 = ew) by lia. subst ew. rewrite Hfull in Hle.
      assert (0 < 2 ^ (e1 + o)) by (apply pow2_pos; lia). nia.
    + destruct (Z.leb_spec e1 971) as [|Hgt]; [discriminate|]. lia.
  - exfalso. revert Hr. unfold packed.
    repeat match goal with |- context [if ?b then _ else _] => destruct b end;
      discriminate.
  - right. assert (s' = s).
    { revert Hr. unfold packed.
      repeat match goal with |- context [if ?b then _ else _] => destruct b end;
        intros [=]; subst; reflexivity. }
    subst s'. exists m, e. split; [reflexivity|].
    destruct (packed_bounded s m1 e1 m e ltac:(lia) He1 ltac:(lia) (eq_sym Hr))
      as [Hb Hv].
    split; [exact Hb|]. rewrite (Hv o) by lia. exact Hle.
Qed.

(** ... nor from above. *)
Lemma round_ge (mw ew : Z) :
  representable mw ew ->
  scaled o mw ew <= scaled o (Zpos M) E ->
  r = S754_infinity s \/
  exists m e, r = S754_finite s m e /\ bounded prec emax m e = true /\
    scaled o mw ew <= scaled o (Zpos m) e.
Proof.
  intros [Hmw Hew] HX.
  destruct (round_aux_spec s M E Hshift) as (Hq & Hnorm & m1 & Hcases & Hexact & Hr).
  fold r in Hr. cbn zeta in *.
  set (e1 := fexp (Zpos (digits2_pos M) + E)) in *.
  set (k := e1 - E) in *. set (q := Zpos M / 2 ^ k) in *.
  assert (Hk0 : 0 <= k) by (subst k; lia).
  assert (He1 : -1074 <= e1) by (subst e1; rewrite fexp_eq; lia).
  assert (H2k : 0 < 2 ^ k) by (apply pow2_pos; lia).
  assert (Hdiv : q * 2 ^ k <= Zpos M < (q + 1) * 2 ^ k).
  { subst q. pose proof (Z.mul_div_le (Zpos M) (2 ^ k) H2k).
    pose proof (Z.mul_succ_div_gt (Zpos M) (2 ^ k) H2k). lia. }
  set (a := E + o) in *.
  assert (H2a : 0 < 2 ^ a) by (apply pow2_pos; lia).
  assert (HG : 2 ^ (e1 + o) = 2 ^ k * 2 ^ a).
  { rewrite <- Z.pow_add_r by lia. f_equal. subst k a. lia. }
  unfold scaled in HX. fold a in HX.
  assert (Hge : mw * 2 ^ (ew + o) <= m1 * 2 ^ (e1 + o) /\ 0 < m1).
  { destruct (Z_le_gt_dec e1 ew) as [Hle|Hlt].
    - assert (HW : 2 ^ (ew + o) = 2 ^ (ew - e1) * 2 ^ (e1 + o)).
      { rewrite <- Z.pow_add_r by lia. f_equal. lia. }
      rewrite HW, HG in *. set (t := mw * 2 ^ (ew - e1)) in *.
      assert (0 < 2 ^ (ew - e1)) by (apply pow2_pos; lia).
      assert (Ht1 : 1 <= t) by (subst t; nia).
      assert (Ht : t * (2 ^ k * 2 ^ a) <= Zpos M * 2 ^ a) by (subst t; lia).
      assert (t * 2 ^ k <= Zpos M) by nia.
      assert (t * 2 ^ k < (q + 1) * 2 ^ k) by lia.
      assert (t <= q) by nia.
      replace (mw * (2 ^ (ew - e1) * (2 ^ k * 2 ^ a))) with (t * (2 ^ k * 2 ^ a))
        by (subst t; ring).
      split; [|lia]. assert (t <= m1) by lia. nia.
    - specialize (Hnorm ltac:(lia)).
      assert (2 ^ (ew + o) * 2 <= 2 ^ (e1 + o)).
      { replace (e1 + o) with ((ew + o) + (e1 - ew)) by lia.
        rewrite (Z.pow_add_r 2 (ew + o) (e1 - ew)) by lia.
        assert (2 ^ 1 <= 2 ^ (e1 - ew)) by (apply Z.pow_le_mono_r; lia).
        assert (0 < 2 ^ (ew + o)) by (apply pow2_pos; lia).
        change (2 ^ 1) with 2 in *. nia. }
      assert (0 < 2 ^ (ew + o)) by (apply pow2_pos; lia).
      assert (0 < 2 ^ (e1 + o)) by (apply pow2_pos; lia).
      assert (mw * 2 ^ (ew + o) < 2 ^ 53 * 2 ^ (ew + o)) by nia.
      change (2 ^ 53) with (2 * 2 ^ 52) in *.
      assert (2 ^ 52 <= m1) by lia.
      split; [|lia]. nia. }
  destruct Hge as [Hge Hpos].
  destruct r as [s'|s'| |s' m e] eqn:Er.
  - exfalso. revert Hr. unfold packed.
    destruct (Z.eqb_spec m1 0); [lia|].
    repeat match goal with |- context [if ?b then _ else _] => destruct b end;
      discriminate.
  - left. revert Hr. unfold packed.
    repeat match goal with |- context [if ?b then _ else _] => destruct b end;
      intros [=]; subst; reflexivity.
  - exfalso. revert Hr. unfold packed.
    repeat match goal with |- context [if ?b then _ else _] => destruct b end;
      discriminate.
  - right. assert (s' = s).
    { revert Hr. unfold packed.
      repeat match goal with |- context [if ?b then _ else _] => destruct b end;
        intros [=]; subst; reflexivity. }
    subst s'. exists m, e. split; [reflexivity|].
    destruct (packed_bounded s m1 e1 m e ltac:(lia) He1 ltac:(lia) (eq_sym Hr))
      as [Hb Hv].
    split; [exact Hb|]. rewrite (Hv o) by lia. exact Hge.
Qed.

(** Between two representable values the result is a double between
    them. *)
Lemma round_between (ml el mh eh : Z) :
  representable ml el -> representable mh eh ->
  scaled o ml el <= scaled o (Zpos M) E <= scaled o mh eh ->
  exists m e, r = S754_finite s m e /\ bounded prec emax m e = true /\
    scaled o ml el <= scaled o (Zpos m) e <= scaled o mh eh.
Proof.
  intros Hl Hh [HX1 HX2].
  destruct (round_le mh eh Hh HX2) as [Hz|(m & e & Hr & Hb & Hle)];
    destruct (round_ge ml el Hl HX1) as [Hi|(m' & e' & Hr' & Hb' & Hge)].
  - rewrite Hz in Hi. discriminate.
  - rewrite Hz in Hr'. discriminate.
  - rewrite Hr in Hi. discriminate.
  - rewrite Hr in Hr'. injection Hr' as <- <-. exists m, e. auto.
Qed.

End Order.

(** A double above the least exponent has all its 53 bits. *)
Lemma bounded_normal (m : positive) (e : Z) :
  bounded prec emax m e = true -> -1074 < e -> 2 ^ 52 <= Zpos m.
Proof.
  unfold bounded, canonical_mantissa. fold (fexp (Zpos (digits2_pos m) + e)).
  intros H He. apply andb_prop in H as [Hc _].
  apply Z.eqb_eq in Hc. rewrite fexp_eq in Hc.
  destruct (digits_bounds m) as [Hlo _].
  assert (Hd : Zpos (digits2_pos m) = 53) by lia. rewrite Hd in Hlo. exact Hlo.
Qed.

Lemma bounded_shift (m : positive) (e : Z) :
  bounded prec emax m e = true -> fexp (Zpos (digits2_pos m) + e) = e.
Proof.
  unfold bounded, canonical_mantissa. fold (fexp (Zpos (digits2_pos m) + e)).
  intros H. apply andb_prop in H as [Hc _]. apply Z.eqb_eq in Hc. exact Hc.
Qed.

Lemma iter_xO (m d : positive) : Zpos (Pos.iter xO m d) = Zpos m * 2 ^ Zpos d.
Proof.
  induction d as [|d IH] using Pos.peano_ind.
  - cbn. lia.
  - rewrite Pos.iter_succ, Pos2Z.inj_xO, IH, Pos2Z.inj_succ, Z.pow_succ_r by lia. ring.
Qed.

(** Aligning to a lower exponent keeps the value. *)
Lemma shl_align_spec (m : positive) (e e' : Z) :
  e' <= e ->
  exists m', shl_align m e e' = (m', e') /\ Zpos m' = Zpos m * 2 ^ (e - e').
Proof.
  intros Hle. unfold shl_align. destruct (e' - e) as [|d|d] eqn:Ed; [|lia|].
  - assert (e' = e) as -> by lia. exists m. rewrite Z.sub_diag. split; [reflexivity|lia].
  - exists (Pos.iter xO m d). split; [reflexivity|].
    rewrite iter_xO. f_equal. f_equal. lia.
Qed.

Lemma digits_shift (m : positive) (k : Z) (m' : positive) :
  0 <= k -> Zpos m' = Zpos m * 2 ^ k ->
  Zpos (digits2_pos m') = Zpos (digits2_pos m) + k.
Proof.
  intros Hk Hm'. destruct (digits_bounds m) as [Hlo Hhi].
  destruct (digits_bounds m') as [Hlo' Hhi'].
  assert (H2k : 0 < 2 ^ k) by (apply pow2_pos; lia).
  set (d := Zpos (digits2_pos m)) in *. set (d' := Zpos (digits2_pos m')) in *.
  assert (Hd : 1 <= d) by (subst d; lia).
  assert (Hd' : 1 <= d') by (subst d'; lia).
  assert (Hlow : 2 ^ (d - 1 + k) <= Zpos m') by (rewrite Z.pow_add_r by lia; nia).
  assert (Hupp : Zpos m' < 2 ^ (d + k)) by (rewrite Z.pow_add_r by lia; nia).
  destruct (Z.lt_trichotomy d' (d + k)) as [Hlt|[Heq|Hgt]]; [exfalso|exact Heq|exfalso].
  - assert (2 ^ d' <= 2 ^ (d - 1 + k)) by (apply Z.pow_le_mono_r; lia). lia.
  - assert (2 ^ (d + k) <= 2 ^ (d' - 1)) by (apply Z.pow_le_mono_r; lia). lia.
Qed.

(** Rounding an integer at an exponent: after the alignment no left
    shift is left to do, and the value is the same. *)
Lemma binary_round_spec (s : bool) (m : positive) (e o : Z) :
  0 <= e + o -> 1074 <= o ->
  exists M E,
    binary_round prec emax s m e = binary_round_aux prec emax s (Zpos M) E loc_Exact /\
    E <= fexp (Zpos (digits2_pos M) + E) /\ 0 <= E + o /\
    scaled o (Zpos M) E = scaled o (Zpos m) e.
Proof.
  intros Ho Ho'. unfold binary_round. fold (fexp (Zpos (digits2_pos m) + e)).
  set (e' := fexp (Zpos (digits2_pos m) + e)).
  assert (He' : -1074 <= e') by (subst e'; rewrite fexp_eq; lia).
  destruct (Z_le_gt_dec e e') as [Hle|Hgt].
  - exists m, e. split; [|split; [exact Hle|split; [exact Ho|reflexivity]]].
    unfold shl_align. destruct (e' - e) as [|d|d] eqn:Ed; [reflexivity|reflexivity|lia].
  - destruct (shl_align_spec m e e' ltac:(lia)) as (m' & Hal & Hm').
    exists m', e'. rewrite Hal. split; [reflexivity|].
    rewrite (digits_shift m (e - e') m' ltac:(lia) Hm').
    replace (Zpos (digits2_pos m) + (e - e') + e') with (Zpos (digits2_pos m) + e) by lia.
    fold e'. split; [lia|split; [lia|]].
    unfold scaled. rewrite Hm'. replace (e + o) with ((e - e') + (e' + o)) by lia.
    rewrite (Z.pow_add_r 2 (e - e') (e' + o)) by lia. ring.
Qed.

(** The order of two positive doubles is the order of their values. *)
Lemma SFltb_scaled (o : Z) (m1 : positive) (e1 : Z) (m2 : positive) (e2 : Z) :
  1074 <= o ->
  bounded prec emax m1 e1 = true -> bounded prec emax m2 e2 = true ->
  scaled o (Zpos m1) e1 < scaled o (Zpos m2) e2 ->
  SFltb (S754_finite false m1 e1) (S754_finite false m2 e2) = true.
Proof.
  intros Ho H1 H2 Hlt.
  destruct (bounded_representable _ _ H1) as [Hm1 He1].
  destruct (bounded_representable _ _ H2) as [Hm2 He2].
  unfold SFltb, SFcompare, scaled in *.
  destruct (Z.compare_spec e1 e2) as [Heq|Hl|Hg]; [|reflexivity|exfalso].
  - subst e2. assert (0 < 2 ^ (e1 + o)) by (apply pow2_pos; lia).
    assert (Hm : (m1 < m2)%positive) by nia.
    rewrite Pos.compare_cont_spec. apply Pos.compare_lt_iff in Hm. rewrite Hm. reflexivity.
  - pose proof (bounded_normal _ _ H1 ltac:(lia)) as Hn.
    assert (0 < 2 ^ (e2 + o)) by (apply pow2_pos; lia).
    assert (2 ^ (e2 + o) * 2 <= 2 ^ (e1 + o)).
    { replace (e1 + o) with ((e2 + o) + (e1 - e2)) by lia.
      rewrite (Z.pow_add_r 2 (e2 + o) (e1 - e2)) by lia.
      assert (2 ^ 1 <= 2 ^ (e1 - e2)) by (apply Z.pow_le_mono_r; lia).
      change (2 ^ 1) with 2 in *. nia. }
    change (2 ^ 53) with (2 * 2 ^ 52) in *. nia.
Qed.

Section Operations.
Variable o : Z.
Hypothesis Ho : 1200 <= o.

Section Product.
Variables (m : positive) (e : Z) (mc : positive) (ec : Z).
Hypothesis Hb : bounded prec emax m e = true.
Hypothesis Hmc : 2 ^ 52 <= Zpos mc.
Hypothesis Hec : -126 <= ec.

Lemma product_shift :
  e + ec <= fexp (Zpos (digits2_pos (m * mc)) + (e + ec)).
Proof.
  rewrite fexp_eq.
  assert (53 <= Zpos (digits2_pos (m * mc))).
  { apply (digits_ge (m * mc) 52); [lia|]. rewrite Pos2Z.inj_mul. nia. }
  lia.
Qed.

Lemma SFmul_atMost (mw ew : Z) :
  representable mw ew ->
  scaled o (Zpos m * Zpos mc) (e + ec) <= scaled o mw ew ->
  atMost o (SFmul prec emax (S754_finite false m e) (S754_finite false mc ec))
    (scaled o mw ew).
Proof.
  intros Hw HX. destruct (bounded_representable _ _ Hb) as [_ He].
  cbn [SFmul xorb]. rewrite <- Pos2Z.inj_mul in HX.
  destruct (round_le false (m * mc) (e + ec) o product_shift ltac:(lia) ltac:(lia)
              mw ew Hw HX) as [Hz|(m' & e' & Hr & Hb' & Hle)].
  - left. exact Hz.
  - right. exists m', e'. auto.
Qed.

Lemma SFmul_between (ml el mh eh : Z) :
  representable ml el -> representable mh eh ->
  scaled o ml el <= scaled o (Zpos m * Zpos mc) (e + ec) <= scaled o mh eh ->
  between o (SFmul prec emax (S754_finite false m e) (S754_finite false mc ec))
    (scaled o ml el) (scaled o mh eh).
Proof.
  intros Hl Hh HX. destruct (bounded_representable _ _ Hb) as [_ He].
  cbn [SFmul xorb]. rewrite <- Pos2Z.inj_mul in HX.
  exact (round_between false (m * mc) (e + ec) o product_shift ltac:(lia) ltac:(lia)
           ml el mh eh Hl Hh HX).
Qed.
End Product.

(** The difference of two positive doubles, when it lies between two
    positive representable values. *)
Lemma SFsub_between (mx : positive) (ex : Z) (my : positive) (ey : Z)
    (ml el mh eh : Z) :
  bounded prec emax mx ex = true -> bounded prec emax my ey = true ->
  representable ml el -> representable mh eh ->
  scaled o ml el <= scaled o (Zpos mx) ex - scaled o (Zpos my) ey <= scaled o mh eh ->
  between o (SFsub prec emax (S754_finite false mx ex) (S754_finite false my ey))
    (scaled o ml el) (scaled o mh eh).
Proof.
  intros Hbx Hby Hl Hh HX.
  destruct (bounded_representable _ _ Hbx) as [_ Hex].
  destruct (bounded_representable _ _ Hby) as [_ Hey].
  cbn [SFsub cond_Zopp]. set (ez := Z.min ex ey).
  destruct (shl_align_spec mx ex ez ltac:(subst ez; lia)) as (mx' & -> & Hmx').
  destruct (shl_align_spec my ey ez ltac:(subst ez; lia)) as (my' & -> & Hmy').
  cbn [fst].
  assert (Hez : -1074 <= ez) by (subst ez; lia).
  assert (H2 : 0 < 2 ^ (ez + o)) by (apply pow2_pos; lia).
  assert (Hval : scaled o (Zpos mx' - Zpos my') ez
                 = scaled o (Zpos mx) ex - scaled o (Zpos my) ey).
  { unfold scaled. rewrite Hmx', Hmy'.
    replace (ex + o) with ((ex - ez) + (ez + o)) by lia.
    replace (ey + o) with ((ey - ez) + (ez + o)) by lia.
    rewrite (Z.pow_add_r 2 (ex - ez) (ez + o)), (Z.pow_add_r 2 (ey - ez) (ez + o))
      by (subst ez; lia).
    ring. }
  assert (Hpos : 0 < scaled o ml el).
  { destruct Hl as [Hml Hel]. unfold scaled.
    assert (0 < 2 ^ (el + o)) by (apply pow2_pos; lia). nia. }
  rewrite <- Hval in HX.
  destruct (Zpos mx' - Zpos my') as [|p|p] eqn:Ep.
  - unfold scaled in *. lia.
  - cbn [binary_normalize].
    destruct (binary_round_spec false p ez o ltac:(lia) ltac:(lia))
      as (M & E & -> & Hshift & HE & HME).
    rewrite <- HME in HX.
    exact (round_between false M E o Hshift HE ltac:(lia) ml el mh eh Hl Hh HX).
  - unfold scaled in *. nia.
Qed.

End Operations.

Lemma scaled_split (o k e j : Z) :
  0 <= j -> 0 <= e - j + o -> scaled o k e = k * 2 ^ j * 2 ^ (e - j + o).
Proof.
  intros Hj Ho. unfold scaled. replace (e + o) with (j + (e - j + o)) by lia.
  rewrite (Z.pow_add_r 2 j (e - j + o)) by lia. ring.
Qed.

Section Chain.
Variables (m : positive) (e : Z).
Hypothesis Hb : bounded prec emax m e = true.
Hypothesis Hm : 100 <= Zpos m.

Lemma net_below_gross :
  SFltb (netOf (S754_finite false m e)) (S754_finite false m e) = true.
Proof.
  set (o := 1200). assert (Ho : 1200 <= o) by (subst o; lia).
  destruct (bounded_representable _ _ Hb) as [Hm53 He].
  set (G0 := 2 ^ (e + o)).
  assert (HG0 : 0 < G0) by (apply pow2_pos; lia).
  assert (Hsc : forall k, scaled o k e = k * G0) by reflexivity.
  set (q64 := Zpos m / 64). set (q128 := Zpos m / 128).
  assert (Hq64 : 64 * q64 <= Zpos m < 64 * q64 + 64).
  { subst q64. pose proof (Z.mul_div_le (Zpos m) 64 ltac:(lia)).
    pose proof (Z.mul_succ_div_gt (Zpos m) 64 ltac:(lia)). lia. }
  assert (Hq128 : 128 * q128 <= Zpos m < 128 * q128 + 128).
  { subst q128. pose proof (Z.mul_div_le (Zpos m) 128 ltac:(lia)).
    pose proof (Z.mul_succ_div_gt (Zpos m) 128 ltac:(lia)). lia. }
  assert (Hrep : forall k, 0 < k < 2 ^ 53 -> representable k e)
    by (intros k Hk; split; assumption).
  cbv beta zeta delta [netOf onePercent sevenPerMille eighteenPercent].
  (* tds *)
  destruct (SFmul_between o Ho m e 5764607523034235 (-59) Hb ltac:(lia) ltac:(lia)
              1 e (q64 + 1) e ltac:(apply Hrep; lia) ltac:(apply Hrep; lia))
    as (mt & et & -> & Hbt & Ht).
  { rewrite !Hsc. replace (-59) with (0 - 59) by lia.
    unfold scaled. replace (e + (0 - 59) + o) with (e - 59 + o) by lia.
    assert (HG : G0 = 2 ^ 59 * 2 ^ (e - 59 + o)).
    { subst G0. rewrite <- Z.pow_add_r by lia. f_equal. lia. }
    assert (0 < 2 ^ (e - 59 + o)) by (apply pow2_pos; lia).
    rewrite HG. change (2 ^ 59) with 576460752303423488.
    set (u := 2 ^ (e - 59 + o)) in *. nia. }
  rewrite !Hsc in Ht.
  (* gross - tds *)
  destruct (SFsub_between o Ho m e mt et (Zpos m - q64 - 1) e (Zpos m - 1) e Hb Hbt
              ltac:(apply Hrep; lia) ltac:(apply Hrep; lia))
    as (m1 & e1 & -> & Hb1 & H1).
  { rewrite !Hsc. nia. }
  rewrite !Hsc in H1.
  (* platform fee *)
  destruct (SFmul_atMost o Ho m e 8070450532247929 (-60) Hb ltac:(lia) ltac:(lia)
              (q128 + 1) e ltac:(apply Hrep; lia))
    as [->|(mf & ef & -> & Hbf & Hf)].
  { rewrite !Hsc. unfold scaled. replace (e + -60 + o) with (e - 60 + o) by lia.
    assert (HG : G0 = 2 ^ 60 * 2 ^ (e - 60 + o)).
    { subst G0. rewrite <- Z.pow_add_r by lia. f_equal. lia. }
    assert (0 < 2 ^ (e - 60 + o)) by (apply pow2_pos; lia).
    rewrite HG. change (2 ^ 60) with 1152921504606846976.
    set (u := 2 ^ (e - 60 + o)) in *. nia. }
  { cbn [SFmul SFsub xorb].
    apply (SFltb_scaled o); [lia|assumption|assumption|]. rewrite !Hsc. nia. }
  rewrite !Hsc in Hf.
  destruct (bounded_representable _ _ Hbf) as [Hmf Hef].
  assert (Hfpos : 0 < scaled o (Zpos mf) ef).
  { unfold scaled. assert (0 < 2 ^ (ef + o)) by (apply pow2_pos; lia). nia. }
  (* gross - tds - platform fee *)
  destruct (SFsub_between o Ho m1 e1 mf ef (Zpos m - q64 - q128 - 2) e (Zpos m - 1) e
              Hb1 Hbf ltac:(apply Hrep; lia) ltac:(apply Hrep; lia))
    as (m2 & e2 & -> & Hb2 & H2).
  { rewrite !Hsc. nia. }
  rewrite !Hsc in H2.
  (* gst *)
  destruct (SFmul_atMost o Ho mf ef 6485183463413514 (-55) Hbf ltac:(lia) ltac:(lia)
              (Zpos mf) ef (bounded_representable _ _ Hbf))
    as [->|(mg & eg & -> & Hbg & Hg)].
  { unfold scaled. replace (ef + -55 + o) with (ef - 55 + o) by lia.
    replace (ef + o) with (55 + (ef - 55 + o)) by lia.
    rewrite (Z.pow_add_r 2 55 (ef - 55 + o)) by lia.
    assert (0 < 2 ^ (ef - 55 + o)) by (apply pow2_pos; lia).
    change (2 ^ 55) with 36028797018963968.
    set (u := 2 ^ (ef - 55 + o)) in *. nia. }
  { cbn [SFsub]. apply (SFltb_scaled o); [lia|assumption|assumption|].
    rewrite !Hsc. nia. }
  destruct (bounded_representable _ _ Hbg) as [Hmg Heg].
  assert (Hgpos : 0 < scaled o (Zpos mg) eg).
  { unfold scaled. assert (0 < 2 ^ (eg + o)) by (apply pow2_pos; lia). nia. }
  (* net *)
  destruct (SFsub_between o Ho m2 e2 mg eg (Zpos m - q64 - 2 * q128 - 3) e (Zpos m - 1) e
              Hb2 Hbg ltac:(apply Hrep; lia) ltac:(apply Hrep; lia))
    as (mn & en & -> & Hbn & Hn).
  { rewrite !Hsc. nia. }
  rewrite !Hsc in Hn.
  apply (SFltb_scaled o); [lia|assumption|assumption|]. rewrite !Hsc. nia.
Qed.
End Chain.

Lemma tiny_quotes :
  forallb (fun k => netBelowGross (S754_finite false (Pos.of_nat k) (-1074)))
    (seq 1 99) = true.
Proof. vm_compute. reflexivity. Qed.

Lemma netBelowGross_all (gross : spec_float) :
  nonNegative gross -> netBelowGross gross = true.
Proof.
  intros [->|[->|(m & e & -> & Hb)]]; [reflexivity|reflexivity|].
  destruct (Z_le_gt_dec 100 (Zpos m)) as [Hbig|Hsmall].
  - unfold netBelowGross. rewrite (net_below_gross m e Hb Hbig).
    destruct (bounded_representable _ _ Hb) as [_ He].
    unfold leastTaxed, SFleb, SFltb, SFcompare.
    destruct (Z.compare_spec (-1074) e) as [Heq|Hlt|Hgt]; [|reflexivity|lia].
    subst e. rewrite Pos.compare_cont_spec.
    assert (Hm : (50 < m)%positive) by lia.
    apply Pos.compare_lt_iff in Hm. rewrite Hm. reflexivity.
  - assert (e = -1074) as ->.
    { destruct (bounded_representable _ _ Hb) as [_ He].
      destruct (Z.eq_dec e (-1074)) as [|Hne]; [assumption|exfalso].
      pose proof (bounded_normal m e Hb ltac:(lia)).
      change (2 ^ 52) with 4503599627370496 in *. lia. }
    pose proof tiny_quotes as Hall. rewrite forallb_forall in Hall.
    specialize (Hall (Pos.to_nat m)). rewrite Pos2Nat.id in Hall. apply Hall.
    apply in_seq. lia.
Qed.

(** The product of two positive doubles is not negative. *)
Lemma SFmul_nonNegative (x y : spec_float) :
  (x = S754_infinity false \/
   exists m e, x = S754_finite false m e /\ bounded prec emax m e = true) ->
  (y = S754_infinity false \/
   exists m e, y = S754_finite false m e /\ bounded prec emax m e = true) ->
  valid_binary (SFmul prec emax x y) = true ->
  nonNegative (SFmul prec emax x y).
Proof.
  intros [->|(mx & ex & -> & Hbx)] [->|(my & ey & -> & Hby)] Hv;
    try (right; left; reflexivity).
  cbn [SFmul xorb] in *.
  assert (Hshift : ex + ey <= fexp (Zpos (digits2_pos (mx * my)) + (ex + ey))).
  { rewrite fexp_eq.
    destruct (bounded_representable _ _ Hbx) as [Hmx Hex].
    destruct (bounded_representable _ _ Hby) as [Hmy Hey].
    destruct (Z_le_gt_dec (ex + ey) (-1074)) as [|Hgt]; [lia|].
    assert (2 ^ 52 <= Zpos (mx * my)).
    { rewrite Pos2Z.inj_mul.
      destruct (Z.eq_dec ex (-1074)) as [->|Hne].
      - pose proof (bounded_normal my ey Hby ltac:(lia)). nia.
      - pose proof (bounded_normal mx ex Hbx ltac:(lia)). nia. }
    assert (53 <= Zpos (digits2_pos (mx * my))) by (apply (digits_ge _ 52); lia).
    lia. }
  destruct (round_aux_spec false (mx * my) (ex + ey) Hshift)
    as (_ & _ & m1 & _ & _ & Hr).
  revert Hv. rewrite Hr. unfold packed, nonNegative.
  repeat match goal with |- context [if ?b then _ else _] => destruct b end;
    cbn [SpecFloat.valid_binary]; intros Hv; eauto 6.
Qed.

End FloatRounding.

(* ===================================================================== *)
(** * The quote arithmetic *)
(* ===================================================================== *)

Module FeeFacts.
Import Js Fee FloatSpec.

Lemma calculateQuote_returns env amountUsd asset network :
  ∃ rate,
    Rate.getUsdInrRate env = Returns rate ∧
    calculateQuote env amountUsd asset network
      = Returns (quoteAt rate amountUsd network).
Proof.
  destruct (RateFacts.getUsdInrRate_total env) as [r Hr].
  exists r. split; [done|]. unfold calculateQuote. by rewrite Hr.
Qed.

(** The scenario of the specification in doubles: every value is the
    double nearest to the decimal the specification lists. *)
Lemma scenario_100_at_83_65 asset network :
  ∃ q, calculateQuote (Rate.answering 83.65) 100 asset network = Returns q ∧
       grossInr q = 8365%float ∧ tds q = 83.65%float ∧
       platformFee q = 58.555%float ∧ gst q = 10.5399%float ∧
       netInr q = 8212.2551%float ∧
       PrimFloat.ltb (netInr q) (grossInr q) = true.
Proof.
  eexists. split.
  - unfold calculateQuote. rewrite RateFacts.getUsdInrRate_answering; done.
  - cbn. repeat split; vm_compute; reflexivity.
Qed.

(** A number above zero is a positive double or [Infinity]. *)
Lemma positive_shape (x : number) :
  PrimFloat.ltb 0 x = true →
  Prim2SF x = S754_infinity false ∨
  ∃ m e, Prim2SF x = S754_finite false m e ∧ bounded prec emax m e = true.
Proof.
  rewrite ltb_spec. pose proof (Prim2SF_valid x) as Hv.
  replace (Prim2SF 0) with (S754_zero false) by (vm_compute; reflexivity).
  destruct (Prim2SF x) as [s|s| |s m e]; cbn in *.
  - discriminate.
  - destruct s; [discriminate|]. by left.
  - discriminate.
  - destruct s; [discriminate|]. right. eauto.
Qed.

Lemma gross_nonNegative (amountUsd fxRate : number) :
  PrimFloat.ltb 0 amountUsd = true → PrimFloat.ltb 0 fxRate = true →
  nonNegative (Prim2SF (amountUsd * fxRate)).
Proof.
  intros Ha Hr. rewrite mul_spec. unfold SF64mul.
  apply FloatRounding.SFmul_nonNegative; [by apply positive_shape..|].
  fold (SF64mul (Prim2SF amountUsd) (Prim2SF fxRate)). rewrite <- mul_spec.
  apply Prim2SF_valid.
Qed.

(** The net amount of a quote, read on the specification of the
    doubles. *)
Lemma netInr_spec (fxRate amountUsd : number) (network : string) :
  Prim2SF (netInr (quoteAt fxRate amountUsd network))
  = netOf (Prim2SF (grossInr (quoteAt fxRate amountUsd network))).
Proof.
  cbn [netInr grossInr quoteAt]. rewrite !sub_spec, !mul_spec.
  replace (Prim2SF 0.01) with onePercent by (vm_compute; reflexivity).
  replace (Prim2SF 0.007) with sevenPerMille by (vm_compute; reflexivity).
  replace (Prim2SF 0.18) with eighteenPercent by (vm_compute; reflexivity).
  reflexivity.
Qed.

Lemma net_below_gross_iff (fxRate amountUsd : number) (network : string) :
  PrimFloat.ltb 0 amountUsd = true → PrimFloat.ltb 0 fxRate = true →
  let q := quoteAt fxRate amountUsd network in
  PrimFloat.ltb (netInr q) (grossInr q)
  = PrimFloat.leb 0x1.9p-1069 (grossInr q)
    && PrimFloat.ltb (grossInr q) PrimFloat.infinity.
Proof.
  intros Ha Hr q. subst q.
  rewrite !ltb_spec, leb_spec, netInr_spec.
  replace (Prim2SF 0x1.9p-1069) with leastTaxed by (vm_compute; reflexivity).
  replace (Prim2SF PrimFloat.infinity) with (S754_infinity false)
    by (vm_compute; reflexivity).
  apply Bool.eqb_prop. apply FloatRounding.netBelowGross_all.
  cbn [grossInr quoteAt]. by apply gross_nonNegative.
Qed.

(** C1, as stated, fails in doubles at both ends of the range. A finite
    positive amount whose gross value overflows: the gross value and
    every deduction are [Infinity], their difference is [NaN], and
    [NaN < Infinity] is false. A positive amount whose gross value is
    the least positive double: every deduction rounds to zero, and the
    net value is the gross value. *)
Lemma quote_net_not_below_gross :
  (let q := quoteAt 83.65 1e308 "polygon" in
   calculateQuote (Rate.answering 83.65) 1e308 "USDT" "polygon" = Returns q ∧
   PrimFloat.ltb 0 1e308 = true ∧
   PrimFloat.ltb 0 83.65 = true ∧
   grossInr q = PrimFloat.infinity ∧
   PrimFloat.is_nan (netInr q) = true ∧
   PrimFloat.ltb (netInr q) (grossInr q) = false) ∧
  (let q := quoteAt 1 0x1p-1074 "polygon" in
   calculateQuote (Rate.answering 1) 0x1p-1074 "USDT" "polygon" = Returns q ∧
   PrimFloat.ltb 0 0x1p-1074 = true ∧
   PrimFloat.ltb 0 1 = true ∧
   grossInr q = 0x1p-1074%float ∧
   tds q = 0%float ∧ platformFee q = 0%float ∧ gst q = 0%float ∧
   netInr q = grossInr q ∧
   PrimFloat.ltb (netInr q) (grossInr q) = false).
Proof.
  cbv zeta. split; (split;
    [unfold calculateQuote; rewrite RateFacts.getUsdInrRate_answering; done
    |repeat split; vm_compute; reflexivity]).
Qed.

(** C1 (amended). For every amountUsd > 0 and fxRate > 0 the quote
    computation returns, in doubles and with every operation rounded to
    nearest, grossINR = amountUsd * fxRate, tds = grossINR * 0.01,
    platformFee = grossINR * 0.007, gst = platformFee * 0.18 and
    netINR = ((grossINR - tds) - platformFee) - gst; and
    netINR < grossINR holds exactly when grossINR is finite and at least
    50 * 2^-1074 (0x1.9p-1069, about 2.47e-322), that is unless the
    product overflowed to [Infinity] or underflowed below that. For
    amountUsd = 100 and fxRate = 83.65 the values are exactly the
    doubles 8365, 83.65, 58.555, 10.5399 and 8212.2551, with
    netINR < grossINR. *)
Theorem quote_breakdown (amountUsd fxRate : number) (network : string) :
  PrimFloat.ltb 0 amountUsd = true →
  PrimFloat.ltb 0 fxRate = true →
  let q := quoteAt fxRate amountUsd network in
  (∀ env asset,
      Rate.getUsdInrRate env = Returns fxRate →
      calculateQuote env amountUsd asset network = Returns q) ∧
  grossInr q = (amountUsd * fxRate)%float ∧
  tds q = (grossInr q * 0.01)%float ∧
  platformFee q = (grossInr q * 0.007)%float ∧
  gst q = (platformFee q * 0.18)%float ∧
  netInr q = (grossInr q - tds q - platformFee q - gst q)%float ∧
  PrimFloat.ltb (netInr q) (grossInr q)
    = PrimFloat.leb 0x1.9p-1069 (grossInr q)
      && PrimFloat.ltb (grossInr q) PrimFloat.infinity ∧
  (∀ asset network',
      ∃ q', calculateQuote (Rate.answering 83.65) 100 asset network' = Returns q' ∧
            grossInr q' = 8365%float ∧ tds q' = 83.65%float ∧
            platformFee q' = 58.555%float ∧ gst q' = 10.5399%float ∧
            netInr q' = 8212.2551%float ∧
            PrimFloat.ltb (netInr q') (grossInr q') = true).
Proof.
  intros Ha Hr q. split.
  { intros env asset Hrate. unfold calculateQuote. by rewrite Hrate. }
  do 5 (split; [reflexivity|]).
  split; [by apply net_below_gross_iff|]. apply scenario_100_at_83_65.
Qed.

Lemma quote_breakdown_witness :
  PrimFloat.ltb 0 250 = true ∧ PrimFloat.ltb 0 83.40 = true ∧
  PrimFloat.ltb (netInr (quoteAt 83.40 250 "polygon"))
                (grossInr (quoteAt 83.40 250 "polygon")) = true.
Proof.
  assert (Ha : PrimFloat.ltb 0 250 = true) by reflexivity.
  assert (Hr : PrimFloat.ltb 0 83.40 = true) by reflexivity.
  split; [exact Ha|]. split; [exact Hr|].
  destruct (quote_breakdown 250 83.40 "polygon" Ha Hr) as (_ & _ & _ & _ & _ & _ & H & _).
  rewrite H. vm_compute. reflexivity.
Defined.

End FeeFacts.

(* ===================================================================== *)
(** * Quote creation under a failing rate provider *)
(* ===================================================================== *)

Module QuoteFacts.
Import Js Routes.

Section WithParser.
Variable parseFloat : string → number.

Lemma quotes_success c env query st sessionId asset network amountUsd session rate :
  present (qq_sessionId query) = Some sessionId →
  present (qq_asset query) = Some asset →
  present (qq_network query) = Some network →
  present (qq_amountUsd query) = Some amountUsd →
  Storage.getSessionById sessionId st = Some session →
  Session.status session = "active" →
  Rate.getUsdInrRate env = Returns rate →
  ∃ quote,
    response (quotes parseFloat c env query st) = Success quote ∧
    Storage.getQuoteByReference (Quote.quoteReference quote)
      (storage (quotes parseFloat c env query st)) = Some quote ∧
    Quote.status quote = "active" ∧
    Quote.expiresAt quote = Some (Storage.now c + 900000)%Z ∧
    Quote.fxRate quote = rate ∧
    Quote.amount quote = parseFloat amountUsd ∧
    Quote.grossINR quote = (parseFloat amountUsd * rate)%float ∧
    Quote.tdsAmount quote = (Quote.grossINR quote * 0.01)%float ∧
    Quote.commission quote = (Quote.grossINR quote * 0.007)%float ∧
    Quote.gstAmount quote = (Quote.commission quote * 0.18)%float ∧
    Quote.estimatedINR quote =
      (Quote.grossINR quote - Quote.tdsAmount quote
       - Quote.commission quote - Quote.gstAmount quote)%float.
Proof.
  intros Hs Ha Hn Hu Hsess Hact Hrate.
  unfold quotes. rewrite Hs, Ha, Hn, Hu, Hsess, Hact. cbn [String.eqb negb].
  replace (String.eqb "active" "active") with true by reflexivity. cbn [negb].
  unfold Fee.calculateQuote. rewrite Hrate. cbn [mbind outcome_bind Js.bind].
  eexists. split; [reflexivity|]. cbn.
  split; [apply lookup_insert_eq|]. repeat split.
Qed.
End WithParser.

(** C7. [getUsdInrRate] never raises: it returns a rate in every
    environment. When the external FX call fails (no API key, network
    error or timeout, a body that is not JSON, a payload that does not
    say success or carries no rate) it returns the fallback 83.40, and
    a quote request that is otherwise valid (all four parameters
    present, the session active) still succeeds, with a quote computed
    from 83.40. *)
Theorem rate_fallback_keeps_quotes_working
    (parseFloat : string → number) c env query st
    sessionId asset network amountUsd session :
  FxFailure env →
  present (qq_sessionId query) = Some sessionId →
  present (qq_asset query) = Some asset →
  present (qq_network query) = Some network →
  present (qq_amountUsd query) = Some amountUsd →
  Storage.getSessionById sessionId st = Some session →
  Session.status session = "active" →
  (∀ env', ∃ r, Rate.getUsdInrRate env' = Returns r) ∧
  Rate.getUsdInrRate env = Returns 83.40%float ∧
  ∃ quote,
    response (quotes parseFloat c env query st) = Success quote ∧
    Storage.getQuoteByReference (Quote.quoteReference quote)
      (storage (quotes parseFloat c env query st)) = Some quote ∧
    Quote.fxRate quote = 83.40%float ∧
    Quote.grossINR quote = (parseFloat amountUsd * 83.40)%float ∧
    Quote.tdsAmount quote = (Quote.grossINR quote * 0.01)%float ∧
    Quote.commission quote = (Quote.grossINR quote * 0.007)%float ∧
    Quote.gstAmount quote = (Quote.commission quote * 0.18)%float ∧
    Quote.estimatedINR quote =
      (Quote.grossINR quote - Quote.tdsAmount quote
       - Quote.commission quote - Quote.gstAmount quote)%float.
Proof.
  intros Hf Hs Ha Hn Hu Hsess Hact.
  pose proof (RateFacts.getUsdInrRate_fallback env Hf) as Hrate.
  split; [apply RateFacts.getUsdInrRate_total|]. split; [exact Hrate|].
  destruct (quotes_success parseFloat c env query st _ _ _ _ _ _
              Hs Ha Hn Hu Hsess Hact Hrate)
    as (quote & Hresp & Hstored & _ & _ & Hfx & _ & Hg & Ht & Hc & Hgst & Hnet).
  exists quote. repeat split; assumption.
Qed.

Lemma rate_fallback_keeps_quotes_working_witness :
  FxFailure Scenario.fx_timeout ∧
  Rate.getUsdInrRate Scenario.fx_timeout = Returns 83.40%float ∧
  ∃ quote,
    response (quotes Digits.parse Scenario.clock_1 Scenario.fx_timeout
                Scenario.query_1 Scenario.st_0) = Success quote ∧
    Quote.fxRate quote = 83.40%float ∧
    Quote.grossINR quote = 8340%float ∧
    Quote.estimatedINR quote = 8187.711600000001%float.
Proof.
  assert (Hf : FxFailure Scenario.fx_timeout)
    by (eapply NetworkErrorOrTimeout; reflexivity).
  split; [exact Hf|].
  destruct (rate_fallback_keeps_quotes_working Digits.parse Scenario.clock_1
              Scenario.fx_timeout Scenario.query_1 Scenario.st_0
              "sess_1" "USDT" "polygon" "100" Scenario.sess_1 Hf
              eq_refl eq_refl eq_refl eq_refl eq_refl eq_refl)
    as (_ & Hrate & quote & Hresp & _ & Hfx & Hg & Ht & Hc & Hgst & Hnet).
  split; [exact Hrate|].
  exists quote. split; [exact Hresp|]. split; [exact Hfx|].
  assert (Hg' : Quote.grossINR quote = 8340%float)
    by (rewrite Hg; vm_compute; reflexivity).
  split; [exact Hg'|].
  rewrite Hnet, Hgst, Hc, Ht, Hg'. vm_compute. reflexivity.
Defined.

End QuoteFacts.

(* ===================================================================== *)
(** * Name matching *)
(* ===================================================================== *)

Module NameMatchFacts.
Import Js NameMatch.

(** C9. The similarity is a function of the two names: after cleaning
    (lower case, trimmed, runs of white space collapsed) it is
    [(maxLength - distance) / maxLength] with the Levenshtein
    distance, and 1.0 for two empty names. It is exactly 1.0 for
    "John Doe" and "john   doe", which clean to the same string, and
    0.2, below 0.5, for "John Doe" and "Jane Smith", whose cleaned
    forms are at distance 8 with longer length 10. *)
Theorem name_similarity :
  (∀ name1 name2,
      similarity (nameMatch name1 name2)
        = calculateNameSimilarity (cleanName name1) (cleanName name2)) ∧
  (∀ name1 name2,
      calculateNameSimilarity name1 name2 =
        let maxLength := Nat.max (String.length name1) (String.length name2) in
        if (maxLength =? 0)%nat then 1.0%float
        else ((ofNat maxLength - ofNat (levenshteinDistance name1 name2))
              / ofNat maxLength)%float) ∧
  cleanName "John Doe" = "john doe" ∧
  cleanName "john   doe" = "john doe" ∧
  similarity (nameMatch "John Doe" "john   doe") = 1.0%float ∧
  cleanName "Jane Smith" = "jane smith" ∧
  levenshteinDistance "john doe" "jane smith" = 8%nat ∧
  similarity (nameMatch "John Doe" "Jane Smith") = 0.2%float ∧
  PrimFloat.ltb (similarity (nameMatch "John Doe" "Jane Smith")) 0.5 = true.
Proof.
  split; [reflexivity|]. split; [reflexivity|].
  repeat split; vm_compute; reflexivity.
Qed.

Example levenshtein_kitten_sitting : levenshteinDistance "kitten" "sitting" = 3%nat.
Proof. reflexivity. Qed.

Example levenshtein_matrix_ab_abc :
  levenshteinMatrix "ab" "abc" = [[0; 1; 2]; [1; 0; 1]; [2; 1; 0]; [3; 2; 1]]%nat.
Proof. reflexivity. Qed.

End NameMatchFacts.

(* ===================================================================== *)
(** * The in-memory storage *)
(* ===================================================================== *)

Module MemStorageFacts.
Import MemStorage.

(** C10. An update under an identifier that is not in the store
    returns [undefined] and leaves the whole store as it was; this
    holds for [updateKycSession], [updateKycVerificationStatus],
    [updateTransaction] and [updateWebhookEvent]. *)
Theorem update_unknown_id (st : t) (id : string) :
  (kycSessions st !! id = None →
     (∀ updates, updateKycSession id updates st = (None, st)) ∧
     (∀ verificationType verified name,
         updateKycVerificationStatus id verificationType verified name st = (None, st))) ∧
  (transactions st !! id = None →
     ∀ updates, updateTransaction id updates st = (None, st)) ∧
  (webhookEvents st !! id = None →
     ∀ updates, updateWebhookEvent id updates st = (None, st)).
Proof.
  repeat split; intros;
    unfold updateKycSession, updateKycVerificationStatus, updateTransaction,
           updateWebhookEvent;
    by match goal with H : _ !! _ = None |- _ => rewrite H end.
Qed.

Example st_2_ids :
  is_Some (kycSessions MemScenario.st_2 !! "kyc_001") ∧ is_Some (transactions MemScenario.st_2 !! "tx_002").
Proof. split; vm_compute; eauto. Qed.

Lemma update_unknown_id_witness :
  kycSessions MemScenario.st_2 !! "kyc_999" = None ∧
  transactions MemScenario.st_2 !! "kyc_999" = None ∧
  webhookEvents MemScenario.st_2 !! "kyc_999" = None ∧
  updateKycSession "kyc_999" KycSession.no_updates MemScenario.st_2 = (None, MemScenario.st_2) ∧
  updateKycVerificationStatus "kyc_999" "pan" true (Some "John Doe") MemScenario.st_2 = (None, MemScenario.st_2) ∧
  updateTransaction "kyc_999" Transaction.no_updates MemScenario.st_2 = (None, MemScenario.st_2) ∧
  updateWebhookEvent "kyc_999" MemScenario.bump MemScenario.st_2 = (None, MemScenario.st_2).
Proof.
  assert (Hk : kycSessions MemScenario.st_2 !! "kyc_999" = None) by (vm_compute; reflexivity).
  assert (Ht : transactions MemScenario.st_2 !! "kyc_999" = None) by (vm_compute; reflexivity).
  assert (Hw : webhookEvents MemScenario.st_2 !! "kyc_999" = None) by (vm_compute; reflexivity).
  destruct (update_unknown_id MemScenario.st_2 "kyc_999") as (Fk & Ft & Fw).
  destruct (Fk Hk) as [Fk1 Fk2].
  split; [exact Hk|]. split; [exact Ht|]. split; [exact Hw|].
  split; [apply Fk1|]. split; [apply Fk2|]. split; [apply (Ft Ht) | apply (Fw Hw)].
Defined.

(** The update of one method, seen from another. *)
Lemma verificationUpdates_frame (A B : Method.t) verified name session :
  A ≠ B →
  let updated :=
    KycSession.spread session (verificationUpdates (Method.tag B) verified name) in
  Method.verified A updated = Method.verified A session ∧
  Method.recordedName A updated = Method.recordedName A session.
Proof. intros Hne. destruct A, B; try done; by cbn. Qed.

Lemma verificationUpdates_own (B : Method.t) verified name session :
  let updated :=
    KycSession.spread session (verificationUpdates (Method.tag B) verified name) in
  Method.verified B updated = verified ∧
  Method.recordedName B updated =
    (if Js.truthy name then
       match B with Method.Face => None | _ => name end
     else Method.recordedName B session) ∧
  KycSession.status updated = KycSession.status session.
Proof.
  destruct B; cbn; unfold nameUpdate; by destruct (Js.truthy name).
Qed.

(** C6. An update that records the result of method [B] leaves the
    flag and the recorded name of every other method [A] of the
    session as they were (so a flag that was true stays true), leaves
    every other session untouched, and writes only [B]'s own flag and,
    for a non-empty name, [B]'s own name. *)
Theorem verification_update_frame (st st' : t) (sessionId : string)
    (A B : Method.t) (verified : bool) (name : option string)
    (updated : KycSession.t) :
  A ≠ B →
  updateKycVerificationStatus sessionId (Method.tag B) verified name st
    = (Some updated, st') →
  ∃ session,
    kycSessions st !! sessionId = Some session ∧
    kycSessions st' !! sessionId = Some updated ∧
    Method.verified A updated = Method.verified A session ∧
    Method.recordedName A updated = Method.recordedName A session ∧
    (Method.verified A session = true → Method.verified A updated = true) ∧
    Method.verified B updated = verified ∧
    (∀ other, other ≠ sessionId → kycSessions st' !! other = kycSessions st !! other).
Proof.
  intros Hne. unfold updateKycVerificationStatus.
  destruct (kycSessions st !! sessionId) as [session|] eqn:Hs; [|done].
  intros [= <- <-]. exists session.
  destruct (verificationUpdates_frame A B verified name session Hne) as [Hv Hn].
  destruct (verificationUpdates_own B verified name session) as (Ho & _ & _).
  cbv zeta in *.
  split; [done|]. split; [apply lookup_insert_eq|].
  split; [exact Hv|]. split; [exact Hn|]. split; [by rewrite Hv|].
  split; [exact Ho|].
  intros other Hother. cbn. by rewrite lookup_insert_ne.
Qed.

Lemma verification_update_frame_witness :
  ∃ updated st',
    updateKycVerificationStatus "kyc_001" "pan" false (Some "J Doe") MemScenario.st_3
      = (Some updated, st') ∧
    KycSession.aadhaarVerified updated = true ∧
    KycSession.aadhaarName updated = Some "John Doe" ∧
    KycSession.panVerified updated = false.
Proof.
  destruct (updateKycVerificationStatus "kyc_001" "pan" false (Some "J Doe") MemScenario.st_3)
    as [[updated|] st'] eqn:E; [|vm_compute in E; discriminate].
  exists updated, st'. split; [reflexivity|].
  destruct (verification_update_frame MemScenario.st_3 st' "kyc_001" Method.Aadhaar Method.Pan
              false (Some "J Doe") updated ltac:(discriminate) E)
    as (session & Hs & _ & Hv & Hn & _ & Ho & _).
  assert (session = default session (kycSessions MemScenario.st_3 !! "kyc_001")) as Hdef
    by (by rewrite Hs).
  cbn [Method.verified Method.recordedName] in Hv, Hn, Ho.
  rewrite Hv, Hn. split; [|split]; [| |exact Ho].
  - rewrite Hdef. vm_compute. reflexivity.
  - rewrite Hdef. vm_compute. reflexivity.
Defined.

End MemStorageFacts.

(* ===================================================================== *)
(** * The storage behind the enhanced routes: look-ups after updates *)
(* ===================================================================== *)

Module StorageFacts.
Import Js Routes.

Lemma negb_eqb_true s t : negb (String.eqb s t) = true ↔ s ≠ t.
Proof. rewrite negb_true_iff. apply String.eqb_neq. Qed.

Lemma negb_eqb_false s t : negb (String.eqb s t) = false ↔ s = t.
Proof. rewrite negb_false_iff. apply String.eqb_eq. Qed.

Lemma updateKycSession_lookup c sessionId updates st other :
  Storage.kycSessions (Storage.updateKycSession c sessionId updates st).2 !! other
  = if decide (sessionId = other)
    then (fun s => KycSession.spread s (Storage.stampKyc c updates))
           <$> Storage.kycSessions st !! sessionId
    else Storage.kycSessions st !! other.
Proof.
  unfold Storage.updateKycSession.
  destruct (Storage.kycSessions st !! sessionId) as [session|] eqn:Hs; cbn.
  - rewrite lookup_insert. by case_decide.
  - case_decide; by subst.
Qed.

Lemma verificationUpdates_status verificationType verified name :
  KycSession.status_ (MemStorage.verificationUpdates verificationType verified name) = None.
Proof.
  unfold MemStorage.verificationUpdates.
  repeat match goal with |- context [if ?b then _ else _] => destruct b end; reflexivity.
Qed.

End StorageFacts.

(* ===================================================================== *)
(** * Webhook signatures *)
(* ===================================================================== *)

Module WebhookFacts.
Import Webhook.

(** The implementation of SHA-256 and HMAC agrees with the published
    test vectors (FIPS 180-4 "abc", RFC 4231 test case 2). *)
Example sha256_abc :
  Sha256.sha256_hex "abc"
  = "ba7816bf8f01cfea414140de5dae2223b00361a396177a9cb410ff61f20015ad".
Proof. vm_compute. reflexivity. Qed.

Example hmac_rfc4231_case2 :
  Sha256.hmac_sha256_hex "Jefe" "what do ya want for nothing?"
  = "5bdcc146bf60754e6a042426089575c75a003f089d2739839dec58b964ec3843".
Proof. vm_compute. reflexivity. Qed.

Example round_constants :
  head Sha256.K = Some 0x428a2f98%Z ∧ last Sha256.K = Some 0xc67178f2%Z ∧
  length Sha256.K = 64%nat ∧ Sha256.ha Sha256.H0 = 0x6a09e667%Z.
Proof. repeat split. Qed.

(** *** The digest has 64 characters *)

Lemma length_string_of_list (l : list ascii) :
  String.length (string_of_list_ascii l) = length l.
Proof. induction l as [|c l IH]; cbn; by rewrite ?IH. Qed.

Lemma length_hex_words (ws : list Z) :
  length (flat_map Sha256.hexWord ws) = (8 * length ws)%nat.
Proof.
  induction ws as [|w ws IH]; [done|].
  cbn [flat_map]. rewrite length_app, IH. cbn [Sha256.hexWord length map]. lia.
Qed.

Lemma length_sha256_words msg : length (Sha256.sha256_words msg) = 8%nat.
Proof. reflexivity. Qed.

Lemma length_hmac_hex key msg : String.length (Sha256.hmac_sha256_hex key msg) = 64%nat.
Proof.
  unfold Sha256.hmac_sha256_hex, Sha256.hmac_words.
  by rewrite length_string_of_list, length_hex_words, length_sha256_words.
Qed.

(** *** Verification *)

Lemma replaceFirst_prefix (h : string) : replaceFirst "sha256=" EmptyString ("sha256=" +:+ h) = h.
Proof. by destruct h. Qed.

Lemma verify_header_iff payload payload' secret :
  verifyWebhookSignature payload' (signatureHeader payload secret) secret = true
  ↔ Sha256.hmac_sha256_hex secret payload' = Sha256.hmac_sha256_hex secret payload.
Proof.
  unfold verifyWebhookSignature, signatureHeader.
  rewrite replaceFirst_prefix. apply String.eqb_eq.
Qed.

Lemma verify_round_trip payload secret :
  verifyWebhookSignature payload (signatureHeader payload secret) secret = true.
Proof. by apply verify_header_iff. Qed.

(** The bare digest, without the prefix, verifies as well: a digest
    consists of hexadecimal digits, so the prefix does not occur in it
    and [replace] leaves it as it is. *)
Lemma hexDigit_not_s (x : Z) : Sha256.hexDigit (Z.land x 0xF) ≠ "s"%char.
Proof.
  change 0xF%Z with (Z.ones 4). rewrite Z.land_ones by lia.
  pose proof (Z.mod_pos_bound x (2 ^ 4) ltac:(lia)) as Hb.
  set (n := (x mod 2 ^ 4)%Z) in *.
  assert (n = 0 ∨ n = 1 ∨ n = 2 ∨ n = 3 ∨ n = 4 ∨ n = 5 ∨ n = 6 ∨ n = 7 ∨
          n = 8 ∨ n = 9 ∨ n = 10 ∨ n = 11 ∨ n = 12 ∨ n = 13 ∨ n = 14 ∨ n = 15)%Z
    as Hn by lia.
  clearbody n. unfold Sha256.hexDigit.
  repeat (destruct Hn as [->|Hn]; [vm_compute; discriminate|]).
  subst n. vm_compute. discriminate.
Qed.

Lemma hexWords_no_s (ws : list Z) :
  Forall (fun c => c ≠ "s"%char) (flat_map Sha256.hexWord ws).
Proof.
  induction ws as [|w ws IH]; [constructor|].
  cbn [flat_map]. apply Forall_app. split; [|exact IH].
  unfold Sha256.hexWord. apply Forall_map, Forall_forall.
  intros i _. apply hexDigit_not_s.
Qed.

Lemma replaceFirst_absent (l : list ascii) :
  Forall (fun c => c ≠ "s"%char) l →
  replaceFirst "sha256=" EmptyString (string_of_list_ascii l) = string_of_list_ascii l.
Proof.
  induction 1 as [|c l Hc _ IH]; [reflexivity|].
  cbn [string_of_list_ascii]. unfold replaceFirst; fold replaceFirst.
  cbn [stripPrefix]. destruct (Ascii.eqb_spec "s" c) as [<-|_]; [done|].
  by rewrite IH.
Qed.

Lemma verify_bare_digest payload secret :
  verifyWebhookSignature payload (Sha256.hmac_sha256_hex secret payload) secret = true.
Proof.
  unfold verifyWebhookSignature, Sha256.hmac_sha256_hex.
  rewrite replaceFirst_absent by apply hexWords_no_s. apply String.eqb_refl.
Qed.

(** X29. Round trip of the webhook signature. The signature
    [deliverWebhook] sends with a request verifies against the body of
    that request under the same secret, for every payload and secret,
    and so does the bare digest without the prefix. On a deposit
    notification, the signature is rejected against a changed amount
    and under another secret. *)
Theorem signature_round_trip :
  (∀ JSON_stringify now webhookUrl payload secret,
      let request := webhookRequest JSON_stringify now webhookUrl payload secret in
      body request = JSON_stringify payload ∧
      X_SPY_Signature request = signatureHeader (body request) secret ∧
      verifyWebhookSignature (body request) (X_SPY_Signature request) secret = true) ∧
  (∀ payload secret,
      verifyWebhookSignature payload (signatureHeader payload secret) secret = true ∧
      verifyWebhookSignature payload (Sha256.hmac_sha256_hex secret payload) secret = true) ∧
  (let payload := "{'event':'deposit.detected','amount':100}" in
   let payload' := "{'event':'deposit.detected','amount':999}" in
   signatureHeader payload "fallback-secret"
   = "sha256=" +:+ Sha256.hmac_sha256_hex "fallback-secret" payload ∧
   verifyWebhookSignature payload (signatureHeader payload "fallback-secret")
     "fallback-secret" = true ∧
   verifyWebhookSignature payload' (signatureHeader payload "fallback-secret")
     "fallback-secret" = false ∧
   verifyWebhookSignature payload (signatureHeader payload "fallback-secret")
     "other-secret" = false).
Proof.
  split.
  { intros JSON_stringify now webhookUrl payload secret. cbv zeta.
    unfold webhookRequest. cbn [body X_SPY_Signature].
    split; [reflexivity|]. split; [reflexivity|]. apply verify_round_trip. }
  split; [intros; split; [apply verify_round_trip|apply verify_bare_digest]|].
  cbv zeta. repeat split; vm_compute; reflexivity.
Qed.

End WebhookFacts.

(* ===================================================================== *)
(** * Facts: the Levenshtein matrix *)
(* ===================================================================== *)

Module LevenshteinFacts.
Import Js NameMatch NameNormalize.

Lemma length_list_ascii (s : string) :
  length (list_ascii_of_string s) = String.length s.
Proof. induction s; simpl; congruence. Qed.

Lemma fillRows_zero str1 str2 i prev c :
  str2 !! 0%nat = Some c →
  fillRows str1 str2 i prev !! 0%nat = Some (i :: fillRow c str1 prev i).
Proof. destruct str2; simpl; intros H; [discriminate|]. congruence. Qed.

Lemma fillRows_succ str1 str2 i prev k row c :
  fillRows str1 str2 i prev !! k = Some row →
  str2 !! S k = Some c →
  fillRows str1 str2 i prev !! S k
    = Some ((i + S k)%nat :: fillRow c str1 row (i + S k)).
Proof.
  revert i prev k.
  induction str2 as [|a str2 IH]; intros i prev k Hrow Hc; [discriminate|].
  destruct k as [|k]; simpl in *.
  - destruct str2 as [|b str2]; [discriminate|]. simpl in *.
    replace (i + 1)%nat with (S i) by lia. congruence.
  - rewrite (IH _ _ _ Hrow Hc). do 2 f_equal; [lia|f_equal; lia].
Qed.

Lemma fillRow_next c2 str1 prev left j c1 d u l :
  str1 !! j = Some c1 →
  prev !! j = Some d →
  prev !! S j = Some u →
  (left :: fillRow c2 str1 prev left) !! j = Some l →
  (left :: fillRow c2 str1 prev left) !! S j
    = Some (if Ascii.eqb c2 c1 then d
            else Nat.min (d + 1) (Nat.min (l + 1) (u + 1))).
Proof.
  revert prev left j.
  induction str1 as [|a str1 IH]; intros prev left j H1 Hd Hu Hl;
    [discriminate|].
  destruct prev as [|d0 [|u0 prev]].
  { destruct j; discriminate. }
  { destruct j as [|[|j]]; discriminate. }
  destruct j as [|j]; simpl in *.
  - injection H1 as ->. injection Hd as ->. injection Hu as ->.
    injection Hl as ->. reflexivity.
  - apply (IH (u0 :: prev) _ j); assumption.
Qed.

(** The three assignments of the source, read off the matrix. *)
Lemma matrixAt_row0 str1 str2 j :
  (j ≤ String.length str1)%nat → matrixAt str1 str2 0 j = Some j.
Proof.
  intros Hj. unfold matrixAt, levenshteinMatrix. simpl.
  rewrite length_list_ascii.
  destruct j as [|j]; [reflexivity|]. simpl.
  rewrite lookup_seq_lt by lia. reflexivity.
Qed.

Lemma matrix_row str1 str2 i :
  (i ≤ String.length str2)%nat →
  ∃ row, levenshteinMatrix str1 str2 !! i = Some row ∧
         row !! 0%nat = Some i ∧
         match i with
         | O => True
         | S i' =>
             ∃ prev c2,
               levenshteinMatrix str1 str2 !! i' = Some prev ∧
               list_ascii_of_string str2 !! i' = Some c2 ∧
               row = i :: fillRow c2 (list_ascii_of_string str1) prev i
         end.
Proof.
  unfold levenshteinMatrix.
  induction i as [|i IH]; intros Hi.
  - eexists. split; [reflexivity|]. split; reflexivity.
  - destruct IH as (prev & Hprev & _ & _); [lia|].
    destruct (lookup_lt_is_Some_2 (list_ascii_of_string str2) i) as [c2 Hc2].
    { rewrite length_list_ascii. lia. }
    exists (S i :: fillRow c2 (list_ascii_of_string str1) prev (S i)).
    split; [|split; [reflexivity|exists prev, c2; auto]].
    cbv zeta in *.
    set (row0 := seq 0 (S (length (list_ascii_of_string str1)))) in *.
    destruct i as [|i].
    + injection Hprev as <-.
      exact (fillRows_zero _ _ _ _ _ Hc2).
    + exact (fillRows_succ _ _ 1%nat row0 i prev c2 Hprev Hc2).
Qed.

Lemma matrixAt_col0 str1 str2 i :
  (i ≤ String.length str2)%nat → matrixAt str1 str2 i 0 = Some i.
Proof.
  intros Hi. destruct (matrix_row str1 str2 i Hi) as (row & Hrow & H0 & _).
  unfold matrixAt. rewrite Hrow. exact H0.
Qed.

Lemma matrixAt_step str1 str2 i j c1 c2 d l u :
  list_ascii_of_string str2 !! i = Some c2 →
  list_ascii_of_string str1 !! j = Some c1 →
  matrixAt str1 str2 i j = Some d →
  matrixAt str1 str2 (S i) j = Some l →
  matrixAt str1 str2 i (S j) = Some u →
  matrixAt str1 str2 (S i) (S j)
    = Some (if Ascii.eqb c2 c1 then d
            else Nat.min (d + 1) (Nat.min (l + 1) (u + 1))).
Proof.
  intros Hc2 Hc1 Hd Hl Hu.
  destruct (matrix_row str1 str2 (S i)) as (row & Hrow & _ & prev & c & Hprev & Hc & ->).
  { apply lookup_lt_Some in Hc2. rewrite length_list_ascii in Hc2. lia. }
  assert (c = c2) as -> by congruence.
  unfold matrixAt in *. rewrite Hrow in *. rewrite Hprev in *.
  cbn [mbind option_bind] in *.
  apply fillRow_next; assumption.
Qed.

(** Induction over the cells in the order the loops fill them. *)
Lemma matrix_ind str1 str2 (P : nat → nat → nat → Prop) :
  (∀ j, (j ≤ String.length str1)%nat → P 0%nat j j) →
  (∀ i, (i < String.length str2)%nat → P (S i) 0%nat (S i)) →
  (∀ i j c1 c2 d l u,
      list_ascii_of_string str2 !! i = Some c2 →
      list_ascii_of_string str1 !! j = Some c1 →
      P i j d → P (S i) j l → P i (S j) u →
      P (S i) (S j)
        (if Ascii.eqb c2 c1 then d
         else Nat.min (d + 1) (Nat.min (l + 1) (u + 1)))) →
  ∀ i j, (i ≤ String.length str2)%nat → (j ≤ String.length str1)%nat →
         ∃ v, matrixAt str1 str2 i j = Some v ∧ P i j v.
Proof.
  intros Hrow0 Hcol0 Hstep.
  induction i as [|i IHi]; intros j Hi Hj.
  - exists j. split; [apply matrixAt_row0; exact Hj|apply Hrow0; exact Hj].
  - induction j as [|j IHj].
    + exists (S i). split; [apply matrixAt_col0; exact Hi|apply Hcol0; lia].
    + destruct (IHi j) as (d & Hd & Pd); [lia..|].
      destruct (IHi (S j)) as (u & Hu & Pu); [lia..|].
      destruct IHj as (l & Hl & Pl); [lia|].
      destruct (lookup_lt_is_Some_2 (list_ascii_of_string str2) i) as [c2 Hc2].
      { rewrite length_list_ascii. lia. }
      destruct (lookup_lt_is_Some_2 (list_ascii_of_string str1) j) as [c1 Hc1].
      { rewrite length_list_ascii. lia. }
      eexists. split.
      * eapply matrixAt_step; eassumption.
      * eapply Hstep; eassumption.
Qed.

Lemma distance_matrixAt str1 str2 v :
  matrixAt str1 str2 (String.length str2) (String.length str1) = Some v →
  levenshteinDistance str1 str2 = v.
Proof.
  unfold levenshteinDistance, matrixAt. intros ->. reflexivity.
Qed.

Lemma list_ascii_inj (s1 s2 : string) :
  list_ascii_of_string s1 = list_ascii_of_string s2 → s1 = s2.
Proof.
  intros H. rewrite <- (string_of_list_ascii_of_string s1), H.
  apply string_of_list_ascii_of_string.
Qed.

Lemma ascii_eqb_sym (a b : ascii) : Ascii.eqb a b = Ascii.eqb b a.
Proof.
  destruct (Ascii.eqb_spec a b) as [->|Hne].
  - symmetry. apply Ascii.eqb_refl.
  - symmetry. apply Ascii.eqb_neq. congruence.
Qed.

Lemma matrixAt_transpose str1 str2 i j :
  (i ≤ String.length str2)%nat → (j ≤ String.length str1)%nat →
  matrixAt str1 str2 i j = matrixAt str2 str1 j i.
Proof.
  intros Hi Hj.
  destruct (matrix_ind str1 str2
              (λ i j v, matrixAt str2 str1 j i = Some v)) with (i := i) (j := j)
    as (v & Hv & Hv'); [| | |assumption|assumption|].
  - intros j' Hj'. apply matrixAt_col0. exact Hj'.
  - intros i' Hi'. apply matrixAt_row0. lia.
  - intros i' j' c1 c2 d l u Hc2 Hc1 Hd Hl Hu.
    rewrite (matrixAt_step str2 str1 j' i' c2 c1 d u l Hc1 Hc2 Hd Hu Hl).
    rewrite (ascii_eqb_sym c1 c2).
    rewrite (Nat.min_comm (u + 1) (l + 1)). reflexivity.
  - congruence.
Qed.

(** X1. The distance [levenshteinDistance] returns is 0 exactly when
    the two strings are the same string: equal strings are at distance
    0, and every pair of different strings is at distance 1 or more. *)
Theorem levenshtein_zero_iff_equal (str1 str2 : string) :
  levenshteinDistance str1 str2 = 0%nat ↔ str1 = str2.
Proof.
  split.
  - intros H0.
    destruct (matrix_ind str1 str2
      (λ i j v, v = 0%nat →
         i = j ∧ take i (list_ascii_of_string str2)
                 = take j (list_ascii_of_string str1)))
      with (i := String.length str2) (j := String.length str1)
      as (v & Hv & Pv); [| | |lia|lia|].
    + intros j Hj ->. split; reflexivity.
    + intros i Hi H. discriminate.
    + intros i j c1 c2 d l u Hc2 Hc1 Pd Pl Pu.
      destruct (Ascii.eqb_spec c2 c1) as [->|Hne]; [|lia].
      intros Hd. destruct (Pd Hd) as [-> E]. split; [reflexivity|].
      rewrite (take_S_r _ _ _ Hc2), (take_S_r _ _ _ Hc1), E. reflexivity.
    + rewrite (distance_matrixAt _ _ _ Hv) in H0.
      destruct (Pv H0) as [Hlen E].
      rewrite !take_ge in E by (rewrite length_list_ascii; lia).
      symmetry. apply list_ascii_inj. exact E.
  - intros <-.
    destruct (matrix_ind str1 str1 (λ i j v, i = j → v = 0%nat))
      with (i := String.length str1) (j := String.length str1)
      as (v & Hv & Pv); [| | |lia|lia|].
    + intros j Hj <-. reflexivity.
    + intros i Hi H. discriminate.
    + intros i j c1 c2 d l u Hc2 Hc1 Pd Pl Pu Hij.
      injection Hij as ->.
      assert (c2 = c1) as -> by congruence.
      rewrite Ascii.eqb_refl. apply Pd. reflexivity.
    + rewrite (distance_matrixAt _ _ _ Hv). apply Pv. reflexivity.
Qed.

Lemma distance_sym (str1 str2 : string) :
  levenshteinDistance str1 str2 = levenshteinDistance str2 str1.
Proof.
  unfold levenshteinDistance.
  change (default 0%nat (matrixAt str1 str2 (String.length str2) (String.length str1))
          = default 0%nat (matrixAt str2 str1 (String.length str1) (String.length str2))).
  rewrite matrixAt_transpose by lia. reflexivity.
Qed.

(** X2. [levenshteinDistance] is symmetric in its two arguments,
    although the code builds the matrix with [str2] down the rows and
    [str1] along the columns. *)
Theorem levenshtein_symmetric (str1 str2 : string) :
  levenshteinDistance str1 str2 = levenshteinDistance str2 str1.
Proof.
  unfold levenshteinDistance.
  change (default 0%nat (matrixAt str1 str2 (String.length str2) (String.length str1))
          = default 0%nat (matrixAt str2 str1 (String.length str1) (String.length str2))).
  f_equal. apply matrixAt_transpose; lia.
Qed.

(** X3. The distance lies between the difference of the two lengths
    and the longer length. So the distance to the empty string is the
    length of the other string, and the similarity quotient
    [(maxLength - distance) / maxLength] never has a negative
    numerator. *)
Theorem levenshtein_bounds (str1 str2 : string) :
  let d := levenshteinDistance str1 str2 in
  let n1 := String.length str1 in
  let n2 := String.length str2 in
  (Nat.max n1 n2 - Nat.min n1 n2 ≤ d ≤ Nat.max n1 n2)%nat ∧
  levenshteinDistance str1 EmptyString = n1 ∧
  levenshteinDistance EmptyString str2 = n2.
Proof.
  assert (B : ∀ s1 s2,
    (Nat.max (String.length s1) (String.length s2)
       - Nat.min (String.length s1) (String.length s2)
     ≤ levenshteinDistance s1 s2
     ≤ Nat.max (String.length s1) (String.length s2))%nat).
  { intros s1 s2.
    destruct (matrix_ind s1 s2
      (λ i j v, (Nat.max i j - Nat.min i j ≤ v ≤ Nat.max i j)%nat))
      with (i := String.length s2) (j := String.length s1)
      as (v & Hv & Pv); [lia|lia| |lia|lia|].
    - intros i j c1 c2 d l u Hc2 Hc1 Pd Pl Pu.
      destruct (Ascii.eqb c2 c1); lia.
    - rewrite (distance_matrixAt _ _ _ Hv). lia. }
  cbv zeta. split; [apply B|].
  split.
  - pose proof (B str1 EmptyString) as H. simpl in H. lia.
  - pose proof (B EmptyString str2) as H. simpl in H. lia.
Qed.

End LevenshteinFacts.

(* ===================================================================== *)
(** * Facts: name cleaning and [normalizeAndMatchName] *)
(* ===================================================================== *)

Module NameNormalizeFacts.
Import Js NameMatch NameNormalize.

Lemma lowerChar_idem (c : ascii) : lowerChar (lowerChar c) = lowerChar c.
Proof. destruct c as [[] [] [] [] [] [] [] []]; reflexivity. Qed.

Lemma noLead_trimStartL l : noLead (trimStartL l) = true.
Proof.
  induction l as [|c l IH]; simpl; [reflexivity|].
  destruct (isSpace c) eqn:E; [exact IH|]. simpl. rewrite E. reflexivity.
Qed.

Lemma trimStartL_fix l : noLead l = true → trimStartL l = l.
Proof.
  destruct l as [|c l]; simpl; [reflexivity|].
  destruct (isSpace c); [discriminate|reflexivity].
Qed.

Lemma trimStartL_suffix l : ∃ ws, l = ws ++ trimStartL l.
Proof.
  induction l as [|c l [ws IH]]; simpl; [exists []; reflexivity|].
  destruct (isSpace c).
  - exists (c :: ws). simpl. congruence.
  - exists []. reflexivity.
Qed.

Lemma head_rev (l : list ascii) : head (rev l) = last l.
Proof.
  induction l as [|c l IH] using rev_ind; [reflexivity|].
  rewrite rev_app_distr, last_snoc. reflexivity.
Qed.

Lemma last_rev (l : list ascii) : last (rev l) = head l.
Proof. rewrite <- head_rev, rev_involutive. reflexivity. Qed.

Lemma noLead_head l :
  noLead l = match head l with None => true | Some c => negb (isSpace c) end.
Proof. destruct l; reflexivity. Qed.

Lemma noTrail_rev l : noTrail (rev l) = noLead l.
Proof. unfold noTrail. rewrite last_rev, noLead_head. reflexivity. Qed.

Lemma noLead_rev l : noLead (rev l) = noTrail l.
Proof. rewrite <- noTrail_rev, rev_involutive. reflexivity. Qed.

(** [trim] on lists. *)
Lemma trimL_noTrail l : noTrail (rev (trimStartL (rev l))) = true.
Proof. rewrite noTrail_rev. apply noLead_trimStartL. Qed.

Lemma trimL_noLead l :
  noLead l = true → noLead (rev (trimStartL (rev l))) = true.
Proof.
  intros H. destruct (trimStartL_suffix (rev l)) as [ws E].
  assert (E' : l = rev (trimStartL (rev l)) ++ rev ws).
  { rewrite <- rev_app_distr, <- E, rev_involutive. reflexivity. }
  destruct (rev (trimStartL (rev l))) as [|c u]; [reflexivity|].
  rewrite E' in H. exact H.
Qed.

Lemma trimL_fix l :
  noLead l = true → noTrail l = true →
  rev (trimStartL (rev (trimStartL l))) = l.
Proof.
  intros H1 H2. rewrite (trimStartL_fix l H1).
  rewrite trimStartL_fix by (rewrite noLead_rev; exact H2).
  apply rev_involutive.
Qed.

(** [replace(/\s+/g, ' ')] on lists. *)
Lemma noLead_collapse_true l : noLead (collapseL true l) = true.
Proof.
  induction l as [|c l IH]; simpl; [reflexivity|].
  destruct (isSpace c) eqn:E; [exact IH|]. simpl. rewrite E. reflexivity.
Qed.

Lemma noLead_collapse_false l :
  noLead l = true → noLead (collapseL false l) = true.
Proof.
  destruct l as [|c l]; simpl; [reflexivity|].
  destruct (isSpace c) eqn:E; [discriminate|]. simpl. rewrite E. reflexivity.
Qed.

Lemma noTrail_cons c l :
  noTrail (c :: l) = true →
  match l with
  | [] => isSpace c = false
  | _ :: _ => noTrail l = true
  end.
Proof.
  unfold noTrail. rewrite last_cons.
  destruct l as [|c' l]; simpl.
  - destruct (isSpace c); [discriminate|reflexivity].
  - destruct (last (c' :: l)) eqn:E; [auto|].
    apply last_None in E. discriminate.
Qed.

Lemma collapse_nonempty b l :
  l ≠ [] → noTrail l = true → collapseL b l ≠ [].
Proof.
  revert b. induction l as [|c l IH]; intros b Hne Ht; [congruence|].
  apply noTrail_cons in Ht. simpl.
  destruct (isSpace c) eqn:E; [|discriminate].
  destruct b; [|discriminate].
  destruct l as [|c' l]; [congruence|].
  apply IH; [discriminate|exact Ht].
Qed.

Lemma singleSpaced_collapse b l :
  noTrail l = true → singleSpaced (collapseL b l) = true.
Proof.
  revert b. induction l as [|c l IH]; intros b Ht; [reflexivity|].
  apply noTrail_cons in Ht. simpl.
  destruct (isSpace c) eqn:E.
  - destruct l as [|c' l]; [congruence|].
    destruct b; [apply IH; exact Ht|].
    cbn [singleSpaced]. rewrite (IH true Ht).
    pose proof (noLead_collapse_true (c' :: l)) as Hl.
    pose proof (collapse_nonempty true (c' :: l) ltac:(discriminate) Ht) as Hn.
    destruct (collapseL true (c' :: l)) as [|x xs]; [congruence|].
    simpl in Hl. rewrite Hl. reflexivity.
  - cbn [singleSpaced]. rewrite E.
    destruct l as [|c' l]; [reflexivity|].
    rewrite (IH false Ht). reflexivity.
Qed.

Lemma singleSpaced_noTrail l : singleSpaced l = true → noTrail l = true.
Proof.
  induction l as [|c l IH]; [reflexivity|].
  cbn [singleSpaced]. intros H.
  apply andb_true_iff in H as [H1 H2].
  unfold noTrail in *. rewrite last_cons.
  destruct l as [|c' l].
  - simpl. destruct (isSpace c); [|reflexivity].
    rewrite andb_false_r in H1. discriminate.
  - specialize (IH H2). destruct (last (c' :: l)) eqn:E; [exact IH|].
    apply last_None in E. discriminate.
Qed.

Lemma collapse_fix b l :
  singleSpaced l = true → (b = true → noLead l = true) →
  collapseL b l = l.
Proof.
  revert b. induction l as [|c l IH]; intros b Hs Hb; [reflexivity|].
  cbn [singleSpaced] in Hs. apply andb_true_iff in Hs as [H1 H2].
  simpl. destruct (isSpace c) eqn:E.
  - destruct b.
    { specialize (Hb eq_refl). simpl in Hb. rewrite E in Hb. discriminate. }
    apply andb_true_iff in H1 as [Hc Hn].
    apply Ascii.eqb_eq in Hc. subst c.
    f_equal. apply IH; [exact H2|].
    intros _. destruct l as [|c' l]; [discriminate|exact Hn].
  - f_equal. apply IH; [exact H2|discriminate].
Qed.

Lemma In_trimStartL x l : In x (trimStartL l) → In x l.
Proof.
  destruct (trimStartL_suffix l) as [ws E]. intros H.
  rewrite E. apply in_or_app. right. exact H.
Qed.

Lemma In_collapse x b l : In x (collapseL b l) → x = " "%char ∨ In x l.
Proof.
  revert b. induction l as [|c l IH]; intros b H; [destruct H|].
  simpl in H. destruct (isSpace c).
  - destruct b.
    + destruct (IH _ H); [left|right; right]; assumption.
    + destruct H as [<-|H]; [left; reflexivity|].
      destruct (IH _ H); [left|right; right]; assumption.
  - destruct H as [<-|H]; [right; left; reflexivity|].
    destruct (IH _ H); [left|right; right]; assumption.
Qed.

(** [cleanName] on lists. *)
Lemma cleanName_list (s : string) :
  list_ascii_of_string (cleanName s)
  = collapseL false
      (rev (trimStartL (rev (trimStartL
         (map lowerChar (list_ascii_of_string s)))))).
Proof.
  unfold cleanName, collapseSpaces, trim, toLowerCase.
  rewrite !list_ascii_of_string_of_list_ascii. reflexivity.
Qed.

Lemma isClean_cleanName (s : string) : isClean (cleanName s) = true.
Proof.
  unfold isClean. rewrite cleanName_list.
  set (l := map lowerChar (list_ascii_of_string s)).
  rewrite !andb_true_iff. split; [split|].
  - apply forallb_forall. intros x Hx.
    apply Ascii.eqb_eq.
    apply In_collapse in Hx as [->|Hx]; [reflexivity|].
    apply in_rev, In_trimStartL, in_rev, In_trimStartL in Hx.
    apply in_map_iff in Hx as (c & <- & _).
    apply lowerChar_idem.
  - apply noLead_collapse_false, trimL_noLead, noLead_trimStartL.
  - apply singleSpaced_collapse, trimL_noTrail.
Qed.

Lemma cleanName_fix (s : string) : isClean s = true → cleanName s = s.
Proof.
  unfold isClean. rewrite !andb_true_iff. intros [[Hl Hh] Hs].
  rewrite <- (string_of_list_ascii_of_string (cleanName s)).
  rewrite cleanName_list.
  rewrite <- (string_of_list_ascii_of_string s) at 2.
  f_equal.
  assert (E : map lowerChar (list_ascii_of_string s) = list_ascii_of_string s).
  { rewrite forallb_forall in Hl.
    rewrite <- (map_id (list_ascii_of_string s)) at 2.
    apply map_ext_in. intros c Hc. apply Ascii.eqb_eq, Hl, Hc. }
  rewrite E.
  rewrite trimL_fix by auto using singleSpaced_noTrail.
  apply collapse_fix; [exact Hs|discriminate].
Qed.

(** X4. [cleanName] returns a string in clean form (no upper-case
    letter, no white space at either end, no white space other than
    single spaces), and is idempotent; so the name-match result is the
    same whether or not a caller has cleaned the names already. *)
Theorem cleanName_canonical (name1 name2 : string) :
  isClean (cleanName name1) = true ∧
  cleanName (cleanName name1) = cleanName name1 ∧
  nameMatch (cleanName name1) (cleanName name2) = nameMatch name1 name2.
Proof.
  split; [apply isClean_cleanName|].
  split; [apply cleanName_fix, isClean_cleanName|].
  unfold nameMatch.
  rewrite !(cleanName_fix (cleanName _)) by apply isClean_cleanName.
  reflexivity.
Qed.

Lemma calculateSimilarity_sym (str1 str2 : string) :
  calculateSimilarity str1 str2 = calculateSimilarity str2 str1.
Proof.
  unfold calculateSimilarity.
  destruct (Nat.ltb_spec (String.length str2) (String.length str1)) as [H1|H1],
           (Nat.ltb_spec (String.length str1) (String.length str2)) as [H2|H2];
    try reflexivity; [lia|].
  assert (E : String.length str1 = String.length str2) by lia.
  rewrite (LevenshteinFacts.distance_sym str2 str1), E. reflexivity.
Qed.

Lemma string_eqb_sym (a b : string) : String.eqb a b = String.eqb b a.
Proof.
  destruct (String.eqb_spec a b) as [->|Hne].
  - symmetry. apply String.eqb_refl.
  - symmetry. apply String.eqb_neq. congruence.
Qed.

(** X5. [normalizeAndMatchName] is symmetric: swapping the two names
    never changes the verdict, also when they have the same length
    after normalisation and [calculateSimilarity] then swaps the
    arguments it gives to [levenshteinDistance]. *)
Theorem normalizeAndMatchName_symmetric (name1 name2 : string) :
  normalizeAndMatchName name1 name2 = normalizeAndMatchName name2 name1.
Proof.
  unfold normalizeAndMatchName.
  rewrite (orb_comm (negb (truthyStr name1))).
  rewrite (string_eqb_sym (normalize name1)).
  rewrite (calculateSimilarity_sym (normalize name1)).
  reflexivity.
Qed.

Lemma normalize_dropped (s : string) :
  forallb isDropped (list_ascii_of_string s) = true →
  normalize s = EmptyString.
Proof.
  intros H. unfold normalize, keepLetters, toLowerCase.
  rewrite list_ascii_of_string_of_list_ascii.
  assert (E : keepLettersL (map lowerChar (list_ascii_of_string s)) = []).
  { induction (list_ascii_of_string s) as [|c l IH]; [reflexivity|].
    simpl in H. apply andb_true_iff in H as [Hc Hl].
    unfold keepLettersL in *. simpl.
    unfold isDropped in Hc. apply negb_true_iff in Hc. rewrite Hc.
    apply IH, Hl. }
  rewrite E. reflexivity.
Qed.

(** X6. An empty name matches nothing, not even another empty name;
    but two non-empty ASCII names without any letter or white space
    (digits, punctuation) always match each other, because both
    normalise to the empty string. *)
Theorem normalizeAndMatchName_without_letters (name1 name2 : string) :
  normalizeAndMatchName EmptyString name2 = false ∧
  normalizeAndMatchName name1 EmptyString = false ∧
  (name1 ≠ EmptyString → name2 ≠ EmptyString →
   forallb isAscii (list_ascii_of_string name1) = true →
   forallb isAscii (list_ascii_of_string name2) = true →
   forallb isDropped (list_ascii_of_string name1) = true →
   forallb isDropped (list_ascii_of_string name2) = true →
   normalizeAndMatchName name1 name2 = true).
Proof.
  split; [reflexivity|].
  split.
  { unfold normalizeAndMatchName. simpl. rewrite orb_true_r. reflexivity. }
  intros N1 N2 _ _ D1 D2. unfold normalizeAndMatchName, truthyStr.
  apply String.eqb_neq in N1, N2. rewrite N1, N2. simpl.
  rewrite (normalize_dropped _ D1), (normalize_dropped _ D2). reflexivity.
Qed.

Lemma normalizeAndMatchName_without_letters_witness :
  normalizeAndMatchName "12-34" "#99" = true.
Proof.
  apply (normalizeAndMatchName_without_letters "12-34" "#99");
    [discriminate|discriminate|reflexivity|reflexivity|reflexivity|reflexivity].
Defined.

(** X26. The name-match result is symmetric: similarity, verdict and
    confidence are the same whichever of the two names comes first. *)
Theorem nameMatch_symmetric (name1 name2 : string) :
  nameMatch name1 name2 = nameMatch name2 name1.
Proof.
  unfold nameMatch, calculateNameSimilarity.
  rewrite (Nat.max_comm (String.length (cleanName name1))).
  rewrite (LevenshteinFacts.distance_sym (cleanName name1)).
  reflexivity.
Qed.

End NameNormalizeFacts.

(* ===================================================================== *)
(** * Facts: signature checking at the receiving end *)
(* ===================================================================== *)

Module WebhookTestFacts.
Import Js Webhook Routes WebhookTest.

Lemma length_append (a b : string) :
  String.length (a +:+ b) = (String.length a + String.length b)%nat.
Proof. induction a as [|c a IH]; simpl; [reflexivity|]. rewrite IH. reflexivity. Qed.

Lemma stripPrefix_length p s rest :
  stripPrefix p s = Some rest →
  String.length s = (String.length p + String.length rest)%nat.
Proof.
  revert s. induction p as [|a p IH]; intros s H; simpl in *.
  - congruence.
  - destruct s as [|b s]; [discriminate|].
    destruct (Ascii.eqb a b); [|discriminate].
    simpl. rewrite (IH _ H). reflexivity.
Qed.

Lemma replaceFirst_length (signature : string) :
  (String.length signature - 7
     ≤ String.length (replaceFirst "sha256=" EmptyString signature)
     ≤ String.length signature)%nat.
Proof.
  induction signature as [|c s IH].
  - simpl. lia.
  - cbn [replaceFirst].
    destruct (stripPrefix "sha256=" (String c s)) as [rest|] eqn:E.
    + apply stripPrefix_length in E.
      change (EmptyString +:+ rest) with rest.
      change (String.length "sha256=") with 7%nat in E. lia.
    + cbn [String.length]. lia.
Qed.

(** X7. Whatever the payload and the secret, [verifyWebhookSignature]
    accepts only a signature of 64 to 71 characters, of which 64
    remain once the first "sha256=" is removed: an empty or truncated
    signature never verifies, and neither does the header with its
    prefix written twice. *)
Theorem verify_rejects_malformed (payload signature secret : string) :
  (verifyWebhookSignature payload signature secret = true →
   String.length (replaceFirst "sha256=" EmptyString signature) = 64%nat ∧
   (64 ≤ String.length signature ≤ 71)%nat) ∧
  verifyWebhookSignature payload EmptyString secret = false ∧
  verifyWebhookSignature payload "sha256=" secret = false ∧
  verifyWebhookSignature payload
    ("sha256=" +:+ signatureHeader payload secret) secret = false.
Proof.
  assert (A : ∀ sig,
    verifyWebhookSignature payload sig secret = true →
    String.length (replaceFirst "sha256=" EmptyString sig) = 64%nat).
  { intros sig H. unfold verifyWebhookSignature in H.
    apply String.eqb_eq in H. rewrite <- H.
    apply WebhookFacts.length_hmac_hex. }
  assert (B : ∀ sig n,
    String.length (replaceFirst "sha256=" EmptyString sig) = n → n ≠ 64%nat →
    verifyWebhookSignature payload sig secret = false).
  { intros sig n Hn Hne.
    destruct (verifyWebhookSignature payload sig secret) eqn:E; [|reflexivity].
    apply A in E. congruence. }
  split; [|split; [|split]].
  - intros H. split; [apply A, H|].
    pose proof (replaceFirst_length signature). apply A in H. lia.
  - apply (B _ 0%nat); [reflexivity|lia].
  - apply (B _ 0%nat); [reflexivity|lia].
  - apply (B _ 71%nat); [|lia].
    unfold signatureHeader.
    change ("sha256=" +:+ "sha256=" +:+ ?h) with ("sha256=" +:+ ("sha256=" +:+ h)).
    rewrite WebhookFacts.replaceFirst_prefix.
    rewrite length_append, WebhookFacts.length_hmac_hex. reflexivity.
Qed.

Lemma verify_rejects_malformed_witness :
  String.length
    (replaceFirst "sha256=" EmptyString (signatureHeader "{}" "whsec_1")) = 64%nat ∧
  (64 ≤ String.length (signatureHeader "{}" "whsec_1") ≤ 71)%nat.
Proof.
  apply (verify_rejects_malformed "{}" (signatureHeader "{}" "whsec_1") "whsec_1").
  vm_compute. reflexivity.
Defined.

Lemma pretty_N_go_nonempty (x : N) (s : string) :
  s ≠ EmptyString → pretty_N_go x s ≠ EmptyString.
Proof.
  revert s. induction (N.lt_wf_0 x) as [x _ IH]; intros s Hs.
  destruct (decide (0 < x)%N) as [Hx|Hx].
  - rewrite pretty_N_go_step by exact Hx.
    apply IH; [|discriminate].
    apply N.div_lt; lia.
  - assert (x = 0%N) as -> by lia. rewrite pretty_N_go_0. exact Hs.
Qed.

Lemma pretty_Z_nonempty (z : Z) : pretty z ≠ EmptyString.
Proof.
  assert (P : ∀ p : positive, pretty p ≠ EmptyString).
  { intros p. unfold pretty, pretty_positive, pretty, pretty_N.
    destruct (decide (N.pos p = 0%N)); [discriminate|].
    rewrite pretty_N_go_step by lia.
    apply pretty_N_go_nonempty. discriminate. }
  destruct z as [|p|p]; unfold pretty, pretty_Z.
  - discriminate.
  - apply P.
  - simpl. discriminate.
Qed.

Lemma truthyStr_ne (s : string) : s ≠ EmptyString → truthyStr s = true.
Proof.
  intros H. unfold truthyStr. apply negb_true_iff, String.eqb_neq, H.
Qed.

Lemma present_truthy (s : string) : s ≠ EmptyString → present (Some s) = Some s.
Proof. intros H. unfold present. simpl. rewrite truthyStr_ne by exact H. reflexivity. Qed.

Lemma signatureHeader_nonempty payload secret :
  signatureHeader payload secret ≠ EmptyString.
Proof. unfold signatureHeader. discriminate. Qed.

Section Loopback.
Variable JSON_stringify : Payload → string.
Variable parseInt : string → number.

(** X8. What [deliverWebhook] posts is what the webhook test endpoint
    accepts: when the payload names its event, both ends hold the
    same secret, and the body the endpoint parses is the payload that
    was sent, the endpoint answers with [signatureValid: true] and
    echoes the event and the payload. A request that lacks one of the
    three headers is answered 400; a request with all three is
    answered 200 whatever the signature is, the verdict being reported
    in [signatureValid] only. *)
Theorem webhook_test_loopback (now : Z) (webhookUrl : string)
    (body : Payload) (WEBHOOK_SECRET : option string) (eventName : string) :
  payloadEvent body = Some (JStr eventName) →
  eventName ≠ EmptyString →
  let request :=
    webhookRequest JSON_stringify now webhookUrl body
      (webhookSecret WEBHOOK_SECRET) in
  (∃ data,
      webhookTest JSON_stringify parseInt WEBHOOK_SECRET (headersOf request) body
        = Success data ∧
      signatureValid data = true ∧
      event data = eventName ∧
      payload data = body) ∧
  (∀ headers,
      (x_spy_signature headers = None ∨ x_spy_timestamp headers = None ∨
       x_spy_event headers = None) →
      webhookTest JSON_stringify parseInt WEBHOOK_SECRET headers body
        = Failure 400 "Missing webhook headers") ∧
  (∀ signature timestamp,
      signature ≠ EmptyString → timestamp ≠ EmptyString →
      ∃ data,
        webhookTest JSON_stringify parseInt WEBHOOK_SECRET
          {| x_spy_signature := Some signature;
             x_spy_timestamp := Some timestamp;
             x_spy_event := Some eventName |} body = Success data ∧
        signatureValid data
          = verifyWebhookSignature (JSON_stringify body) signature
              (webhookSecret WEBHOOK_SECRET)).
Proof.
  intros Hev Hne request. split; [|split].
  - unfold webhookTest, headersOf, request, webhookRequest.
    cbn [X_SPY_Signature X_SPY_Timestamp X_SPY_Event
         x_spy_signature x_spy_timestamp x_spy_event].
    rewrite Hev.
    rewrite (present_truthy _ (signatureHeader_nonempty _ _)).
    rewrite (present_truthy _ (pretty_Z_nonempty _)).
    rewrite (present_truthy _ Hne).
    eexists. split; [reflexivity|].
    cbn [signatureValid event payload].
    split; [|split; reflexivity].
    apply WebhookFacts.verify_round_trip.
  - intros headers H. unfold webhookTest.
    destruct H as [E | [E | E]]; rewrite E; cbn [present truthy].
    + reflexivity.
    + destruct (present (x_spy_signature headers)); reflexivity.
    + destruct (present (x_spy_signature headers)),
               (present (x_spy_timestamp headers)); reflexivity.
  - intros signature timestamp Hs Ht. unfold webhookTest.
    cbn [x_spy_signature x_spy_timestamp x_spy_event].
    rewrite (present_truthy _ Hs), (present_truthy _ Ht), (present_truthy _ Hne).
    eexists. split; reflexivity.
Qed.

End Loopback.

Lemma webhook_test_loopback_witness :
  let body := [("event", JStr "payout.settled"); ("utr", JStr "N1")] in
  let stringify := λ _ : Payload, "{'event':'payout.settled','utr':'N1'}" in
  ∃ data,
    webhookTest stringify (λ _, 0%float) (Some "whsec_1")
      (headersOf (webhookRequest stringify 1700000000000 "https://partner.example/hook"
                    body (webhookSecret (Some "whsec_1")))) body
      = Success data ∧
    signatureValid data = true ∧
    event data = "payout.settled" ∧
    payload data = body.
Proof.
  intros body stringify.
  apply (webhook_test_loopback stringify (λ _, 0%float) 1700000000000
           "https://partner.example/hook" body (Some "whsec_1") "payout.settled").
  - reflexivity.
  - discriminate.
Defined.

End WebhookTestFacts.

(* ===================================================================== *)
(** * Facts: what a KYC request can and cannot change *)
(* ===================================================================== *)

Module KycShapeFacts.
Import Js Routes KycShape.

Lemma updateKycVerificationStatus_shape c sessionId verificationType name st :
  In verificationType handlerTags →
  StepShape c st
    (Storage.updateKycVerificationStatus c sessionId verificationType true name st).2.
Proof.
  intros Hin. unfold Storage.updateKycVerificationStatus.
  destruct (Storage.getKycSessionById sessionId st) eqn:E; [|apply Unchanged].
  apply Updated; [apply Verification, Hin|rewrite E; eauto].
Qed.

Ltac shape_handler :=
  repeat match goal with
         | |- StepShape _ ?st ?st => apply Unchanged
         | |- StepShape _ _ (storage (reply _ _)) => cbn [storage reply]
         | |- StepShape _ _ (storage (match ?x with _ => _ end)) => destruct x eqn:?
         | |- StepShape _ _ (storage (if ?x then _ else _)) => destruct x eqn:?
         end;
  try match goal with
      | E : ?u = (_, ?st') |- StepShape _ _ ?st' =>
          replace st' with u.2 by (by rewrite E)
      end.

Ltac tag_in := unfold handlerTags; simpl; tauto.

Lemma kycStep_shape c req st : StepShape c st (kycStep c req st).
Proof.
  destruct req as [partnerId body|sid num cf|body cf|sid pan cf
                  |sid vpa tok call|sid acc ifsc tok call|sid img cf
                  |sid n1 n2 cf]; cbn [kycStep].
  - unfold kycSessionCreate. shape_handler. apply Created.
  - unfold aadhaarGenerateOtp. shape_handler.
    apply Updated; [apply OtpReference|eauto].
  - unfold aadhaarOkyc. shape_handler.
    apply Updated; [apply AadhaarDone|eauto].
  - unfold panVerify. shape_handler.
    apply updateKycVerificationStatus_shape. tag_in.
  - unfold upiVerify, surepassVerify. shape_handler.
    apply updateKycVerificationStatus_shape. tag_in.
  - unfold bankVerify, surepassVerify. shape_handler.
    apply updateKycVerificationStatus_shape. tag_in.
  - unfold faceLivenessVerify. shape_handler.
    apply updateKycVerificationStatus_shape. tag_in.
  - unfold nameMatchVerify. shape_handler.
    apply updateKycVerificationStatus_shape. tag_in.
Qed.

(** The flags and the status an update of a handler writes: a flag is
    only ever set, the status only ever completed, and the face flag
    is left alone. *)
Lemma handlerUpdate_effect c updates session :
  HandlerUpdate updates →
  let updated := KycSession.spread session (Storage.stampKyc c updates) in
  (KycSession.status session = "completed" → KycSession.status updated = "completed") ∧
  (∀ m, Method.verified m session = true → Method.verified m updated = true) ∧
  KycSession.faceVerified updated = KycSession.faceVerified session.
Proof.
  intros H. destruct H as [d|name data|verificationType name Hin]; cbv zeta.
  - split; [auto|]. split; [|reflexivity]. intros m. destruct m; auto.
  - split; [auto|]. split; [|reflexivity]. intros m. destruct m; auto.
  - unfold handlerTags in Hin. simpl in Hin.
    destruct Hin as [<-|[<-|[<-|[<-|[<-|[]]]]]];
      (split; [auto|]; split; [|reflexivity]; intros m; destruct m; auto).
Qed.

(** X9. A KYC request never undoes anything about a session that
    exists: the session is still there afterwards, a completed session
    stays completed, every verification flag that was set stays set,
    and the partner, the user, the document and the creation time it
    was created with are the same. (The one exception the storage
    allows is a session created at the very same identifier, which the
    insert replaces.) *)
Theorem kyc_session_only_progresses (c : Storage.Clock) (req : KycRequest)
    (st : Storage.t) (sessionId : string) (before : KycSession.t) :
  sessionId ≠ Storage.freshId "kyc_" c →
  Storage.getKycSessionById sessionId st = Some before →
  ∃ after_,
    Storage.getKycSessionById sessionId (kycStep c req st) = Some after_ ∧
    (KycSession.status before = "completed" →
     KycSession.status after_ = "completed") ∧
    (∀ m, Method.verified m before = true → Method.verified m after_ = true) ∧
    KycSession.sessionId after_ = KycSession.sessionId before ∧
    KycSession.partnerId after_ = KycSession.partnerId before ∧
    KycSession.userId after_ = KycSession.userId before ∧
    KycSession.documentType after_ = KycSession.documentType before ∧
    KycSession.documentNumber after_ = KycSession.documentNumber before ∧
    KycSession.createdAt after_ = KycSession.createdAt before.
Proof.
  intros Hfresh Hbefore.
  destruct (kycStep_shape c req st) as [|insertSession|target updates Hu Hsome].
  - exists before. repeat split; auto.
  - exists before. split; [|repeat split; auto].
    unfold Storage.getKycSessionById in *. cbn.
    rewrite lookup_insert_ne by congruence. exact Hbefore.
  - unfold Storage.getKycSessionById in *.
    rewrite StorageFacts.updateKycSession_lookup.
    case_decide as Heq.
    + subst target. rewrite Hbefore. cbn [fmap option_fmap option_map].
      eexists. split; [reflexivity|].
      destruct (handlerUpdate_effect c updates before Hu) as (H1 & H2 & _).
      split; [exact H1|]. split; [exact H2|]. repeat split; reflexivity.
    + exists before. repeat split; auto.
Qed.

Lemma kyc_session_only_progresses_witness :
  ∃ after_,
    Storage.getKycSessionById "kyc_9"
      (kycStep (Scenario.at_ 5000 "p1p1p1" "555555")
         (PanVerify (Some "kyc_9") (Some "ABCDE1234F")
            (Scenario.cashfree_ok [("name", "JOHN DOE")]))
         Scenario.st_stale) = Some after_ ∧
    KycSession.status after_ = "completed" ∧
    KycSession.aadhaarVerified after_ = true ∧
    KycSession.userId after_ = "user_1".
Proof.
  destruct (kyc_session_only_progresses (Scenario.at_ 5000 "p1p1p1" "555555")
              (PanVerify (Some "kyc_9") (Some "ABCDE1234F")
                 (Scenario.cashfree_ok [("name", "JOHN DOE")]))
              Scenario.st_stale "kyc_9" Scenario.kyc_done)
    as (after_ & Hafter & Hstatus & Hflags & _ & _ & Huser & _).
  - vm_compute. discriminate.
  - reflexivity.
  - exists after_. split; [exact Hafter|].
    split; [apply Hstatus; reflexivity|].
    split; [apply (Hflags Method.Aadhaar); reflexivity|exact Huser].
Defined.

Lemma kycStep_face c req st sessionId after_ :
  Storage.getKycSessionById sessionId (kycStep c req st) = Some after_ →
  KycSession.faceVerified after_ = true →
  ∃ before,
    Storage.getKycSessionById sessionId st = Some before ∧
    KycSession.faceVerified before = true.
Proof.
  unfold Storage.getKycSessionById.
  destruct (kycStep_shape c req st) as [|insertSession|target updates Hu Hsome].
  - eauto.
  - cbn. destruct (decide (Storage.freshId "kyc_" c = sessionId)) as [->|Hne].
    + rewrite lookup_insert_eq. intros [= <-]. discriminate.
    + rewrite lookup_insert_ne by exact Hne. eauto.
  - rewrite StorageFacts.updateKycSession_lookup.
    case_decide as Heq; [|eauto]. subst target.
    destruct (Storage.kycSessions st !! sessionId) as [before|]; [|discriminate].
    cbn [fmap option_fmap option_map]. intros [= <-] Hface.
    destruct (handlerUpdate_effect c updates before Hu) as (_ & _ & H3).
    exists before. split; [reflexivity|congruence].
Qed.

(** X10. No request ever sets [faceVerified]: the face-liveness
    handler answers a successful check with 200, but the verification
    type it records, 'face_liveness', is none the storage knows
    ('face' is), so the update carries no flag. In a run of KYC
    requests from a store without face-verified sessions no session is
    ever face-verified. *)
Theorem face_liveness_never_recorded (reqs : list (Storage.Clock * KycRequest))
    (st : Storage.t) :
  (∀ sessionId session,
      Storage.getKycSessionById sessionId st = Some session →
      KycSession.faceVerified session = false) →
  (∀ sessionId session,
      Storage.getKycSessionById sessionId (kycRun reqs st) = Some session →
      KycSession.faceVerified session = false) ∧
  (∀ c sessionId image result session,
      Storage.getKycSessionById sessionId st = Some session →
      sessionId ≠ EmptyString → image ≠ EmptyString →
      isSUCCESS result = true →
      let answer :=
        faceLivenessVerify c (Some sessionId) (Some image) (Returns result) st in
      response answer = Success (cf_data result) ∧
      (KycSession.faceVerified
         <$> Storage.getKycSessionById sessionId (storage answer)) = Some false).
Proof.
  intros Hnone. split.
  - revert st Hnone. induction reqs as [|[c req] reqs IH]; intros st Hnone.
    + exact Hnone.
    + simpl. apply IH. intros sessionId session Hs.
      destruct (KycSession.faceVerified session) eqn:Hface; [|reflexivity].
      destruct (kycStep_face c req st sessionId session Hs Hface)
        as (before & Hb & Hfb).
      rewrite (Hnone _ _ Hb) in Hfb. discriminate.
  - intros c sessionId image result session Hs Hsid Himg Hok. cbv zeta.
    unfold faceLivenessVerify.
    rewrite (WebhookTestFacts.present_truthy _ Hsid),
            (WebhookTestFacts.present_truthy _ Himg), Hs, Hok.
    unfold Storage.updateKycVerificationStatus. rewrite Hs.
    pose proof (StorageFacts.updateKycSession_lookup c sessionId
                  (MemStorage.verificationUpdates "face_liveness" true None)
                  st sessionId) as Hl.
    destruct (Storage.updateKycSession c sessionId
                (MemStorage.verificationUpdates "face_liveness" true None) st)
      as [r st'] eqn:E.
    cbn [response storage reply]. split; [reflexivity|].
    cbn [snd] in Hl. unfold Storage.getKycSessionById in *.
    rewrite Hl. rewrite decide_True by reflexivity. rewrite Hs.
    cbn [fmap option_fmap option_map]. f_equal.
    apply (Hnone _ _ Hs).
Qed.

Lemma face_liveness_never_recorded_witness :
  (KycSession.faceVerified
     <$> Storage.getKycSessionById "kyc_9"
           (kycRun [(Scenario.at_ 5000 "f1f1f1" "555555",
                     FaceLivenessVerify (Some "kyc_9") (Some "image/jpeg;base64")
                       (Scenario.cashfree_ok [("liveness_score", "0.98")]))]
              Scenario.st_stale)) = Some false.
Proof.
  destruct (Storage.getKycSessionById "kyc_9"
              (kycRun [(Scenario.at_ 5000 "f1f1f1" "555555",
                        FaceLivenessVerify (Some "kyc_9") (Some "image/jpeg;base64")
                          (Scenario.cashfree_ok [("liveness_score", "0.98")]))]
                 Scenario.st_stale)) as [session|] eqn:E;
    [|vm_compute in E; discriminate].
  cbn [fmap option_fmap option_map]. f_equal.
  refine (proj1 (face_liveness_never_recorded _ Scenario.st_stale _) "kyc_9" session E).
  intros sessionId session' Hs.
  unfold Storage.getKycSessionById, Scenario.st_stale in Hs. cbn in Hs.
  apply lookup_singleton_Some in Hs as [_ <-]. reflexivity.
Defined.

End KycShapeFacts.

(* ===================================================================== *)
(** * Facts: the call to the KYC provider *)
(* ===================================================================== *)

Module CashfreeFacts.
Import Js Routes Cashfree KycShape.

Section Call.
Variable rsaEncrypt : string → string → Outcome string.
Variable JSON_stringify : FormData → string.
Variable JSON_parse : string → option (gmap string string).

Abbreviation call := (callCashfreeKycApi rsaEncrypt JSON_stringify JSON_parse).

Lemma call_returns env now provider verificationType formData result :
  call env now provider verificationType formData = Returns result →
  isSUCCESS result = true.
Proof.
  unfold callCashfreeKycApi.
  repeat match goal with
         | |- context [match ?x with _ => _ end] => destruct x
         end; intros [= <-]; reflexivity.
Qed.

(** The provider did not answer 2xx with a JSON body. *)
Lemma call_throws env now provider verificationType formData :
  ¬ bypassed env →
  (∀ request,
      match provider request with
      | Responds true responseText => JSON_parse responseText = None
      | _ => True
      end) →
  ∃ err, call env now provider verificationType formData = Throws err.
Proof.
  intros Hcred Hbad. unfold callCashfreeKycApi.
  destruct (present (CASHFREE_CLIENT_ID env)) eqn:E1;
    [|exfalso; apply Hcred; left; exact E1].
  destruct (present (CASHFREE_CLIENT_SECRET env)) eqn:E2;
    [|exfalso; apply Hcred; right; exact E2].
  cbv zeta.
  destruct (endpointMap verificationType); [|eauto].
  match goal with |- context [provider ?r] => specialize (Hbad r); destruct (provider r) as [err|ok text] end;
    [eauto|].
  destruct (JSON_parse text) eqn:Ep; [|eauto].
  destruct ok; [congruence|]. cbn [negb]. eauto.
Qed.

Ltac pair_away :=
  match goal with
  | |- context [let '(_, _) := ?u in _] => destruct u
  end.

Ltac dead_branch :=
  repeat match goal with
         | |- context [match present ?x with _ => _ end] => destruct (present x)
         | |- context [match Storage.getKycSessionById ?x ?s with _ => _ end] =>
             destruct (Storage.getKycSessionById x s)
         end; try discriminate;
  match goal with
  | |- context [call ?a ?b ?p ?t ?f] =>
      let E := fresh "E" in
      destruct (call a b p t f) as [result|] eqn:E; [|discriminate];
      rewrite (call_returns _ _ _ _ _ _ E)
  end;
  pair_away; discriminate.

(** X11. [callCashfreeKycApi] either throws or returns a result whose
    status is 'SUCCESS'; it has no other way to return. So the branch
    of each handler that answers 400 with "... failed" for a returned
    result of another status is never taken: a provider that declines
    a verification surfaces as 500. *)
Theorem provider_result_never_unsuccessful (env : Env) (provider : Request → Answer)
    (c : Storage.Clock) (st : Storage.t) :
  (∀ now verificationType formData,
      match call env now provider verificationType formData with
      | Returns result => cf_status result = "SUCCESS"
      | Throws _ => True
      end) ∧
  (∀ sessionId aadhaarNumber,
      response (aadhaarGenerateOtpCall rsaEncrypt JSON_stringify JSON_parse
                  env provider c sessionId aadhaarNumber st)
        ≠ Failure 400 "Failed to generate OTP") ∧
  (∀ body,
      response (aadhaarOkycCall rsaEncrypt JSON_stringify JSON_parse
                  env provider c body st)
        ≠ Failure 400 "Aadhaar verification failed") ∧
  (∀ sessionId panNumber name,
      response (panVerifyCall rsaEncrypt JSON_stringify JSON_parse
                  env provider c sessionId panNumber name st)
        ≠ Failure 400 "PAN verification failed") ∧
  (∀ sessionId image action,
      response (faceLivenessVerifyCall rsaEncrypt JSON_stringify JSON_parse
                  env provider c sessionId image action st)
        ≠ Failure 400 "Face liveness verification failed") ∧
  (∀ sessionId name1 name2,
      response (nameMatchVerifyCall rsaEncrypt JSON_stringify JSON_parse
                  env provider c sessionId name1 name2 st)
        ≠ Failure 400 "Name match verification failed").
Proof.
  split.
  { intros now verificationType formData.
    destruct (call env now provider verificationType formData) as [result|] eqn:E;
      [|exact I].
    apply call_returns in E. apply String.eqb_eq. exact E. }
  split; [|split; [|split; [|split]]].
  - intros sessionId aadhaarNumber.
    unfold aadhaarGenerateOtpCall, aadhaarGenerateOtp.
    dead_branch.
  - intros body. unfold aadhaarOkycCall, aadhaarOkyc.
    dead_branch.
  - intros sessionId panNumber name. unfold panVerifyCall, panVerify.
    dead_branch.
  - intros sessionId image action. unfold faceLivenessVerifyCall, faceLivenessVerify.
    dead_branch.
  - intros sessionId name1 name2. unfold nameMatchVerifyCall, nameMatchVerify.
    dead_branch.
Qed.

Lemma present_some_ne (x : option string) (s : string) :
  present x = Some s → x = Some s ∧ s ≠ EmptyString.
Proof.
  unfold present. destruct x as [t|]; simpl; [|discriminate].
  destruct (truthyStr t) eqn:E; [|discriminate].
  intros [= <-]. split; [reflexivity|].
  intros ->. discriminate.
Qed.

(** X14. With the credentials configured, nothing is recorded unless
    the provider answered 2xx with a JSON body: when the request
    fails, or the answer is not 2xx, or its body is not JSON, each of
    the five handlers that call the provider leaves the storage as it
    was. *)
Theorem provider_failure_records_nothing (env : Env) (provider : Request → Answer)
    (c : Storage.Clock) (req : KycCall) (st : Storage.t) :
  ¬ bypassed env →
  (∀ request,
      match provider request with
      | Responds true responseText => JSON_parse responseText = None
      | _ => True
      end) →
  usesCashfree req = true →
  kycCallStep rsaEncrypt JSON_stringify JSON_parse env provider c req st = st.
Proof.
  intros Hcred Hbad Huses.
  destruct req as [partnerId body|sid num|body|sid pan name
                  |sid vpa tok call0|sid acc ifsc tok call0|sid img action
                  |sid n1 n2]; try discriminate; cbn [kycCallStep].
  - unfold aadhaarGenerateOtpCall, aadhaarGenerateOtp.
    match goal with
    | |- context [call ?a ?b ?p ?t ?f] =>
        destruct (call_throws a b p t f Hcred Hbad) as [err ->]
    end.
    repeat match goal with
           | |- context [match ?x with _ => _ end] => destruct x
           end; reflexivity.
  - unfold aadhaarOkycCall, aadhaarOkyc.
    match goal with
    | |- context [call ?a ?b ?p ?t ?f] =>
        destruct (call_throws a b p t f Hcred Hbad) as [err ->]
    end.
    repeat match goal with
           | |- context [match ?x with _ => _ end] => destruct x
           end; reflexivity.
  - unfold panVerifyCall, panVerify.
    match goal with
    | |- context [call ?a ?b ?p ?t ?f] =>
        destruct (call_throws a b p t f Hcred Hbad) as [err ->]
    end.
    repeat match goal with
           | |- context [match ?x with _ => _ end] => destruct x
           end; reflexivity.
  - unfold faceLivenessVerifyCall, faceLivenessVerify.
    match goal with
    | |- context [call ?a ?b ?p ?t ?f] =>
        destruct (call_throws a b p t f Hcred Hbad) as [err ->]
    end.
    repeat match goal with
           | |- context [match ?x with _ => _ end] => destruct x
           end; reflexivity.
  - unfold nameMatchVerifyCall, nameMatchVerify.
    match goal with
    | |- context [call ?a ?b ?p ?t ?f] =>
        destruct (call_throws a b p t f Hcred Hbad) as [err ->]
    end.
    repeat match goal with
           | |- context [match ?x with _ => _ end] => destruct x
           end; reflexivity.
Qed.

End Call.

Lemma provider_failure_records_nothing_witness :
  kycCallStep CashfreeScenario.encrypt CashfreeScenario.stringify
    CashfreeScenario.parse CashfreeScenario.env_live
    CashfreeScenario.provider_down CashfreeScenario.clock_5
    (CallPan (Some "kyc_9") (Some "ABCDE1234F") None) Scenario.st_stale
  = Scenario.st_stale.
Proof.
  apply provider_failure_records_nothing.
  - intros [H|H]; vm_compute in H; discriminate.
  - intros request. exact I.
  - reflexivity.
Defined.

End CashfreeFacts.

(* ===================================================================== *)
(** * Facts: API keys and partner sessions *)
(* ===================================================================== *)

Module AccountsFacts.
Import Js Routes Accounts.

Lemma stripPrefix_append p s : Webhook.stripPrefix p (p +:+ s) = Some s.
Proof.
  induction p as [|a p IH]; [destruct s; reflexivity|].
  change (Webhook.stripPrefix (String a p) (String a (p +:+ s)) = Some s).
  simpl. rewrite Ascii.eqb_refl. exact IH.
Qed.

Lemma stripPrefix_Some p s rest :
  Webhook.stripPrefix p s = Some rest → s = p +:+ rest.
Proof.
  revert s. induction p as [|a p IH]; intros s H.
  - destruct s; simpl in H; injection H as <-; reflexivity.
  - destruct s as [|b s]; simpl in H; [discriminate|].
    destruct (Ascii.eqb_spec a b) as [->|]; [|discriminate].
    change (String b s = String b (p +:+ rest)).
    f_equal. apply IH, H.
Qed.

(** X15. The middleware lets a request through exactly when its
    authorization header is "Bearer " followed by a key, the first
    partner stored with that key exists and is active; that partner is
    the one attached to the request. Every other request is answered
    401. *)
Theorem authenticate_sound_complete (authorization : option string)
    (partners : Partners) (partner : Partner.t) :
  (authenticateApiKey authorization partners = Next partner ↔
   ∃ apiKey,
     authorization = Some ("Bearer " +:+ apiKey) ∧
     getPartnerByApiKey apiKey partners = Some partner ∧
     Partner.status partner = "active") ∧
  (∀ code error,
      authenticateApiKey authorization partners = Reject code error →
      code = 401%nat) ∧
  (authenticateApiKey authorization partners = Next partner →
   In partner partners ∧
   authorization = Some ("Bearer " +:+ Partner.apiKey partner)).
Proof.
  assert (Hiff : authenticateApiKey authorization partners = Next partner ↔
   ∃ apiKey,
     authorization = Some ("Bearer " +:+ apiKey) ∧
     getPartnerByApiKey apiKey partners = Some partner ∧
     Partner.status partner = "active").
  { unfold authenticateApiKey. split.
    - destruct (present authorization) as [authHeader|] eqn:Hp; [|discriminate].
      apply CashfreeFacts.present_some_ne in Hp as [-> _].
      destruct (Webhook.stripPrefix "Bearer " authHeader) as [apiKey|] eqn:Hs;
        [|discriminate].
      apply stripPrefix_Some in Hs. subst authHeader.
      destruct (getPartnerByApiKey apiKey partners) as [p|] eqn:Hf; [|discriminate].
      destruct (negb (String.eqb (Partner.status p) "active")) eqn:Ha; [discriminate|].
      intros [= <-]. exists apiKey.
      apply StorageFacts.negb_eqb_false in Ha. auto.
    - intros (apiKey & -> & Hf & Ha).
      rewrite WebhookTestFacts.present_truthy by discriminate.
      rewrite stripPrefix_append, Hf.
      apply StorageFacts.negb_eqb_false in Ha. rewrite Ha. reflexivity. }
  split; [exact Hiff|]. split.
  - intros code error. unfold authenticateApiKey.
    repeat match goal with
           | |- context [match ?x with _ => _ end] => destruct x
           end; intros [= <- _]; reflexivity.
  - intros H. apply Hiff in H as (apiKey & -> & Hf & _).
    unfold getPartnerByApiKey in Hf. apply find_some in Hf as [Hin Hk].
    apply String.eqb_eq in Hk. subst apiKey. auto.
Qed.

Lemma authenticate_sound_complete_witness :
  In {| Partner.partnerId := "partner_1"; Partner.name := "Acme";
        Partner.email := "ops@acme.example"; Partner.webhookUrl := EmptyString;
        Partner.apiKey := "pk_live_abc"; Partner.webhookSecret := "whsec_abc";
        Partner.status := "active"; Partner.createdAt := 1; Partner.updatedAt := 1 |}
     [ {| Partner.partnerId := "partner_1"; Partner.name := "Acme";
          Partner.email := "ops@acme.example"; Partner.webhookUrl := EmptyString;
          Partner.apiKey := "pk_live_abc"; Partner.webhookSecret := "whsec_abc";
          Partner.status := "active"; Partner.createdAt := 1;
          Partner.updatedAt := 1 |} ] ∧
  Some "Bearer pk_live_abc" = Some ("Bearer " +:+ "pk_live_abc").
Proof.
  apply (authenticate_sound_complete (Some "Bearer pk_live_abc")).
  reflexivity.
Defined.

End AccountsFacts.

(* ===================================================================== *)
(** * The wired server: transactions *)
(* ===================================================================== *)

Module WiredFacts.
Import Js StorageApi EnhancedRoutes.

(** The middleware lets the one key of the storage through and attaches
    the partner the storage answers. *)
Lemma authenticated_partnerKey c (handler : Value.t → World unit → Reply * World unit) w :
  authenticated MockStorage.call c Wired.partnerKey handler w
  = handler (MockStorage.partner c) w.
Proof. destruct w. reflexivity. Qed.

(** Every other request is answered 401 by the middleware, and nothing
    else happens. *)
Lemma authenticated_cases c a (handler : Value.t → World unit → Reply * World unit) w :
  authenticated MockStorage.call c a handler w
    = (refuse 401 "Missing or invalid authorization header", w) ∨
  authenticated MockStorage.call c a handler w
    = (refuse 401 "Invalid or inactive API key", w) ∨
  authenticated MockStorage.call c a handler w = handler (MockStorage.partner c) w.
Proof.
  unfold authenticated, authenticateApiKey. destruct w as [[] sent].
  destruct (Routes.present a) as [authHeader|]; [|left; reflexivity].
  destruct (Webhook.stripPrefix "Bearer " authHeader) as [apiKey|]; [|left; reflexivity].
  unfold bind, call, MockStorage.call. cbn [MockStorage.answer store posted].
  destruct (String.eqb apiKey "pk_live_12345").
  - right. right. reflexivity.
  - right. left. reflexivity.
Qed.

Lemma later_not_before (t : Z) : (t + 15 * 60 * 1000 <? t)%Z = false.
Proof. apply Z.ltb_ge. lia. Qed.

Lemma truthy_Str (s : string) : s ≠ EmptyString → Value.truthy (Value.Str s) = true.
Proof. destruct s; [done|reflexivity]. Qed.

(** The creation handler on the wired storage, given the five fields. *)
Lemma transactionCreate_mock_ok rt c body w sessionId quoteId kycSessionId asset network :
  Value.get "sessionId" body = Returns sessionId →
  Value.get "quoteId" body = Returns quoteId →
  Value.get "kycSessionId" body = Returns kycSessionId →
  Value.get "asset" body = Returns asset →
  Value.get "network" body = Returns network →
  Value.truthy sessionId = true → Value.truthy quoteId = true →
  Value.truthy kycSessionId = true → Value.truthy asset = true →
  Value.truthy network = true →
  Value.convertible sessionId = true → Value.convertible quoteId = true →
  Value.convertible kycSessionId = true →
  transactionCreate MockStorage.call rt c body w
  = (ok (Wired.created c quoteId network), w).
Proof.
  intros G1 G2 G3 G4 G5 T1 T2 T3 T4 T5 C1 C2 C3.
  unfold transactionCreate, guarded, bind, lift, call, MockStorage.call, ret.
  rewrite G1, G2, G3, G4, G5, T1, T2, T3, T4, T5. cbn [negb orb].
  destruct w as [[] sent].
  cbn. unfold MockStorage.logged. rewrite C1. cbn. rewrite C2. cbn. rewrite C3. cbn.
  rewrite later_not_before. reflexivity.
Qed.

(** The creation handler on the wired storage: the five fields are
    missing, or a look-up throws on an identifier that has no
    conversion to a string, or the transaction is created. *)
Lemma transactionCreate_mock rt c body w :
  let r := transactionCreate MockStorage.call rt c body w in
  r.2 = w ∧
  (r.1 = refuse 400 "sessionId, quoteId, kycSessionId, asset, and network are required" ∨
   r.1 = refuse 500 "Transaction creation failed" ∨
   ∃ sessionId quoteId kycSessionId asset network,
     Value.get "sessionId" body = Returns sessionId ∧
     Value.get "quoteId" body = Returns quoteId ∧
     Value.get "kycSessionId" body = Returns kycSessionId ∧
     Value.get "asset" body = Returns asset ∧
     Value.get "network" body = Returns network ∧
     Value.truthy sessionId && Value.truthy quoteId && Value.truthy kycSessionId
       && Value.truthy asset && Value.truthy network = true ∧
     Value.convertible sessionId && Value.convertible quoteId
       && Value.convertible kycSessionId = true ∧
     r.1 = ok (Wired.created c quoteId network)).
Proof.
  destruct w as [[] sent].
  unfold transactionCreate, guarded, bind, lift, call, MockStorage.call, ret.
  destruct (Value.get "sessionId" body) as [sessionId|]; [|cbn; auto].
  destruct (Value.get "quoteId" body) as [quoteId|]; [|cbn; auto].
  destruct (Value.get "kycSessionId" body) as [kycSessionId|]; [|cbn; auto].
  destruct (Value.get "asset" body) as [asset|]; [|cbn; auto].
  destruct (Value.get "network" body) as [network|]; [|cbn; auto].
  destruct (Value.truthy sessionId) eqn:T1; [|cbn; auto].
  destruct (Value.truthy quoteId) eqn:T2; [|cbn; auto].
  destruct (Value.truthy kycSessionId) eqn:T3; [|cbn; auto].
  destruct (Value.truthy asset) eqn:T4; [|cbn; auto].
  destruct (Value.truthy network) eqn:T5; [|cbn; auto].
  cbn [negb orb store posted MockStorage.answer]. unfold MockStorage.logged.
  destruct (Value.convertible sessionId) eqn:C1; [|cbn; auto].
  destruct (Value.convertible quoteId) eqn:C2; [|cbn; auto].
  destruct (Value.convertible kycSessionId) eqn:C3; [|cbn; auto].
  cbn. rewrite later_not_before. cbn. split; [reflexivity|].
  right. right. exists sessionId, quoteId, kycSessionId, asset, network.
  rewrite T1, T2, T3, T4, T5, C1, C2, C3. repeat split; reflexivity.
Qed.

(** C2. On the server as it is wired, creation is never refused for an
    expired quote, an incomplete KYC session or an inactive session: a
    request with the five fields is answered 200 with a pending
    transaction, whichever identifiers it names. In the scenario a quote
    answered with an expiry at 902000 and a KYC session answered
    'pending', on which nothing was verified, are named half an hour
    later, and the transaction is created. *)
Theorem creation_never_refused_on_expiry_or_kyc :
  (let quoted :=
     (Wired.serve WiredScenario.runtime WiredScenario.env WiredScenario.services
        (WiredScenario.at_ 2000)
        (Quotes Wired.partnerKey WiredScenario.quoteQuery) Wired.start).1 in
   let kyc :=
     (Wired.serve WiredScenario.runtime WiredScenario.env WiredScenario.services
        (WiredScenario.at_ 3000)
        (KycSessionCreate Wired.partnerKey WiredScenario.kycBody) Wired.start).1 in
   let created :=
     (Wired.serve WiredScenario.runtime WiredScenario.env WiredScenario.services
        (WiredScenario.at_ 2000000)
        (TransactionCreate Wired.partnerKey WiredScenario.createBody) Wired.start).1 in
   Wired.data "quoteId" quoted = Value.Str "quote_2000" ∧
   Wired.data "expiresAt" quoted = Value.Date 902000 ∧
   Wired.data "kycSessionId" kyc = Value.Str "kycsess_3000" ∧
   Wired.data "status" kyc = Value.Str "pending" ∧
   code created = 200 ∧
   Wired.data "transactionId" created = Value.Str "txn_2000000" ∧
   Wired.data "status" created = Value.Str "pending_deposit" ∧
   Wired.data "expiresAt" created = Value.Date 2900000) ∧
  (∀ rt env sv c a body w,
     let r := Wired.serve rt env sv c (TransactionCreate a body) w in
     r.2 = w ∧
     (r.1 = refuse 401 "Missing or invalid authorization header" ∨
      r.1 = refuse 401 "Invalid or inactive API key" ∨
      r.1 = refuse 400 "sessionId, quoteId, kycSessionId, asset, and network are required" ∨
      r.1 = refuse 500 "Transaction creation failed" ∨
      ∃ quoteId network, r.1 = ok (Wired.created c quoteId network))) ∧
  (∀ rt env sv c body w sessionId quoteId kycSessionId asset network,
     Value.get "sessionId" body = Returns (Value.Str sessionId) →
     Value.get "quoteId" body = Returns (Value.Str quoteId) →
     Value.get "kycSessionId" body = Returns (Value.Str kycSessionId) →
     Value.get "asset" body = Returns (Value.Str asset) →
     Value.get "network" body = Returns (Value.Str network) →
     sessionId ≠ EmptyString → quoteId ≠ EmptyString → kycSessionId ≠ EmptyString →
     asset ≠ EmptyString → network ≠ EmptyString →
     Wired.serve rt env sv c (TransactionCreate Wired.partnerKey body) w
     = (ok (Wired.created c (Value.Str quoteId) (Value.Str network)), w)).
Proof.
  split; [vm_compute; repeat split; reflexivity|]. split.
  - intros rt env sv c a body w. cbn zeta. unfold Wired.serve, serve.
    destruct (transactionCreate_mock rt c body w) as [Hw Hr].
    destruct (authenticated_cases c a
                (fun _ => transactionCreate MockStorage.call rt c body) w)
      as [ -> | [ -> | -> ] ].
    + split; [reflexivity|]. left. reflexivity.
    + split; [reflexivity|]. right. left. reflexivity.
    + split; [exact Hw|]. right. right.
      destruct Hr as [Hr|[Hr|(s & q & k & a' & n & _ & _ & _ & _ & _ & _ & _ & Hr)]];
        [left; exact Hr|right; left; exact Hr|right; right; eauto].
  - intros rt env sv c body w sessionId quoteId kycSessionId asset network
      G1 G2 G3 G4 G5 T1 T2 T3 T4 T5.
    unfold Wired.serve, serve. rewrite authenticated_partnerKey.
    apply transactionCreate_mock_ok with (sessionId := Value.Str sessionId)
      (kycSessionId := Value.Str kycSessionId) (asset := Value.Str asset);
      auto using truthy_Str.
Qed.

Lemma get_truthy name v :
  Value.truthy v = true → Value.get name v = Returns (Value.getOpt name v).
Proof. destruct v; try discriminate; reflexivity. Qed.

(** The deposit handler on the wired storage, given the three fields. *)
Lemma simulateDeposit_mock_ok env c body w transactionId amount txHash :
  Value.get "transactionId" body = Returns transactionId →
  Value.get "amount" body = Returns amount →
  Value.get "txHash" body = Returns txHash →
  Value.truthy transactionId = true → Value.truthy amount = true →
  Value.truthy txHash = true →
  Value.convertible transactionId = true →
  simulateDeposit MockStorage.call env c body w
  = (ok (Wired.deposited transactionId txHash),
     Wired.delivering w (Wired.depositWebhook env c transactionId amount txHash)).
Proof.
  intros G1 G2 G3 T1 T2 T3 C1.
  unfold simulateDeposit, guarded, bind, lift, call, MockStorage.call, ret, notify,
    deliverWebhook.
  rewrite G1, G2, G3, T1, T2, T3. cbn [negb orb].
  destruct w as [[] sent].
  cbn. unfold MockStorage.logged. rewrite C1. cbn. reflexivity.
Qed.

(** The deposit handler on any storage: it does not read the status of
    the transaction. Whatever document the storage holds, the handler
    asks for the update to 'deposit_confirmed' with the reported amount
    and hash, looks a session up under the quote reference, and answers
    200. *)
Lemma simulateDeposit_any_status {S} (storage : StorageApi.t S) env c body w
    transactionId amount txHash transaction s1 updated s2 session s3 :
  Value.get "transactionId" body = Returns transactionId →
  Value.get "amount" body = Returns amount →
  Value.get "txHash" body = Returns txHash →
  Value.truthy transactionId = true → Value.truthy amount = true →
  Value.truthy txHash = true →
  storage c (GetTransactionById transactionId) (store w) = (Returns transaction, s1) →
  Value.truthy transaction = true →
  storage c (UpdateTransaction transactionId
               (Value.Obj [ ("status", Value.Str "deposit_confirmed");
                            ("depositedAmount", amount);
                            ("depositTxHash", txHash);
                            ("completedAt", Value.Date (Storage.now c)) ])) s1
    = (Returns updated, s2) →
  storage c (GetSessionById (Value.getOpt "quoteReference" transaction)) s2
    = (Returns session, s3) →
  ∃ data deliveries,
    simulateDeposit storage env c body w
    = (ok data, {| store := s3; posted := posted w ++ deliveries |}) ∧
    (Value.truthy (Value.getOpt "callbackUrl" session) = false → deliveries = []).
Proof.
  intros G1 G2 G3 T1 T2 T3 H1 Ht H2 H3.
  unfold simulateDeposit, guarded, bind, lift, call, ret, notify, deliverWebhook.
  rewrite G1, G2, G3, T1, T2, T3. cbn [negb orb].
  rewrite H1, Ht. cbn [negb store posted]. rewrite H2. cbn [store posted].
  rewrite !(get_truthy _ transaction Ht). rewrite H3. cbn [store posted].
  destruct (Value.truthy (Value.getOpt "callbackUrl" session)).
  - eexists _, [_]. split; [reflexivity|discriminate].
  - eexists _, []. rewrite app_nil_r. split; reflexivity.
Qed.

(** C3. A deposit report is accepted whatever happened to the
    transaction before. On the wired server two reports for the same
    transaction, with different amounts and hashes, are both answered
    200: each delivers a 'deposit.detected' webhook, with 100 and then
    with 999, and the transaction still reads 'pending_deposit'
    afterwards; every report with the three fields is accepted, for any
    identifier. On any storage the handler asks for the update without
    reading the status of the transaction. *)
Theorem deposit_report_is_replayed :
  (let result :=
     Wired.run WiredScenario.runtime WiredScenario.env WiredScenario.services
       [ (WiredScenario.at_ 2100000,
          SimulateDeposit Wired.partnerKey (WiredScenario.depositBody 100 "0xabc"));
         (WiredScenario.at_ 2200000,
          SimulateDeposit Wired.partnerKey (WiredScenario.depositBody 999 "0xdef"));
         (WiredScenario.at_ 2300000,
          TransactionStatus Wired.partnerKey "txn_2000000") ] Wired.start in
   map code result.1 = [200; 200; 200]%nat ∧
   map (Wired.data "event") result.1
     = [Value.Str "deposit.detected"; Value.Str "deposit.detected"; Value.Undefined] ∧
   map (Wired.data "status") result.1
     = [Value.Undefined; Value.Undefined; Value.Str "pending_deposit"] ∧
   map (fun d => (w_url d, Value.getOpt "event" (w_payload d),
                  Value.getOpt "transactionId" (w_payload d),
                  Value.getOpt "amount" (w_payload d),
                  Value.getOpt "txHash" (w_payload d)))
       (posted result.2)
     = [ (Value.Str "https://mockpartner.com/callback", Value.Str "deposit.detected",
          Value.Str "txn_2000000", Value.Num 100, Value.Str "0xabc");
         (Value.Str "https://mockpartner.com/callback", Value.Str "deposit.detected",
          Value.Str "txn_2000000", Value.Num 999, Value.Str "0xdef") ]) ∧
  (∀ rt env sv c body w transactionId amount txHash,
     Value.get "transactionId" body = Returns transactionId →
     Value.get "amount" body = Returns amount →
     Value.get "txHash" body = Returns txHash →
     Value.truthy transactionId = true → Value.truthy amount = true →
     Value.truthy txHash = true →
     Value.convertible transactionId = true →
     Wired.serve rt env sv c (SimulateDeposit Wired.partnerKey body) w
     = (ok (Wired.deposited transactionId txHash),
        Wired.delivering w (Wired.depositWebhook env c transactionId amount txHash))) ∧
  (∀ S (storage : StorageApi.t S) env c body w
      transactionId amount txHash transaction s1 updated s2 session s3,
     Value.get "transactionId" body = Returns transactionId →
     Value.get "amount" body = Returns amount →
     Value.get "txHash" body = Returns txHash →
     Value.truthy transactionId = true → Value.truthy amount = true →
     Value.truthy txHash = true →
     storage c (GetTransactionById transactionId) (store w) = (Returns transaction, s1) →
     Value.truthy transaction = true →
     storage c (UpdateTransaction transactionId
                  (Value.Obj [ ("status", Value.Str "deposit_confirmed");
                               ("depositedAmount", amount);
                               ("depositTxHash", txHash);
                               ("completedAt", Value.Date (Storage.now c)) ])) s1
       = (Returns updated, s2) →
     storage c (GetSessionById (Value.getOpt "quoteReference" transaction)) s2
       = (Returns session, s3) →
     ∃ data deliveries,
       simulateDeposit storage env c body w
       = (ok data, {| store := s3; posted := posted w ++ deliveries |}) ∧
       (Value.truthy (Value.getOpt "callbackUrl" session) = false → deliveries = [])).
Proof.
  split; [vm_compute; repeat split; reflexivity|]. split.
  - intros rt env sv c body w transactionId amount txHash G1 G2 G3 T1 T2 T3 C1.
    unfold Wired.serve, serve. rewrite authenticated_partnerKey.
    by apply simulateDeposit_mock_ok.
  - intros S storage env c body w transactionId amount txHash transaction s1 updated s2
      session s3. apply simulateDeposit_any_status.
Qed.




End WiredFacts.

(* ===================================================================== *)
(** * Completion of a KYC session *)
(* ===================================================================== *)

Module CompletionFacts.
Import Js StorageApi EnhancedRoutes KycAsks.


Section Spied.
Variable oracle : Spy.Oracle.
Variable P : Op → Prop.












End Spied.








End CompletionFacts.

